(** * terraform-provider-fhirrest: the fhir_resource reconciliation handlers

    A shallow embedding of [internal/provider/fhir_resource.go]
    ([persistFhirResource], [readFileContent] and the Create, Read, Update and
    Delete handlers of [FhirResource]) and of [ReadFhirResource], followed by
    the properties of the specification that concern them.

    Go strings and byte slices are both sequences of bytes; they are modelled
    by [string], and the conversions [string(body)] and [[]byte(s)] are the
    identity. *)

From Stdlib Require Import Ascii String NArith.
From stdpp Require Import base option list strings gmap.

Set Warnings "-register-all".
Local Open Scope string_scope.
Local Open Scope list_scope.

(** ** JSON values as [encoding/json] decodes them *)

(** What [json.Unmarshal] stores in an [interface{}]: nil, bool, float64,
    string, []interface{} or map[string]interface{}. A float64 is kept as its
    64-bit IEEE pattern; the provider never computes with one. *)
Inductive JValue : Type :=
  | JNil
  | JBool (b : bool)
  | JFloat64 (bits : Z)
  | JString (s : string)
  | JArray (l : list JValue)
  | JObject (m : gmap string JValue).

(** A Go variable of type [map[string]interface{}]: [None] is the nil map. *)
Definition JMap : Type := option (gmap string JValue).

(** [v, ok := m[key]]: the value and whether the key is there. Indexing a nil
    map is allowed and finds nothing. *)
Definition index (m : JMap) (key : string) : option JValue :=
  match m with
  | None => None
  | Some kv => kv !! key
  end.

(** The unchecked type assertion [v.(string)] on the value of [m[key]]: the
    string when the dynamic type is string, a run-time panic otherwise (also
    for the nil interface a missing key yields). [None] stands for the panic. *)
Definition assert_string (v : option JValue) : option string :=
  match v with
  | Some (JString s) => Some s
  | _ => None
  end.

(** ** Diagnostics of the plugin framework *)

Inductive Severity : Type := SeverityError | SeverityWarning.

Record Diagnostic : Type := mkDiagnostic {
  severity : Severity;
  Summary : string;
  Detail : string
}.

Definition Diagnostics : Type := list Diagnostic.

#[global] Instance Severity_eq_dec : EqDecision Severity.
Proof. solve_decision. Defined.

#[global] Instance Diagnostic_eq_dec : EqDecision Diagnostic.
Proof. solve_decision. Defined.

(** [diags.Append(in...)]: a diagnostic equal to one already collected is
    skipped. *)
Definition Append (diags new : Diagnostics) : Diagnostics :=
  fold_left (fun acc d => if decide (d ∈ acc) then acc else acc ++ [d]) new diags.

Definition AddError (diags : Diagnostics) (summary detail : string) : Diagnostics :=
  Append diags [mkDiagnostic SeverityError summary detail].

Definition isError (d : Diagnostic) : bool :=
  match severity d with SeverityError => true | SeverityWarning => false end.

Definition HasError (diags : Diagnostics) : bool := existsb isError diags.

(** ** [types.String] of the plugin framework *)

Inductive tfString : Type :=
  | StringNull
  | StringUnknown
  | StringValue (s : string).

(** [ValueString()]: the known value, the empty string for null and unknown. *)
Definition ValueString (s : tfString) : string :=
  match s with
  | StringValue v => v
  | _ => ""
  end.

(** [ValueStringPointer()]: nil for null, otherwise a pointer to the value
    (to the empty string for unknown). *)
Definition ValueStringPointer (s : tfString) : option string :=
  match s with
  | StringNull => None
  | StringUnknown => Some ""
  | StringValue v => Some v
  end.

(** ** HTTP requests and responses *)

(** [http.Header]: canonical key to the list of its values. *)
Definition Header : Type := gmap string (list string).

Record Request : Type := mkRequest {
  Method : string;
  URL : string;
  req_Header : Header;
  req_Body : option string
}.

(** What the handlers use of a [*http.Response]: the status line text and the
    bytes [io.ReadAll] gets from the body (its error is dropped by the code). *)
Record Response : Type := mkResponse {
  Status : string;
  resp_Body : string
}.

(** ** Settings and model *)

Record ProviderSettings : Type := mkProviderSettings {
  FhirBaseUrl : string;
  (** the pairs of the map in the order [range] visits them in this run *)
  DefaultHeaders : list (string * string);
  (** [Client.Do]: the error text, or the response *)
  Client : Request -> string + Response
}.

Record FhirResourceSettings : Type := mkFhirResourceSettings {
  FhirResourceFilePath : string;
  settings_FhirBaseUrl : option string
}.

(** The handlers run after [Configure] has stored the provider's settings, so
    the pointer [providerSettings] is not nil. *)
Record FhirResource : Type := mkFhirResource {
  providerSettings : ProviderSettings;
  fhirResourceSettings : FhirResourceSettings
}.

Record FhirResourceModel : Type := mkFhirResourceModel {
  FilePath : tfString;
  FileSha256 : tfString;
  model_FhirBaseUrl : tfString;
  ResourceId : tfString;
  ResponseSha256 : tfString
}.

(** ** The Go run-time the provider calls into *)

(** [os.Open] followed by [io.ReadAll]. *)
Inductive FileResult : Type :=
  | OpenError (msg : string)
  | ReadError (msg : string)
  | Content (bytes : string).

Record Runtime : Type := mkRuntime {
  (** decoding into a [map[string]interface{}]: [err.Error()], or the map
      (nil for the document [null]) *)
  json_Unmarshal : string -> string + JMap;
  (** encoding of a non-nil map; it cannot fail on decoded values *)
  json_Marshal : gmap string JValue -> string;
  (** [http.NewRequest] fails on these methods only when the URL does not
      parse: the error text, if any *)
  url_Parse_error : string -> option string;
  (** the key under which [Header.Set] files a header *)
  CanonicalMIMEHeaderKey : string -> string;
  (** what the verb [%s] prints for an operand that is not a string *)
  fmt_bad_verb : JValue -> string;
  os_file : string -> FileResult
}.

(** ** Library functions with a fixed meaning *)

(** [strings.Split(s, sep)] for a separator of one byte, the only use the
    provider makes of it. The result is never empty: a string without the
    separator gives the one-element slice of itself. *)
Fixpoint Split (s : string) (sep : ascii) : list string :=
  match s with
  | EmptyString => [EmptyString]
  | String c rest =>
      if Ascii.eqb c sep then EmptyString :: Split rest sep
      else match Split rest sep with
           | head :: tail => String c head :: tail
           | [] => [String c EmptyString]
           end
  end.

Definition hexdigit (n : N) : ascii :=
  match String.get (N.to_nat n) "0123456789abcdef" with
  | Some c => c
  | None => "0"%char
  end.

(** [hex.EncodeToString]: two lower-case digits per byte, high nibble first. *)
Fixpoint hex_EncodeToString (src : string) : string :=
  match src with
  | EmptyString => EmptyString
  | String c rest =>
      String (hexdigit (N.shiftr (N_of_ascii c) 4))
        (String (hexdigit (N.land (N_of_ascii c) 15)) (hex_EncodeToString rest))
  end.

(** The two lines of [persistFhirResource] that take the bare id out of an
    identifier: [parts := strings.Split(id, "/")] on the pointed-to string and
    [parts[len(parts)-1]]. [None] is the index-out-of-range panic. *)
Definition bareId (resourceId : string) : option string :=
  let parts := Split resourceId "/" in
  parts !! (length parts - 1)%nat.

(** [fmt.Sprintf("%s/%s", a, b)] on two strings. *)
Definition Sprintf_s_slash_s (a b : string) : string := a +:+ "/" +:+ b.

(** ** SHA-256 ([crypto/sha256], FIPS 180-4) on 32-bit words held in [N] *)

Module sha256.
Local Open Scope N_scope.

Definition w32 (x : N) : N := N.land x 0xffffffff.
Definition add32 (x y : N) : N := w32 (x + y).
Definition rotr (n x : N) : N := N.lor (N.shiftr x n) (w32 (N.shiftl x (32 - n))).
Definition xor3 (x y z : N) : N := N.lxor (N.lxor x y) z.
Definition Ch (x y z : N) : N := N.lxor (N.land x y) (N.land (N.lxor x 0xffffffff) z).
Definition Maj (x y z : N) : N := xor3 (N.land x y) (N.land x z) (N.land y z).
Definition bsig0 (x : N) : N := xor3 (rotr 2 x) (rotr 13 x) (rotr 22 x).
Definition bsig1 (x : N) : N := xor3 (rotr 6 x) (rotr 11 x) (rotr 25 x).
Definition ssig0 (x : N) : N := xor3 (rotr 7 x) (rotr 18 x) (N.shiftr x 3).
Definition ssig1 (x : N) : N := xor3 (rotr 17 x) (rotr 19 x) (N.shiftr x 10).

(** The constants of the standard are the leading 32 bits of the fractional
    parts of square roots and cube roots of the first primes; they are
    computed here rather than tabulated. *)
Definition isPrime (p : N) : bool :=
  forallb (fun d => negb (p mod N.of_nat d =? 0)) (seq 2 (N.to_nat p - 2)).

Definition primes : list N :=
  filter (fun p => isPrime p) (map N.of_nat (seq 2 310)).

(** The largest [r] below 2^41 with [r^3 <= n], one bit at a time. *)
Definition cbrt (n : N) : N :=
  fold_left (fun r b => let r' := r + 2 ^ N.of_nat b in
                        if r' * r' * r' <=? n then r' else r)
            (rev (seq 0 41)) 0.

Definition init : list N :=
  map (fun p => w32 (N.sqrt (p * 2 ^ 64))) (firstn 8 primes).

Definition K : list N :=
  map (fun p => w32 (cbrt (p * 2 ^ 96))) (firstn 64 primes).

(** The bytes of [x] on [n] bytes, most significant first. *)
Fixpoint bigEndian (n : nat) (x : N) : list N :=
  match n with
  | O => []
  | S m => N.land (N.shiftr x (8 * N.of_nat m)) 0xff :: bigEndian m x
  end.

Fixpoint bytes_of (s : string) : list N :=
  match s with
  | EmptyString => []
  | String c rest => N_of_ascii c :: bytes_of rest
  end.

Fixpoint string_of (l : list N) : string :=
  match l with
  | [] => EmptyString
  | b :: rest => String (ascii_of_N b) (string_of rest)
  end.

(** The message, the byte 0x80, zeros up to 56 modulo 64, and the bit length
    on eight bytes. *)
Definition pad (msg : list N) : list N :=
  let len := N.of_nat (length msg) in
  let zeros := (55 + 64 - len mod 64) mod 64 in
  msg ++ [0x80] ++ repeat 0 (N.to_nat zeros) ++ bigEndian 8 (8 * len).

Fixpoint words (fuel : nat) (bytes : list N) : list N :=
  match fuel, bytes with
  | S fuel, b0 :: b1 :: b2 :: b3 :: rest =>
      (N.shiftl b0 24 + N.shiftl b1 16 + N.shiftl b2 8 + b3) :: words fuel rest
  | _, _ => []
  end.

(** [recent] holds the schedule words computed so far, latest first. *)
Fixpoint schedule (n : nat) (recent : list N) : list N :=
  match n with
  | O => rev recent
  | S n =>
      let w := add32 (add32 (ssig1 (nth 1 recent 0)) (nth 6 recent 0))
                     (add32 (ssig0 (nth 14 recent 0)) (nth 15 recent 0)) in
      schedule n (w :: recent)
  end.

Definition round (v : list N) (kw : N * N) : list N :=
  match v with
  | [a; b; c; d; e; f; g; h] =>
      let t1 := add32 (add32 (add32 h (bsig1 e)) (add32 (Ch e f g) (fst kw))) (snd kw) in
      let t2 := add32 (bsig0 a) (Maj a b c) in
      [add32 t1 t2; a; b; c; add32 d t1; e; f; g]
  | _ => v
  end.

Definition block (h : list N) (w16 : list N) : list N :=
  let w := schedule 48 (rev w16) in
  let v := fold_left round (combine K w) h in
  map (fun p => add32 (fst p) (snd p)) (combine h v).

Fixpoint blocks (fuel : nat) (h : list N) (ws : list N) : list N :=
  match fuel, ws with
  | S fuel, _ :: _ => blocks fuel (block h (firstn 16 ws)) (skipn 16 ws)
  | _, _ => h
  end.

(** [sha256.Sum256(data)]: the 32 bytes of the digest. *)
Definition Sum256 (data : string) : string :=
  let padded := pad (bytes_of data) in
  let ws := words (length padded) padded in
  string_of (flat_map (bigEndian 4) (blocks (length ws) init ws)).

End sha256.

(** ** Runs of the provider's functions *)

(** A call either returns or panics; a Go panic in a handler is not turned
    into a diagnostic, it ends the plugin process. The text kept with a panic
    names its kind; it is not the exact message of the Go run-time. *)
Inductive Completion (A : Type) : Type :=
  | Returns (a : A)
  | Panics (why : string).
Arguments Returns {A} a.
Arguments Panics {A} why.

(** What a call leaves behind: the diagnostics collector it was given, with
    what it added; the requests it handed to [Client.Do], oldest first; and
    how it ended. *)
Record Run (A : Type) : Type := mkRun {
  diagnostics : Diagnostics;
  issued : list Request;
  completion : Completion A
}.
Arguments mkRun {A} _ _ _.
Arguments diagnostics {A} _.
Arguments issued {A} _.
Arguments completion {A} _.

(** The result of [Plan.Get(ctx, &data)] or [State.Get(ctx, &data)]: the
    model read and the diagnostics of the read. *)
Record Got : Type := mkGot {
  got : FhirResourceModel;
  got_diags : Diagnostics
}.

(** ** The base-URL rule in the words of the specification *)

(** "Use the per-call override if present and non-empty, else the configured
    default base URL." *)
Definition resolveBaseUrl_spec (override : option string) (default : string) : string :=
  match override with
  | None | Some EmptyString => default
  | Some url => url
  end.

(** The rule [persistFhirResource] and [Delete] both write out: the override
    whenever the pointer is not nil. *)
Definition resolveBaseUrl_code (override : option string) (default : string) : string :=
  match override with
  | Some url => url
  | None => default
  end.

Section Provider.

Variable rt : Runtime.

(** The verb [%s] on an [interface{}] operand. *)
Definition Sprintf_s (v : option JValue) : string :=
  match v with
  | Some (JString s) => s
  | Some JNil | None => "%!s(<nil>)"
  | Some other => fmt_bad_verb rt other
  end.

(** [http.NewRequest(method, url, body)] with one of the constant methods. *)
Definition http_NewRequest (method url : string) (body : option string)
  : string + Request :=
  match url_Parse_error rt url with
  | Some err => inl err
  | None => inr (mkRequest method url ∅ body)
  end.

(** [request.Header.Set(key, value)] *)
Definition Header_Set (request : Request) (key value : string) : Request :=
  mkRequest (Method request) (URL request)
            (<[CanonicalMIMEHeaderKey rt key := [value]]> (req_Header request))
            (req_Body request).

(** [for key, value := range headers { request.Header.Set(key, value) }] *)
Definition setDefaultHeaders (request : Request) (headers : list (string * string))
  : Request :=
  fold_left (fun rq kv => Header_Set rq kv.1 kv.2) headers request.

Definition readFileContent (filePath : string) (diag : Diagnostics)
  : option string * Diagnostics :=
  match os_file rt filePath with
  | OpenError err => (None, AddError diag ("failed to read file " +:+ filePath) err)
  | ReadError err => (None, AddError diag ("failed to open file " +:+ filePath) err)
  | Content byteValue => (Some byteValue, diag)
  end.

Definition persistFhirResource (fhirResource : FhirResource)
    (resourceId : option string) (diag : Diagnostics)
  : Run (option string * JMap * option string) :=
  let filePath := FhirResourceFilePath (fhirResourceSettings fhirResource) in
  match readFileContent filePath diag with
  | (None, diag) => mkRun diag [] (Returns (None, None, None))
  | (Some fileContent, diag) =>
  match json_Unmarshal rt fileContent with
  | inl err =>
      mkRun (AddError diag ("failed to unmarshal JSON file " +:+ filePath) err) []
            (Returns (None, None, None))
  | inr fileContentJson =>
  let resourceType := index fileContentJson "resourceType" in
  let resourceTypeStr := Sprintf_s resourceType in
  match resourceType with
  | None =>
      mkRun (AddError diag
               ("property resourceType not found in json file " +:+ filePath) "")
            [] (Returns (None, None, None))
  | Some _ =>
  let baseUrl :=
    match settings_FhirBaseUrl (fhirResourceSettings fhirResource) with
    | Some override => override
    | None => FhirBaseUrl (providerSettings fhirResource)
    end in
  let prepared : Completion (string * string * string) :=
    match resourceId with
    | None => Returns (Sprintf_s_slash_s baseUrl resourceTypeStr, "POST", fileContent)
    | Some id =>
        match bareId id, fileContentJson with
        | None, _ => Panics "index out of range"
        | Some _, None => Panics "assignment to entry in nil map"
        | Some last, Some kv =>
            Returns (Sprintf_s_slash_s baseUrl id, "PUT",
                     json_Marshal rt (<["id" := JString last]> kv))
        end
    end in
  match prepared with
  | Panics why => mkRun diag [] (Panics why)
  | Returns (url, requestMethod, requestBody) =>
  match http_NewRequest requestMethod url (Some requestBody) with
  | inl err =>
      mkRun (AddError diag "failed to create new request" err) []
            (Returns (None, None, None))
  | inr postRequest =>
  let postRequest :=
    setDefaultHeaders postRequest (DefaultHeaders (providerSettings fhirResource)) in
  let postRequest := Header_Set postRequest "Content-Type" "application/json" in
  match Client (providerSettings fhirResource) postRequest with
  | inl err =>
      mkRun (AddError diag
               ("could not post the " +:+ Sprintf_s resourceType +:+
                " on the url " +:+ url) err)
            [postRequest] (Returns (None, None, None))
  | inr postResponse =>
  let body := resp_Body postResponse in
  match Status postResponse with
  | EmptyString => mkRun diag [postRequest] (Panics "index out of range [0] with length 0")
  | String status0 _ =>
  if negb (Ascii.eqb status0 "2") then
    mkRun (AddError diag
             ("the server returned an invalid status for the " +:+
              Sprintf_s resourceType +:+ " on the url " +:+ url +:+ ": " +:+
              Status postResponse) body)
          [postRequest] (Returns (None, None, None))
  else
  match json_Unmarshal rt body with
  | inl err =>
      mkRun (AddError diag
               ("failed to unmarshal response JSON of the resource " +:+
                Sprintf_s resourceType) err)
            [postRequest] (Returns (None, None, None))
  | inr responseJson =>
      mkRun diag [postRequest] (Returns (Some body, responseJson, Some resourceTypeStr))
  end end end end end end end end.

Definition ReadFhirResource (providerSettings : ProviderSettings)
    (resourceId : string) (diag : Diagnostics) : Run (option string * bool) :=
  let url := Sprintf_s_slash_s (FhirBaseUrl providerSettings) resourceId in
  match http_NewRequest "GET" url None with
  | inl err =>
      mkRun (AddError diag ("could get the resource request using the URL " +:+ url) err)
            [] (Returns (None, true))
  | inr getRequest =>
  let getRequest := setDefaultHeaders getRequest (DefaultHeaders providerSettings) in
  let getRequest := Header_Set getRequest "Content-Type" "application/json" in
  match Client providerSettings getRequest with
  | inl err =>
      mkRun (AddError diag ("could not delete the resource using the URL " +:+ url) err)
            [getRequest] (Returns (None, true))
  | inr getResponse =>
  let body := resp_Body getResponse in
  match Status getResponse with
  | EmptyString => mkRun diag [getRequest] (Panics "index out of range [0] with length 0")
  | String status0 _ =>
  if negb (Ascii.eqb status0 "2") then
    mkRun (AddError diag
             ("could not get the resource using the URL " +:+ url +:+ ".")
             ("Error code " +:+ Status getResponse +:+ ". Response: " +:+ body))
          [getRequest] (Returns (None, true))
  else mkRun diag [getRequest] (Returns (Some body, false))
  end end end.

(** The assignment [r.fhirResourceSettings = FhirResourceSettings{...}] every
    handler makes from the model it read. Each handler overwrites the field
    before it reads it, so the update is kept as a local rebinding. *)
Definition withSettings (r : FhirResource) (data : FhirResourceModel) : FhirResource :=
  mkFhirResource (providerSettings r)
    (mkFhirResourceSettings (ValueString (FilePath data))
                            (ValueStringPointer (model_FhirBaseUrl data))).

(** The handlers start from the empty collector of a fresh response; the
    value of a run is the model handed to [resp.State.Set], if it was called
    (storing a model of the schema's own type adds no diagnostic). A nil
    slice hashes as the empty one. *)
Definition FhirResource_Create (r : FhirResource) (plan : Got)
  : Run (option FhirResourceModel) :=
  let data := got plan in
  let diags := Append [] (got_diags plan) in
  let r := withSettings r data in
  if HasError diags then mkRun diags [] (Returns None)
  else
    let p := persistFhirResource r None diags in
    match completion p with
    | Panics why => mkRun (diagnostics p) (issued p) (Panics why)
    | Returns (_, None, _) => mkRun (diagnostics p) (issued p) (Returns None)
    | Returns (body, Some responseJson, resourceType) =>
        let hash := sha256.Sum256 (default "" body) in
        let hashString := hex_EncodeToString hash in
        match assert_string (responseJson !! "id"), resourceType with
        | None, _ =>
            mkRun (diagnostics p) (issued p)
                  (Panics "interface conversion: interface {} is not string")
        | Some _, None =>
            mkRun (diagnostics p) (issued p) (Panics "nil pointer dereference")
        | Some id, Some resourceType =>
            let data :=
              mkFhirResourceModel (FilePath data) (FileSha256 data)
                (model_FhirBaseUrl data)
                (StringValue (Sprintf_s_slash_s resourceType id))
                (StringValue hashString) in
            mkRun (diagnostics p) (issued p) (Returns (Some data))
        end
    end.

(** Modelled from the spec: the four-parameter form of [ReadFhirResource]
    that [FhirResource.Read] calls, with the resource's base URL as its second
    argument, is missing from the sources, which hold the three-parameter form
    above (the one the data source calls). It is taken to be that function
    run under the base URL of the specification's rule, "use the per-call
    override if present and non-empty, else the configured default base
    URL", with the provider's headers and client. *)
Definition ReadFhirResource_with_override (providerSettings : ProviderSettings)
    (fhirBaseUrl : option string) (resourceId : string) (diag : Diagnostics)
  : Run (option string * bool) :=
  ReadFhirResource
    (mkProviderSettings
       (resolveBaseUrl_spec fhirBaseUrl (FhirBaseUrl providerSettings))
       (DefaultHeaders providerSettings) (Client providerSettings))
    resourceId diag.

(** [Read] passes [r.fhirResourceSettings.FhirBaseUrl] between the provider
    settings and the identifier. *)
Definition FhirResource_Read (r : FhirResource) (state : Got)
  : Run (option FhirResourceModel) :=
  let data := got state in
  let diags := Append [] (got_diags state) in
  if HasError diags then mkRun diags [] (Returns None)
  else
    let r := withSettings r data in
    let p :=
      ReadFhirResource_with_override (providerSettings r)
        (settings_FhirBaseUrl (fhirResourceSettings r))
        (ValueString (ResourceId data)) diags in
    match completion p with
    | Panics why => mkRun (diagnostics p) (issued p) (Panics why)
    | Returns (_, true) => mkRun (diagnostics p) (issued p) (Returns None)
    | Returns (body, false) =>
        match json_Unmarshal rt (default "" body) with
        | inl err =>
            mkRun (AddError (diagnostics p)
                     ("failed to unmarshal response JSON of the resource " +:+
                      ValueString (ResourceId data)) err)
                  (issued p) (Returns None)
        | inr responseJson =>
            let hash := sha256.Sum256 (default "" body) in
            let hashString := hex_EncodeToString hash in
            match assert_string (index responseJson "id"),
                  assert_string (index responseJson "resourceType") with
            | Some id, Some resourceType =>
                let data :=
                  mkFhirResourceModel (FilePath data) (FileSha256 data)
                    (model_FhirBaseUrl data)
                    (StringValue (Sprintf_s_slash_s resourceType id))
                    (StringValue hashString) in
                mkRun (diagnostics p) (issued p) (Returns (Some data))
            | _, _ =>
                mkRun (diagnostics p) (issued p)
                      (Panics "interface conversion: interface {} is not string")
            end
        end
    end.

Definition FhirResource_Update (r : FhirResource) (prior plan : Got)
  : Run (option FhirResourceModel) :=
  let state := got prior in
  let diags := Append [] (got_diags prior) in
  let data := got plan in
  let diags := Append diags (got_diags plan) in
  if HasError diags then mkRun diags [] (Returns None)
  else
    let r := withSettings r data in
    let p := persistFhirResource r (ValueStringPointer (ResourceId state)) diags in
    match completion p with
    | Panics why => mkRun (diagnostics p) (issued p) (Panics why)
    | Returns (_, None, _) => mkRun (diagnostics p) (issued p) (Returns None)
    | Returns (body, Some responseJson, resourceType) =>
        let hash := sha256.Sum256 (default "" body) in
        let hashString := hex_EncodeToString hash in
        match assert_string (responseJson !! "id"), resourceType with
        | None, _ =>
            mkRun (diagnostics p) (issued p)
                  (Panics "interface conversion: interface {} is not string")
        | Some _, None =>
            mkRun (diagnostics p) (issued p) (Panics "nil pointer dereference")
        | Some id, Some resourceType =>
            let state :=
              mkFhirResourceModel (FilePath data) (FileSha256 data)
                (model_FhirBaseUrl state)
                (StringValue (Sprintf_s_slash_s resourceType id))
                (StringValue hashString) in
            mkRun (diagnostics p) (issued p) (Returns (Some state))
        end
    end.

(** [Delete] sets nothing in the state; its value is [tt]. *)
Definition FhirResource_Delete (r : FhirResource) (state : Got) : Run unit :=
  let data := got state in
  let diags := Append [] (got_diags state) in
  if HasError diags then mkRun diags [] (Returns tt)
  else
    let r := withSettings r data in
    let baseUrl :=
      match settings_FhirBaseUrl (fhirResourceSettings r) with
      | Some override => override
      | None => FhirBaseUrl (providerSettings r)
      end in
    let url := Sprintf_s_slash_s baseUrl (ValueString (ResourceId data)) in
    match http_NewRequest "DELETE" url None with
    | inl err =>
        mkRun (AddError diags
                 ("could not create the delete request using the URL " +:+ url) err)
              [] (Returns tt)
    | inr deleteRequest =>
    let deleteRequest :=
      setDefaultHeaders deleteRequest (DefaultHeaders (providerSettings r)) in
    let deleteRequest := Header_Set deleteRequest "Content-Type" "application/json" in
    match Client (providerSettings r) deleteRequest with
    | inl err =>
        mkRun (AddError diags
                 ("could not delete the resource using the URL " +:+ url) err)
              [deleteRequest] (Returns tt)
    | inr deleteResponse =>
    let body := resp_Body deleteResponse in
    match Status deleteResponse with
    | EmptyString =>
        mkRun diags [deleteRequest] (Panics "index out of range [0] with length 0")
    | String status0 _ =>
    if negb (Ascii.eqb status0 "2") then
      mkRun (AddError diags
               ("could not delete the resource using the URL " +:+ url +:+ ".")
               ("Error code " +:+ Status deleteResponse +:+ ". Response: " +:+ body))
            [deleteRequest] (Returns tt)
    else mkRun diags [deleteRequest] (Returns tt)
    end end end.

(** ** The request each function builds, for the statements below *)

(** The headers every function puts on its request: the defaults in the
    order of the loop, then the content type. *)
Definition withHeaders (request : Request) (headers : list (string * string))
  : Request :=
  Header_Set (setDefaultHeaders request headers) "Content-Type" "application/json".

(** The request [persistFhirResource] hands to the client for a file with the
    bytes [fileContent] that decode to [kv] with the resource type [type]:
    a POST of the file to the type's URL without an identifier, a PUT of the
    re-encoded document to the identifier's URL with one. *)
Definition persistRequest (fhirResource : FhirResource) (resourceId : option string)
    (fileContent : string) (kv : gmap string JValue) (type : JValue) : Request :=
  let baseUrl :=
    resolveBaseUrl_code (settings_FhirBaseUrl (fhirResourceSettings fhirResource))
                        (FhirBaseUrl (providerSettings fhirResource)) in
  let bare :=
    match resourceId with
    | None => mkRequest "POST" (Sprintf_s_slash_s baseUrl (Sprintf_s (Some type)))
                        ∅ (Some fileContent)
    | Some id =>
        mkRequest "PUT" (Sprintf_s_slash_s baseUrl id) ∅
                  (Some (json_Marshal rt (<["id" := JString (default id (bareId id))]> kv)))
    end in
  withHeaders bare (DefaultHeaders (providerSettings fhirResource)).

(** The settings under which [Read] runs [ReadFhirResource]: the provider's,
    with the base URL resolved for the resource. *)
Definition readSettings (r : FhirResource) (data : FhirResourceModel)
  : ProviderSettings :=
  mkProviderSettings
    (resolveBaseUrl_spec (ValueStringPointer (model_FhirBaseUrl data))
                         (FhirBaseUrl (providerSettings r)))
    (DefaultHeaders (providerSettings r)) (Client (providerSettings r)).

(** The requests of [ReadFhirResource] and of [Delete]. *)
Definition plainRequest (method url : string) (providerSettings : ProviderSettings)
  : Request :=
  withHeaders (mkRequest method url ∅ None) (DefaultHeaders providerSettings).

End Provider.

(** [strings.Join(elems, sep)] for a separator of one byte. *)
Fixpoint Join (elems : list string) (sep : ascii) : string :=
  match elems with
  | [] => EmptyString
  | [s] => s
  | s :: rest => s +:+ String sep (Join rest sep)
  end.

(** Whether the byte occurs in the string ([strings.ContainsRune] on a byte). *)
Fixpoint hasByte (s : string) (b : ascii) : bool :=
  match s with
  | EmptyString => false
  | String c rest => Ascii.eqb c b || hasByte rest b
  end.

(** ** Conditions on the surroundings of a call, for the statements below *)

(** The file at [path] can be read and decodes to the object [kv], which has
    the resource type [type]. *)
Definition documentReady (rt : Runtime) (path fileContent : string)
    (kv : gmap string JValue) (type : JValue) : Prop :=
  os_file rt path = Content fileContent ∧
  json_Unmarshal rt fileContent = inr (Some kv) ∧
  kv !! "resourceType" = Some type.

(** The server answers every request with [response]. *)
Definition answers (ps : ProviderSettings) (response : Response) : Prop :=
  ∀ request, Client ps request = inr response.

(** Every call of the client fails with [err] before a response arrives. *)
Definition fails (ps : ProviderSettings) (err : string) : Prop :=
  ∀ request, Client ps request = inl err.

(** Every URL parses. *)
Definition urlsParse (rt : Runtime) : Prop := ∀ url, url_Parse_error rt url = None.

(** The headers a request is to carry: the content type is exactly
    [application/json]; every configured default is set (its canonical key is
    present) and holds the configured value unless its key is the content
    type's or another default with a different value is filed under the same
    canonical key. *)
Definition carriesConfiguredHeaders (rt : Runtime) (ps : ProviderSettings)
    (request : Request) : Prop :=
  req_Header request !! CanonicalMIMEHeaderKey rt "Content-Type"
  = Some ["application/json"] ∧
  ∀ k v, (k, v) ∈ DefaultHeaders ps →
    is_Some (req_Header request !! CanonicalMIMEHeaderKey rt k) ∧
    (CanonicalMIMEHeaderKey rt k ≠ CanonicalMIMEHeaderKey rt "Content-Type" →
     (∀ k' v', (k', v') ∈ DefaultHeaders ps →
        CanonicalMIMEHeaderKey rt k' = CanonicalMIMEHeaderKey rt k → v' = v) →
     req_Header request !! CanonicalMIMEHeaderKey rt k = Some [v]).

(** Whether the byte is one of the sixteen lower-case hexadecimal digits. *)
Definition isHexDigit (c : ascii) : bool :=
  let n := N_of_ascii c in
  ((48 <=? n) && (n <=? 57) || (97 <=? n) && (n <=? 102))%N.

(** ** The data source, [Configure] and the provider *)

Record FhirResourceDataSourceModel : Type := mkFhirResourceDataSourceModel {
  ds_ResourceId : tfString;
  Resource : tfString
}.

(** The result of [req.Config.Get(ctx, &data)] in the data source. *)
Record GotDataSource : Type := mkGotDataSource {
  got_ds : FhirResourceDataSourceModel;
  got_ds_diags : Diagnostics
}.

(** The value of [req.ProviderData], an [interface{}]: nil, a pointer to
    provider settings (which may itself be nil), or a value of another type,
    kept as the name [%T] prints for it. *)
Inductive ProviderData : Type :=
  | ProviderData_nil
  | ProviderData_settings (pointer : option ProviderSettings)
  | ProviderData_other (typeName : string).

(** [FhirResource.Configure] on the field [r.providerSettings]: the field
    after the call and the collector after the call. A failed two-result
    assertion stores the zero value, the nil pointer, in the field. *)
Definition FhirResource_Configure (providerSettings : option ProviderSettings)
    (data : ProviderData) (diags : Diagnostics)
  : option ProviderSettings * Diagnostics :=
  match data with
  | ProviderData_nil => (providerSettings, diags)
  | ProviderData_settings pointer => (pointer, diags)
  | ProviderData_other typeName =>
      (None,
       AddError diags "Unexpected Resource Configure Type"
         ("Expected *ProviderSettings, got: " +:+ typeName +:+
          ". Please report this issue to the provider developers."))
  end.

(** [FhirResourceDataSource.Configure], the same statements on
    [d.providerSettings]. *)
Definition FhirResourceDataSource_Configure (providerSettings : option ProviderSettings)
    (data : ProviderData) (diags : Diagnostics)
  : option ProviderSettings * Diagnostics :=
  match data with
  | ProviderData_nil => (providerSettings, diags)
  | ProviderData_settings pointer => (pointer, diags)
  | ProviderData_other typeName =>
      (None,
       AddError diags "Unexpected Resource Configure Type"
         ("Expected *ProviderSettings, got: " +:+ typeName +:+
          ". Please report this issue to the provider developers."))
  end.

Section DataSource.

Variable rt : Runtime.

(** [FhirResourceDataSource.Read]: the body is stored as it came,
    [string(body)], without decoding it. *)
Definition FhirResourceDataSource_Read (providerSettings : ProviderSettings)
    (config : GotDataSource) : Run (option FhirResourceDataSourceModel) :=
  let data := got_ds config in
  let diags := Append [] (got_ds_diags config) in
  if HasError diags then mkRun diags [] (Returns None)
  else
    let p := ReadFhirResource rt providerSettings (ValueString (ds_ResourceId data)) diags in
    match completion p with
    | Panics why => mkRun (diagnostics p) (issued p) (Panics why)
    | Returns (_, true) => mkRun (diagnostics p) (issued p) (Returns None)
    | Returns (body, false) =>
        let data :=
          mkFhirResourceDataSourceModel (ds_ResourceId data)
                                        (StringValue (default "" body)) in
        mkRun (diagnostics p) (issued p) (Returns (Some data))
    end.

End DataSource.

Section ProviderConfigure.

(** [types.Map] of the framework and what [ElementsAs] puts into the Go map
    (in the order a later [range] visits it); its diagnostics are dropped by
    the provider. *)
Variable tfMap : Type.
Variable ElementsAs : tfMap -> list (string * string).

(** [http.DefaultClient.Do] *)
Variable DefaultClient : Request -> string + Response.

Record FhirRestProviderModel : Type := mkFhirRestProviderModel {
  provider_FhirBaseUrl : tfString;
  provider_DefaultHeaders : tfMap
}.

(** The fields of [provider.ConfigureResponse] the provider writes. *)
Record ConfigureResponse : Type := mkConfigureResponse {
  cfg_Diagnostics : Diagnostics;
  DataSourceData : ProviderData;
  ResourceData : ProviderData
}.

(** [FhirRestProvider.Configure], from the diagnostics and the model of
    [req.Config.Get]. *)
Definition FhirRestProvider_Configure (data : FhirRestProviderModel)
    (get_diags : Diagnostics) : ConfigureResponse :=
  let diags := Append [] get_diags in
  if HasError diags then mkConfigureResponse diags ProviderData_nil ProviderData_nil
  else
    let headers := ElementsAs (provider_DefaultHeaders data) in
    let settings :=
      mkProviderSettings (ValueString (provider_FhirBaseUrl data)) headers
                         DefaultClient in
    mkConfigureResponse diags (ProviderData_settings (Some settings))
                        (ProviderData_settings (Some settings)).

End ProviderConfigure.

(** ** A concrete run-time, file system and server for the examples *)

Module Sample.

Definition dq : string := String "034"%char EmptyString.

(** The JSON member [k] with the string value [v], both free of characters
    that need escaping. *)
Definition member (k v : string) : string :=
  dq +:+ k +:+ dq +:+ ":" +:+ dq +:+ v +:+ dq.

Definition doc_Patient : string := "{" +:+ member "resourceType" "Patient" +:+ "}".
Definition doc_Observation : string := "{" +:+ member "resourceType" "Observation" +:+ "}".
Definition doc_emptyType : string := "{" +:+ member "resourceType" "" +:+ "}".
Definition body_noId : string := "{}".
Definition body_id1 : string := "{" +:+ member "id" "1" +:+ "}".
Definition body_Person1 : string :=
  "{" +:+ member "resourceType" "Person" +:+ "," +:+ member "id" "1" +:+ "}".

(** [json.Unmarshal] on the six documents above; every other input is
    reported as malformed. *)
Definition Unmarshal (data : string) : string + JMap :=
  if String.eqb data doc_Patient then inr (Some {["resourceType" := JString "Patient"]})
  else if String.eqb data doc_Observation then
    inr (Some {["resourceType" := JString "Observation"]})
  else if String.eqb data doc_emptyType then inr (Some {["resourceType" := JString ""]})
  else if String.eqb data body_noId then inr (Some ∅)
  else if String.eqb data body_id1 then inr (Some {["id" := JString "1"]})
  else if String.eqb data body_Person1 then
    inr (Some (<["resourceType" := JString "Person"]> {["id" := JString "1"]}))
  else inl "invalid character".

(** [json.Marshal] on the maps that hold exactly the keys [id] and
    [resourceType] with plain strings (keys come out sorted). *)
Definition Marshal (m : gmap string JValue) : string :=
  match m !! "id", m !! "resourceType" with
  | Some (JString id), Some (JString type) =>
      "{" +:+ member "id" id +:+ "," +:+ member "resourceType" type +:+ "}"
  | _, _ => "{}"
  end.

Definition upper (c : ascii) : ascii :=
  if ((97 <=? N_of_ascii c) && (N_of_ascii c <=? 122))%N
  then ascii_of_N (N_of_ascii c - 32) else c.

Definition lower (c : ascii) : ascii :=
  if ((65 <=? N_of_ascii c) && (N_of_ascii c <=? 90))%N
  then ascii_of_N (N_of_ascii c + 32) else c.

Fixpoint canonical (up : bool) (key : string) : string :=
  match key with
  | EmptyString => EmptyString
  | String c rest =>
      let c := if up then upper c else lower c in
      String c (canonical (Ascii.eqb c "-") rest)
  end.

(** [textproto.CanonicalMIMEHeaderKey] on keys made of letters, digits and
    hyphens: upper case at the start and after a hyphen, lower case elsewhere. *)
Definition CanonicalMIMEHeaderKey (key : string) : string := canonical true key.

Definition files (path : string) : FileResult :=
  if String.eqb path "patient.json" then Content doc_Patient
  else if String.eqb path "observation.json" then Content doc_Observation
  else if String.eqb path "untyped.json" then Content doc_emptyType
  else OpenError ("open " +:+ path +:+ ": no such file or directory").

Definition rt : Runtime :=
  mkRuntime Unmarshal Marshal (fun _ => None) CanonicalMIMEHeaderKey
            (fun _ => "%!s(?)") files.

(** A server that answers every request with the same status and body. *)
Definition server (status body : string) (request : Request) : string + Response :=
  inr (mkResponse status body).

Definition settings (status body : string) : ProviderSettings :=
  mkProviderSettings "http://fhir.example"
    [("Accept", "application/fhir+json"); ("content-type", "text/plain")]
    (server status body).

(** The receiver before a handler runs; its resource settings are overwritten
    by each handler. *)
Definition resource (status body : string) : FhirResource :=
  mkFhirResource (settings status body) (mkFhirResourceSettings "" None).

Definition planned (path : string) (override : tfString) : Got :=
  mkGot (mkFhirResourceModel (StringValue path) StringNull override
                             StringUnknown StringUnknown) [].

Definition stored (path id : string) (override : tfString) : Got :=
  mkGot (mkFhirResourceModel (StringValue path) (StringValue "0f0f") override
                             (StringValue id) (StringValue "beef")) [].

End Sample.

(** Further servers and inputs for the examples. *)
Module Fixtures.

(** A client whose every call fails before a response arrives. *)
Definition unreachable (err : string) (request : Request) : string + Response :=
  inl err.

Definition offline (err : string) : FhirResource :=
  mkFhirResource
    (mkProviderSettings "http://fhir.example" [("Accept", "application/fhir+json")]
                        (unreachable err))
    (mkFhirResourceSettings "" None).

(** The diagnostics of a model read that failed. *)
Definition failedGet : Diagnostics :=
  [mkDiagnostic SeverityError "Value Conversion Error" "cannot read the model"].

Definition warnedGet : Diagnostics :=
  [mkDiagnostic SeverityWarning "Deprecated" "the attribute is deprecated"].

Definition doc_Person : string :=
  "{" +:+ Sample.member "resourceType" "Person" +:+ "}".

(** A run-time like [Sample.rt] that also decodes the document [null] (to
    the nil map) and a document of type [Person], and holds the files
    [person.json] and [broken.json], the latter not JSON. *)
Definition Unmarshal (data : string) : string + JMap :=
  if String.eqb data "null" then inr None
  else if String.eqb data doc_Person then
    inr (Some {["resourceType" := JString "Person"]})
  else Sample.Unmarshal data.

Definition files (path : string) : FileResult :=
  if String.eqb path "broken.json" then Content "{"
  else if String.eqb path "locked.json" then ReadError "read locked.json: input/output error"
  else if String.eqb path "person.json" then Content doc_Person
  else Sample.files path.

Definition rt : Runtime :=
  mkRuntime Unmarshal Sample.Marshal (fun _ => None) Sample.CanonicalMIMEHeaderKey
            (fun _ => "%!s(?)") files.

Definition lookedUp (id : string) : GotDataSource :=
  mkGotDataSource (mkFhirResourceDataSourceModel (StringValue id) StringUnknown) [].

End Fixtures.

(** * Properties *)

(** ** The library functions on known values *)

Example sha256_constants :
  length sha256.primes = 64 ∧
  nth 0 sha256.K 0%N = 0x428a2f98%N ∧ nth 63 sha256.K 0%N = 0xc67178f2%N ∧
  nth 0 sha256.init 0%N = 0x6a09e667%N ∧ nth 7 sha256.init 0%N = 0x5be0cd19%N.
Proof. vm_compute. by split_and!. Qed.

Example Sum256_abc :
  hex_EncodeToString (sha256.Sum256 "abc")
  = "ba7816bf8f01cfea414140de5dae2223b00361a396177a9cb410ff61f20015ad".
Proof. vm_compute. reflexivity. Qed.

Example Sum256_empty :
  hex_EncodeToString (sha256.Sum256 "")
  = "e3b0c44298fc1c149afbf4c8996fb92427ae41e4649b934ca495991b7852b855".
Proof. vm_compute. reflexivity. Qed.

(** A message of 56 bytes, which pads to two blocks. *)
Example Sum256_two_blocks :
  hex_EncodeToString
    (sha256.Sum256 "abcdbcdecdefdefgefghfghighijhijkijkljklmklmnlmnomnopnopq")
  = "248d6a61d20638b8e5c026930c3e6039a33ce45964ff2167f6ecedd419db06c1".
Proof. vm_compute. reflexivity. Qed.

Example Split_three : Split "Patient/a/b" "/" = ["Patient"; "a"; "b"].
Proof. reflexivity. Qed.

Example Split_of_empty : Split "" "/" = [""].
Proof. reflexivity. Qed.

Example Split_trailing : Split "Patient/" "/" = ["Patient"; ""].
Proof. reflexivity. Qed.

Example canonical_key :
  Sample.CanonicalMIMEHeaderKey "content-type" = "Content-Type".
Proof. reflexivity. Qed.

(** ** Diagnostics *)

Lemma HasError_app (ds es : Diagnostics) :
  HasError (ds ++ es) = HasError ds || HasError es.
Proof. unfold HasError. apply existsb_app. Qed.

Lemma HasError_elem (d : Diagnostic) (ds : Diagnostics) :
  d ∈ ds → isError d = true → HasError ds = true.
Proof.
  intros Hin Herr. unfold HasError. apply existsb_exists.
  exists d. split; [by apply list_elem_of_In | done].
Qed.

Lemma HasError_AddError (ds : Diagnostics) (summary detail : string) :
  HasError (AddError ds summary detail) = true.
Proof.
  unfold AddError, Append. simpl. case_decide as Hin.
  - by eapply HasError_elem.
  - rewrite HasError_app. simpl. by rewrite orb_true_r.
Qed.

Lemma AddError_keeps (ds : Diagnostics) (summary detail : string) (d : Diagnostic) :
  d ∈ ds → d ∈ AddError ds summary detail.
Proof.
  intros Hin. unfold AddError, Append. simpl. case_decide; [done |].
  apply elem_of_app. by left.
Qed.

(** ** The identifier: [strings.Split] and the last segment *)

Lemma Split_nonempty (s : string) (sep : ascii) : Split s sep ≠ [].
Proof.
  destruct s as [| c rest]; simpl; [done |].
  destruct (Ascii.eqb c sep); [done |]. by destruct (Split rest sep).
Qed.

Lemma Split_no_sep (s : string) (sep : ascii) :
  hasByte s sep = false → Split s sep = [s].
Proof.
  induction s as [| c rest IH]; simpl; [done |].
  intros [Hc Hrest]%orb_false_iff. rewrite Hc, (IH Hrest). done.
Qed.

(** Splitting distributes over a separator written between two strings. *)
Lemma Split_append (a b : string) (sep : ascii) :
  Split (a +:+ String sep b) sep = Split a sep ++ Split b sep.
Proof.
  induction a as [| c rest IH]; simpl.
  - by rewrite Ascii.eqb_refl.
  - destruct (Ascii.eqb c sep); rewrite IH; [done |].
    pose proof (Split_nonempty rest sep).
    by destruct (Split rest sep).
Qed.

Lemma Join_Split (s : string) (sep : ascii) : Join (Split s sep) sep = s.
Proof.
  induction s as [| c rest IH]; simpl; [done |].
  pose proof (Split_nonempty rest sep).
  destruct (Ascii.eqb c sep) eqn:Hc.
  - apply Ascii.eqb_eq in Hc as ->.
    destruct (Split rest sep) as [| head tail]; [done |]. by rewrite <- IH.
  - destruct (Split rest sep) as [| head tail]; [done |].
    rewrite <- IH. by destruct tail.
Qed.

Lemma bareId_last (resourceId : string) :
  bareId resourceId = last (Split resourceId "/").
Proof. unfold bareId. simpl. by rewrite last_lookup, Nat.sub_1_r. Qed.

Lemma bareId_is_Some (resourceId : string) : is_Some (bareId resourceId).
Proof.
  rewrite bareId_last. pose proof (Split_nonempty resourceId "/").
  destruct (Split resourceId "/") as [| h t] using rev_ind; [done |].
  rewrite last_snoc. eauto.
Qed.

Lemma bareId_no_slash (resourceId : string) :
  hasByte resourceId "/" = false → bareId resourceId = Some resourceId.
Proof. intros H. by rewrite bareId_last, Split_no_sep. Qed.

Lemma Sprintf_s_slash_s_eq (a b : string) :
  Sprintf_s_slash_s a b = a +:+ String "/" b.
Proof. reflexivity. Qed.

Lemma bareId_Sprintf (type id : string) :
  bareId (Sprintf_s_slash_s type id) = bareId id.
Proof.
  rewrite !bareId_last, Sprintf_s_slash_s_eq, Split_append.
  pose proof (Split_nonempty id "/").
  destruct (Split id "/") as [| h t] using rev_ind; [done |].
  by rewrite app_assoc, !last_snoc.
Qed.

(** C1, as amended. The code has no parser that returns a type and an id:
    [Update] takes the bare id as the last segment of
    [strings.Split(identifier, "/")]. For every type and every id without a
    slash, that segment of the serialized identifier [type/id] is the id;
    when the type has no slash either, the split of [type/id] is exactly the
    type and the id; and every string that splits into a type and an id is
    the serialization of the two. *)
Theorem C1_bare_id_round_trip (type id : string) :
  hasByte id "/" = false →
  bareId (Sprintf_s_slash_s type id) = Some id ∧
  (hasByte type "/" = false → Split (Sprintf_s_slash_s type id) "/" = [type; id]) ∧
  (∀ s, Split s "/" = [type; id] → Sprintf_s_slash_s type id = s).
Proof.
  intros Hid. split; [| split].
  - by rewrite bareId_Sprintf, bareId_no_slash.
  - intros Htype.
    by rewrite Sprintf_s_slash_s_eq, Split_append, !Split_no_sep.
  - intros s Hs. rewrite <- (Join_Split s "/"), Hs. reflexivity.
Qed.

Lemma C1_bare_id_round_trip_witness :
  bareId (Sprintf_s_slash_s "Patient" "08146022-932a-4001-9fe4-928382855ddf")
  = Some "08146022-932a-4001-9fe4-928382855ddf".
Proof.
  apply (C1_bare_id_round_trip "Patient" "08146022-932a-4001-9fe4-928382855ddf").
  reflexivity.
Defined.

(** C1 as stated fails: an id that contains a slash is not preserved, only
    its last segment is kept. *)
Lemma C1_id_with_slash_truncated :
  hasByte "Patient" "/" = false ∧
  bareId (Sprintf_s_slash_s "Patient" "a/b") = Some "b" ∧
  bareId (Sprintf_s_slash_s "Patient" "a/b") ≠ Some "a/b".
Proof. split; [reflexivity | split; [reflexivity | discriminate]]. Qed.

(** ** Request headers *)

Section Headers.

Variable rt : Runtime.

Local Abbreviation canon := (CanonicalMIMEHeaderKey rt).

Lemma Header_Set_lookup (request : Request) (key value : string) :
  req_Header (Header_Set rt request key value) !! canon key = Some [value].
Proof. simpl. apply lookup_insert_eq. Qed.

Lemma Header_Set_lookup_ne (request : Request) (key value other : string) :
  canon key ≠ other →
  req_Header (Header_Set rt request key value) !! other = req_Header request !! other.
Proof. intros Hne. simpl. by apply lookup_insert_ne. Qed.

Lemma setDefaultHeaders_cons (request : Request) (k v : string)
    (headers : list (string * string)) :
  setDefaultHeaders rt request ((k, v) :: headers)
  = setDefaultHeaders rt (Header_Set rt request k v) headers.
Proof. reflexivity. Qed.

(** A key that already holds [v] keeps it when every later header filed
    under it carries [v] too. *)
Lemma setDefaultHeaders_stable (headers : list (string * string))
    (request : Request) (key v : string) :
  (∀ k' v', (k', v') ∈ headers → canon k' = key → v' = v) →
  req_Header request !! key = Some [v] →
  req_Header (setDefaultHeaders rt request headers) !! key = Some [v].
Proof.
  revert request.
  induction headers as [| [k0 v0] tail IH]; intros request Hall Hreq; [done |].
  rewrite setDefaultHeaders_cons. apply IH.
  - intros k' v' Hin. apply Hall. by right.
  - destruct (decide (canon k0 = key)) as [Heq | Hne].
    + rewrite <- Heq, (Hall k0 v0); [apply Header_Set_lookup | by left | done].
    + by rewrite Header_Set_lookup_ne.
Qed.

Lemma setDefaultHeaders_is_Some (headers : list (string * string))
    (request : Request) (key : string) :
  is_Some (req_Header request !! key) →
  is_Some (req_Header (setDefaultHeaders rt request headers) !! key).
Proof.
  revert request.
  induction headers as [| [k0 v0] tail IH]; intros request Hreq; [done |].
  rewrite setDefaultHeaders_cons. apply IH.
  destruct (decide (canon k0 = key)) as [<- | Hne].
  - rewrite Header_Set_lookup. eauto.
  - by rewrite Header_Set_lookup_ne.
Qed.

Lemma setDefaultHeaders_set (headers : list (string * string))
    (request : Request) (k v : string) :
  (k, v) ∈ headers →
  is_Some (req_Header (setDefaultHeaders rt request headers) !! canon k).
Proof.
  revert request.
  induction headers as [| [k0 v0] tail IH]; intros request Hin.
  - by apply elem_of_nil in Hin.
  - rewrite setDefaultHeaders_cons.
    apply elem_of_cons in Hin as [[= -> ->] | Hin]; [| by apply IH].
    apply setDefaultHeaders_is_Some. rewrite Header_Set_lookup. eauto.
Qed.

Lemma setDefaultHeaders_value (headers : list (string * string))
    (request : Request) (k v : string) :
  (k, v) ∈ headers →
  (∀ k' v', (k', v') ∈ headers → canon k' = canon k → v' = v) →
  req_Header (setDefaultHeaders rt request headers) !! canon k = Some [v].
Proof.
  revert request.
  induction headers as [| [k0 v0] tail IH]; intros request Hin Hall.
  - by apply elem_of_nil in Hin.
  - rewrite setDefaultHeaders_cons.
    apply elem_of_cons in Hin as [[= -> ->] | Hin].
    + apply setDefaultHeaders_stable; [| apply Header_Set_lookup].
      intros k' v' Hin'. apply Hall. by right.
    + apply IH; [done |]. intros k' v' Hin'. apply Hall. by right.
Qed.

Lemma withHeaders_spec (request : Request) (headers : list (string * string)) :
  req_Header (withHeaders rt request headers) !! canon "Content-Type"
  = Some ["application/json"] ∧
  ∀ k v, (k, v) ∈ headers →
    is_Some (req_Header (withHeaders rt request headers) !! canon k) ∧
    (canon k ≠ canon "Content-Type" →
     (∀ k' v', (k', v') ∈ headers → canon k' = canon k → v' = v) →
     req_Header (withHeaders rt request headers) !! canon k = Some [v]).
Proof.
  unfold withHeaders. split; [apply Header_Set_lookup |].
  intros k v Hin. split.
  - destruct (decide (canon "Content-Type" = canon k)) as [<- | Hne].
    + rewrite Header_Set_lookup. eauto.
    + rewrite Header_Set_lookup_ne by done. by eapply setDefaultHeaders_set.
  - intros Hne Hall. rewrite Header_Set_lookup_ne by done.
    by apply setDefaultHeaders_value.
Qed.

(** Setting headers leaves the method, the URL and the body alone. *)
Lemma setDefaultHeaders_frame (headers : list (string * string)) (request : Request) :
  Method (setDefaultHeaders rt request headers) = Method request ∧
  URL (setDefaultHeaders rt request headers) = URL request ∧
  req_Body (setDefaultHeaders rt request headers) = req_Body request.
Proof.
  revert request. induction headers as [| [k0 v0] tail IH]; intros request; [done |].
  rewrite setDefaultHeaders_cons.
  destruct (IH (Header_Set rt request k0 v0)) as (-> & -> & ->). done.
Qed.

Lemma withHeaders_frame (headers : list (string * string)) (request : Request) :
  Method (withHeaders rt request headers) = Method request ∧
  URL (withHeaders rt request headers) = URL request ∧
  req_Body (withHeaders rt request headers) = req_Body request.
Proof. unfold withHeaders. simpl. apply setDefaultHeaders_frame. Qed.

End Headers.

(** ** [persistFhirResource] and [ReadFhirResource], step by step *)

Arguments Sprintf_s : simpl never.

Section Runs.

Variable rt : Runtime.

(** Case analysis on every [match] of an unfolded run. *)
Ltac split_run :=
  repeat (case_match; simplify_eq/=); try done.

(** The steps of a run from the creation of the request to the decoding of
    the response, for a goal that assumes a successful return. *)
Ltac after_request :=
  destruct (url_Parse_error rt _); simpl; [done |];
  destruct (Client _ _) as [err | response] eqn:Hclient; simpl; [done |];
  destruct (Status response) as [| status0 rest] eqn:Hstatus; simpl; [done |];
  destruct (Ascii.eqb status0 "2") eqn:Hstatus0; simpl; [| done];
  apply Ascii.eqb_eq in Hstatus0 as ->;
  destruct (json_Unmarshal rt (resp_Body response)) as [err | responseJson'] eqn:Hbody;
    simpl; [done |];
  intros [= <- <- <-]; exists response, rest; by split_and!.

Lemma persistFhirResource_no_resourceType (r : FhirResource)
    (resourceId : option string) (diag : Diagnostics) (fileContent : string)
    (fileContentJson : JMap) :
  os_file rt (FhirResourceFilePath (fhirResourceSettings r)) = Content fileContent →
  json_Unmarshal rt fileContent = inr fileContentJson →
  index fileContentJson "resourceType" = None →
  persistFhirResource rt r resourceId diag
  = mkRun (AddError diag
             ("property resourceType not found in json file " +:+
              FhirResourceFilePath (fhirResourceSettings r)) "")
          [] (Returns (None, None, None)).
Proof.
  intros Hfile Hjson Htype.
  unfold persistFhirResource, readFileContent. by rewrite Hfile, Hjson, Htype.
Qed.

(** Whatever [persistFhirResource] hands to the client is the one request
    [persistRequest] describes, built from a file that decoded to an object
    with a resource type. *)
Lemma persistFhirResource_issued (r : FhirResource) (resourceId : option string)
    (diag : Diagnostics) (request : Request) :
  request ∈ issued (persistFhirResource rt r resourceId diag) →
  ∃ fileContent kv type,
    os_file rt (FhirResourceFilePath (fhirResourceSettings r)) = Content fileContent ∧
    json_Unmarshal rt fileContent = inr (Some kv) ∧
    kv !! "resourceType" = Some type ∧
    request = persistRequest rt r resourceId fileContent kv type ∧
    issued (persistFhirResource rt r resourceId diag) = [request].
Proof.
  unfold persistFhirResource, readFileContent, http_NewRequest, persistRequest,
    withHeaders, resolveBaseUrl_code, index.
  intros Hin.
  destruct (os_file rt _) as [| | fileContent] eqn:Hfile; simpl in Hin;
    try by apply elem_of_nil in Hin.
  destruct (json_Unmarshal rt fileContent) as [err | [kv |]] eqn:Hjson; simpl in Hin;
    try by apply elem_of_nil in Hin.
  destruct (kv !! "resourceType") as [type |] eqn:Htype; simpl in Hin;
    try by apply elem_of_nil in Hin.
  exists fileContent, kv, type. split_and!; try done.
  - destruct resourceId as [id |]; simpl in *.
    + destruct (bareId id) as [last |] eqn:Hlast; simpl in *;
        [| by apply elem_of_nil in Hin].
      split_run; try (by apply elem_of_nil in Hin);
        by apply list_elem_of_singleton in Hin.
    + split_run; try (by apply elem_of_nil in Hin);
        by apply list_elem_of_singleton in Hin.
  - destruct resourceId as [id |]; simpl in *.
    + destruct (bareId id) as [last |] eqn:Hlast; simpl in *;
        [| by apply elem_of_nil in Hin].
      split_run; try (by apply elem_of_nil in Hin);
        by apply list_elem_of_singleton in Hin as ->.
    + split_run; try (by apply elem_of_nil in Hin);
        by apply list_elem_of_singleton in Hin as ->.
Qed.

(** With a readable file that has a resource type and a URL that parses,
    the request is handed to the client. *)
Lemma persistFhirResource_issues (r : FhirResource) (resourceId : option string)
    (diag : Diagnostics) (fileContent : string) (kv : gmap string JValue)
    (type : JValue) :
  os_file rt (FhirResourceFilePath (fhirResourceSettings r)) = Content fileContent →
  json_Unmarshal rt fileContent = inr (Some kv) →
  kv !! "resourceType" = Some type →
  url_Parse_error rt (URL (persistRequest rt r resourceId fileContent kv type)) = None →
  issued (persistFhirResource rt r resourceId diag)
  = [persistRequest rt r resourceId fileContent kv type].
Proof.
  intros Hfile Hjson Htype Hurl.
  unfold persistRequest in Hurl.
  rewrite (proj1 (proj2 (withHeaders_frame rt _ _))) in Hurl.
  unfold persistFhirResource, readFileContent, http_NewRequest, persistRequest,
    withHeaders, resolveBaseUrl_code, index in *.
  rewrite Hfile, Hjson, Htype.
  destruct resourceId as [id |]; simpl in *.
  - destruct (bareId_is_Some id) as [last ->]. simpl. rewrite Hurl. split_run.
  - rewrite Hurl. split_run.
Qed.


(** What a successful return of [persistFhirResource] with a decoded response
    says about the run. *)
Lemma persistFhirResource_success (r : FhirResource) (resourceId : option string)
    (diag : Diagnostics) (body : option string) (responseJson : gmap string JValue)
    (resourceType : option string) :
  completion (persistFhirResource rt r resourceId diag)
  = Returns (body, Some responseJson, resourceType) →
  ∃ fileContent kv type response rest,
    os_file rt (FhirResourceFilePath (fhirResourceSettings r)) = Content fileContent ∧
    json_Unmarshal rt fileContent = inr (Some kv) ∧
    kv !! "resourceType" = Some type ∧
    persistFhirResource rt r resourceId diag
    = mkRun diag [persistRequest rt r resourceId fileContent kv type]
            (Returns (body, Some responseJson, resourceType)) ∧
    Client (providerSettings r) (persistRequest rt r resourceId fileContent kv type)
    = inr response ∧
    Status response = String "2" rest ∧
    body = Some (resp_Body response) ∧
    json_Unmarshal rt (resp_Body response) = inr (Some responseJson) ∧
    resourceType = Some (Sprintf_s rt (Some type)).
Proof.
  unfold persistFhirResource, readFileContent, http_NewRequest, persistRequest,
    withHeaders, resolveBaseUrl_code, index.
  destruct (os_file rt _) as [| | fileContent] eqn:Hfile; simpl; try done.
  destruct (json_Unmarshal rt fileContent) as [err | [kv |]] eqn:Hjson; simpl;
    try done.
  destruct (kv !! "resourceType") as [type |] eqn:Htype; simpl; try done.
  intros H. exists fileContent, kv, type. revert H.
  destruct resourceId as [id |]; simpl.
  - destruct (bareId_is_Some id) as [last ->]. simpl. after_request.
  - after_request.
Qed.

(** The forward direction: a readable file with a resource type, a URL that
    parses, a response whose status starts with 2 and whose body decodes. *)
Lemma persistFhirResource_returns (r : FhirResource) (resourceId : option string)
    (diag : Diagnostics) (fileContent : string) (kv : gmap string JValue)
    (type : JValue) (response : Response) (rest : string) (responseJson : JMap) :
  os_file rt (FhirResourceFilePath (fhirResourceSettings r)) = Content fileContent →
  json_Unmarshal rt fileContent = inr (Some kv) →
  kv !! "resourceType" = Some type →
  url_Parse_error rt (URL (persistRequest rt r resourceId fileContent kv type)) = None →
  Client (providerSettings r) (persistRequest rt r resourceId fileContent kv type)
  = inr response →
  Status response = String "2" rest →
  json_Unmarshal rt (resp_Body response) = inr responseJson →
  persistFhirResource rt r resourceId diag
  = mkRun diag [persistRequest rt r resourceId fileContent kv type]
          (Returns (Some (resp_Body response), responseJson,
                    Some (Sprintf_s rt (Some type)))).
Proof.
  intros Hfile Hjson Htype Hurl.
  unfold persistRequest in Hurl.
  rewrite (proj1 (proj2 (withHeaders_frame rt _ _))) in Hurl.
  unfold persistFhirResource, readFileContent, http_NewRequest, persistRequest,
    withHeaders, resolveBaseUrl_code, index in *.
  rewrite Hfile, Hjson, Htype.
  destruct resourceId as [id |]; simpl in *.
  - destruct (bareId_is_Some id) as [last ->]. simpl. rewrite Hurl.
    intros -> -> ->. done.
  - rewrite Hurl. intros -> -> ->. done.
Qed.

(** *** [ReadFhirResource] *)

Lemma ReadFhirResource_issued (ps : ProviderSettings) (resourceId : string)
    (diag : Diagnostics) (request : Request) :
  request ∈ issued (ReadFhirResource rt ps resourceId diag) →
  request = plainRequest rt "GET" (Sprintf_s_slash_s (FhirBaseUrl ps) resourceId) ps ∧
  issued (ReadFhirResource rt ps resourceId diag) = [request].
Proof.
  unfold ReadFhirResource, http_NewRequest, plainRequest, withHeaders.
  destruct (url_Parse_error rt _); simpl; [by intros ?%elem_of_nil |].
  intros Hin.
  assert (request = Header_Set rt
            (setDefaultHeaders rt
               (mkRequest "GET" (Sprintf_s_slash_s (FhirBaseUrl ps) resourceId) ∅ None)
               (DefaultHeaders ps)) "Content-Type" "application/json") as ->.
  { split_run; by apply list_elem_of_singleton in Hin. }
  split; [done |]. split_run.
Qed.


Lemma ReadFhirResource_success (ps : ProviderSettings) (resourceId : string)
    (diag : Diagnostics) (body : option string) :
  completion (ReadFhirResource rt ps resourceId diag) = Returns (body, false) →
  ∃ response rest,
    ReadFhirResource rt ps resourceId diag
    = mkRun diag
        [plainRequest rt "GET" (Sprintf_s_slash_s (FhirBaseUrl ps) resourceId) ps]
        (Returns (body, false)) ∧
    Client ps (plainRequest rt "GET" (Sprintf_s_slash_s (FhirBaseUrl ps) resourceId) ps)
    = inr response ∧
    Status response = String "2" rest ∧
    body = Some (resp_Body response).
Proof.
  unfold ReadFhirResource, http_NewRequest, plainRequest, withHeaders.
  destruct (url_Parse_error rt _); simpl; [done |].
  destruct (Client _ _) as [err | response] eqn:Hclient; simpl; [done |].
  destruct (Status response) as [| status0 rest] eqn:Hstatus; simpl; [done |].
  destruct (Ascii.eqb status0 "2") eqn:Hstatus0; simpl; [| done].
  apply Ascii.eqb_eq in Hstatus0 as ->.
  intros [= <-]. exists response, rest. by split_and!.
Qed.

Lemma ReadFhirResource_returns (ps : ProviderSettings) (resourceId : string)
    (diag : Diagnostics) (response : Response) (rest : string) :
  url_Parse_error rt (Sprintf_s_slash_s (FhirBaseUrl ps) resourceId) = None →
  Client ps (plainRequest rt "GET" (Sprintf_s_slash_s (FhirBaseUrl ps) resourceId) ps)
  = inr response →
  Status response = String "2" rest →
  ReadFhirResource rt ps resourceId diag
  = mkRun diag
      [plainRequest rt "GET" (Sprintf_s_slash_s (FhirBaseUrl ps) resourceId) ps]
      (Returns (Some (resp_Body response), false)).
Proof.
  unfold ReadFhirResource, http_NewRequest, plainRequest, withHeaders.
  intros -> -> ->. done.
Qed.

(** *** [Delete] *)

Lemma FhirResource_Delete_issued (r : FhirResource) (state : Got) (request : Request) :
  request ∈ issued (FhirResource_Delete rt r state) →
  request
  = plainRequest rt "DELETE"
      (Sprintf_s_slash_s
         (resolveBaseUrl_code (ValueStringPointer (model_FhirBaseUrl (got state)))
                              (FhirBaseUrl (providerSettings r)))
         (ValueString (ResourceId (got state))))
      (providerSettings r) ∧
  issued (FhirResource_Delete rt r state) = [request].
Proof.
  unfold FhirResource_Delete, http_NewRequest, plainRequest, withHeaders,
    resolveBaseUrl_code, withSettings.
  destruct (HasError _); simpl; [by intros ?%elem_of_nil |].
  destruct (url_Parse_error rt _); simpl; [by intros ?%elem_of_nil |].
  intros Hin.
  match goal with |- request = ?rq ∧ _ => assert (request = rq) as -> end.
  { split_run; by apply list_elem_of_singleton in Hin. }
  split; [done |]. split_run.
Qed.


End Runs.

(** ** The handlers in terms of the functions they call *)

Section Handlers.

Variable rt : Runtime.

Lemma FhirResource_Create_run (r : FhirResource) (plan : Got) :
  let diags := Append [] (got_diags plan) in
  let p := persistFhirResource rt (withSettings r (got plan)) None diags in
  if HasError diags then FhirResource_Create rt r plan = mkRun diags [] (Returns None)
  else issued (FhirResource_Create rt r plan) = issued p ∧
       diagnostics (FhirResource_Create rt r plan) = diagnostics p.
Proof.
  intros diags p. unfold FhirResource_Create. fold diags. fold p.
  destruct (HasError diags); [done |].
  destruct (completion p) as [[[body [responseJson |]] resourceType] | why]; try done.
  by destruct (assert_string _), resourceType.
Qed.

Lemma FhirResource_Update_run (r : FhirResource) (prior plan : Got) :
  let diags := Append (Append [] (got_diags prior)) (got_diags plan) in
  let p := persistFhirResource rt (withSettings r (got plan))
             (ValueStringPointer (ResourceId (got prior))) diags in
  if HasError diags then
    FhirResource_Update rt r prior plan = mkRun diags [] (Returns None)
  else issued (FhirResource_Update rt r prior plan) = issued p ∧
       diagnostics (FhirResource_Update rt r prior plan) = diagnostics p.
Proof.
  intros diags p. unfold FhirResource_Update. fold diags. fold p.
  destruct (HasError diags); [done |].
  destruct (completion p) as [[[body [responseJson |]] resourceType] | why]; try done.
  by destruct (assert_string _), resourceType.
Qed.

Lemma FhirResource_Read_run (r : FhirResource) (state : Got) :
  let diags := Append [] (got_diags state) in
  let p := ReadFhirResource rt (readSettings r (got state))
             (ValueString (ResourceId (got state))) diags in
  if HasError diags then FhirResource_Read rt r state = mkRun diags [] (Returns None)
  else issued (FhirResource_Read rt r state) = issued p.
Proof.
  intros diags p. unfold FhirResource_Read, ReadFhirResource_with_override.
  fold diags. simpl. fold (readSettings r (got state)). fold p.
  destruct (HasError diags); [done |].
  destruct (completion p) as [[body []] | why]; try done.
  destruct (json_Unmarshal rt _) as [err | responseJson]; [done |].
  by destruct (assert_string (index responseJson "id")),
       (assert_string (index responseJson "resourceType")).
Qed.

(** A state saved by [Create] comes from a successful [persistFhirResource]
    whose response carries a string under [id]. *)
Lemma FhirResource_Create_saved (r : FhirResource) (plan : Got)
    (saved : FhirResourceModel) :
  completion (FhirResource_Create rt r plan) = Returns (Some saved) →
  ∃ body responseJson resourceType id,
    completion (persistFhirResource rt (withSettings r (got plan)) None
                  (Append [] (got_diags plan)))
    = Returns (body, Some responseJson, Some resourceType) ∧
    issued (FhirResource_Create rt r plan)
    = issued (persistFhirResource rt (withSettings r (got plan)) None
                (Append [] (got_diags plan))) ∧
    responseJson !! "id" = Some (JString id) ∧
    saved = mkFhirResourceModel (FilePath (got plan)) (FileSha256 (got plan))
              (model_FhirBaseUrl (got plan))
              (StringValue (Sprintf_s_slash_s resourceType id))
              (StringValue (hex_EncodeToString (sha256.Sum256 (default "" body)))).
Proof.
  unfold FhirResource_Create.
  destruct (HasError _); [done |].
  destruct (completion (persistFhirResource _ _ _ _))
    as [[[body [responseJson |]] resourceType] | why]; try done.
  destruct (responseJson !! "id") as [[] |] eqn:Hid; simpl; try done.
  destruct resourceType as [resourceType |]; simpl; [| done].
  intros [= <-]. by eexists _, _, _, _.
Qed.

Lemma FhirResource_Update_saved (r : FhirResource) (prior plan : Got)
    (saved : FhirResourceModel) :
  completion (FhirResource_Update rt r prior plan) = Returns (Some saved) →
  ∃ body responseJson resourceType id,
    completion (persistFhirResource rt (withSettings r (got plan))
                  (ValueStringPointer (ResourceId (got prior)))
                  (Append (Append [] (got_diags prior)) (got_diags plan)))
    = Returns (body, Some responseJson, Some resourceType) ∧
    issued (FhirResource_Update rt r prior plan)
    = issued (persistFhirResource rt (withSettings r (got plan))
                (ValueStringPointer (ResourceId (got prior)))
                (Append (Append [] (got_diags prior)) (got_diags plan))) ∧
    responseJson !! "id" = Some (JString id) ∧
    saved = mkFhirResourceModel (FilePath (got plan)) (FileSha256 (got plan))
              (model_FhirBaseUrl (got prior))
              (StringValue (Sprintf_s_slash_s resourceType id))
              (StringValue (hex_EncodeToString (sha256.Sum256 (default "" body)))).
Proof.
  unfold FhirResource_Update.
  destruct (HasError _); [done |].
  destruct (completion (persistFhirResource _ _ _ _))
    as [[[body [responseJson |]] resourceType] | why]; try done.
  destruct (responseJson !! "id") as [[] |] eqn:Hid; simpl; try done.
  destruct resourceType as [resourceType |]; simpl; [| done].
  intros [= <-]. by eexists _, _, _, _.
Qed.

Lemma FhirResource_Read_saved (r : FhirResource) (state : Got)
    (saved : FhirResourceModel) :
  completion (FhirResource_Read rt r state) = Returns (Some saved) →
  ∃ body responseJson resourceType id,
    completion (ReadFhirResource rt (readSettings r (got state))
                  (ValueString (ResourceId (got state))) (Append [] (got_diags state)))
    = Returns (Some body, false) ∧
    issued (FhirResource_Read rt r state)
    = issued (ReadFhirResource rt (readSettings r (got state))
                (ValueString (ResourceId (got state))) (Append [] (got_diags state))) ∧
    json_Unmarshal rt body = inr responseJson ∧
    index responseJson "id" = Some (JString id) ∧
    index responseJson "resourceType" = Some (JString resourceType) ∧
    saved = mkFhirResourceModel (FilePath (got state)) (FileSha256 (got state))
              (model_FhirBaseUrl (got state))
              (StringValue (Sprintf_s_slash_s resourceType id))
              (StringValue (hex_EncodeToString (sha256.Sum256 body))).
Proof.
  unfold FhirResource_Read, ReadFhirResource_with_override.
  destruct (HasError _); [done |]. simpl.
  fold (readSettings r (got state)).
  destruct (completion (ReadFhirResource _ _ _ _))
    as [[body []] | why] eqn:Hread; try done.
  destruct (ReadFhirResource_success _ _ _ _ _ Hread) as (? & ? & _ & _ & _ & ->).
  simpl.
  destruct (json_Unmarshal rt _) as [err | responseJson] eqn:Hjson; [done |].
  destruct (index responseJson "id") as [[] |] eqn:Hid; simpl; try done.
  destruct (index responseJson "resourceType") as [[] |] eqn:Htype; simpl; try done.
  intros [= <-]. by eexists _, _, _, _.
Qed.

End Handlers.

(** ** The request each handler sends, and the empty status *)

Lemma plainRequest_settings (rt : Runtime) (method url : string)
    (r : FhirResource) (data : FhirResourceModel) :
  plainRequest rt method url (readSettings r data)
  = plainRequest rt method url (providerSettings r).
Proof. reflexivity. Qed.

Lemma ReadFhirResource_issues (rt : Runtime) (ps : ProviderSettings)
    (resourceId : string) (diag : Diagnostics) :
  url_Parse_error rt (Sprintf_s_slash_s (FhirBaseUrl ps) resourceId) = None →
  issued (ReadFhirResource rt ps resourceId diag)
  = [plainRequest rt "GET" (Sprintf_s_slash_s (FhirBaseUrl ps) resourceId) ps].
Proof.
  intros Hurl. unfold ReadFhirResource, http_NewRequest, plainRequest, withHeaders.
  rewrite Hurl. repeat (case_match; simplify_eq/=); done.
Qed.

Lemma FhirResource_Read_issues (rt : Runtime) (r : FhirResource) (state : Got) :
  HasError (Append [] (got_diags state)) = false →
  urlsParse rt →
  issued (FhirResource_Read rt r state)
  = [plainRequest rt "GET"
       (Sprintf_s_slash_s
          (resolveBaseUrl_spec (ValueStringPointer (model_FhirBaseUrl (got state)))
                               (FhirBaseUrl (providerSettings r)))
          (ValueString (ResourceId (got state))))
       (providerSettings r)].
Proof.
  intros Hdiags Hurl.
  pose proof (FhirResource_Read_run rt r state) as Hrun. simpl in Hrun.
  rewrite Hdiags in Hrun. rewrite Hrun.
  by rewrite ReadFhirResource_issues by apply Hurl.
Qed.

Lemma FhirResource_Delete_issues (rt : Runtime) (r : FhirResource) (state : Got) :
  HasError (Append [] (got_diags state)) = false →
  urlsParse rt →
  issued (FhirResource_Delete rt r state)
  = [plainRequest rt "DELETE"
       (Sprintf_s_slash_s
          (resolveBaseUrl_code (ValueStringPointer (model_FhirBaseUrl (got state)))
                               (FhirBaseUrl (providerSettings r)))
          (ValueString (ResourceId (got state))))
       (providerSettings r)].
Proof.
  intros Hdiags Hurl.
  unfold FhirResource_Delete, http_NewRequest, plainRequest, withHeaders,
    resolveBaseUrl_code, withSettings.
  rewrite Hdiags. simpl. rewrite Hurl.
  repeat (case_match; simplify_eq/=); done.
Qed.

Lemma FhirResource_Create_issues (rt : Runtime) (r : FhirResource) (plan : Got)
    (fileContent : string) (kv : gmap string JValue) (type : JValue) :
  HasError (Append [] (got_diags plan)) = false →
  documentReady rt (ValueString (FilePath (got plan))) fileContent kv type →
  urlsParse rt →
  issued (FhirResource_Create rt r plan)
  = [persistRequest rt (withSettings r (got plan)) None fileContent kv type].
Proof.
  intros Hdiags (Hfile & Hjson & Htype) Hurl.
  pose proof (FhirResource_Create_run rt r plan) as Hrun. simpl in Hrun.
  rewrite Hdiags in Hrun. destruct Hrun as [-> _].
  by apply persistFhirResource_issues.
Qed.

Lemma FhirResource_Update_issues (rt : Runtime) (r : FhirResource) (prior plan : Got)
    (fileContent : string) (kv : gmap string JValue) (type : JValue) :
  HasError (Append (Append [] (got_diags prior)) (got_diags plan)) = false →
  documentReady rt (ValueString (FilePath (got plan))) fileContent kv type →
  urlsParse rt →
  issued (FhirResource_Update rt r prior plan)
  = [persistRequest rt (withSettings r (got plan))
       (ValueStringPointer (ResourceId (got prior))) fileContent kv type].
Proof.
  intros Hdiags (Hfile & Hjson & Htype) Hurl.
  pose proof (FhirResource_Update_run rt r prior plan) as Hrun. simpl in Hrun.
  rewrite Hdiags in Hrun. destruct Hrun as [-> _].
  by apply persistFhirResource_issues.
Qed.


(** Against a server that answers every request with a success whose body
    decodes to an object with a string [id], the three saving handlers run to
    the end; these are the states they save. *)
Lemma FhirResource_Create_saves (rt : Runtime) (r : FhirResource) (plan : Got)
    (fileContent : string) (kv : gmap string JValue) (type : JValue)
    (response : Response) (rest : string) (responseJson : gmap string JValue)
    (id : string) :
  answers (providerSettings r) response →
  urlsParse rt →
  Status response = String "2" rest →
  json_Unmarshal rt (resp_Body response) = inr (Some responseJson) →
  responseJson !! "id" = Some (JString id) →
  HasError (Append [] (got_diags plan)) = false →
  documentReady rt (ValueString (FilePath (got plan))) fileContent kv type →
  completion (FhirResource_Create rt r plan)
  = Returns (Some (mkFhirResourceModel (FilePath (got plan)) (FileSha256 (got plan))
                     (model_FhirBaseUrl (got plan))
                     (StringValue (Sprintf_s_slash_s (Sprintf_s rt (Some type)) id))
                     (StringValue
                        (hex_EncodeToString (sha256.Sum256 (resp_Body response)))))).
Proof.
  intros Hanswers Hurl Hstatus Hbody Hid Hdiags (Hfile & Hjson & Htype).
  unfold answers, urlsParse in *.
  unfold FhirResource_Create. rewrite Hdiags.
  erewrite persistFhirResource_returns by eauto.
  simpl. rewrite Hid. done.
Qed.

Lemma FhirResource_Read_saves (rt : Runtime) (r : FhirResource) (state : Got)
    (response : Response) (rest : string) (responseJson : gmap string JValue)
    (type id : string) :
  answers (providerSettings r) response →
  urlsParse rt →
  Status response = String "2" rest →
  json_Unmarshal rt (resp_Body response) = inr (Some responseJson) →
  responseJson !! "id" = Some (JString id) →
  responseJson !! "resourceType" = Some (JString type) →
  HasError (Append [] (got_diags state)) = false →
  completion (FhirResource_Read rt r state)
  = Returns (Some (mkFhirResourceModel (FilePath (got state)) (FileSha256 (got state))
                     (model_FhirBaseUrl (got state))
                     (StringValue (Sprintf_s_slash_s type id))
                     (StringValue
                        (hex_EncodeToString (sha256.Sum256 (resp_Body response)))))).
Proof.
  intros Hanswers Hurl Hstatus Hbody Hid Htype Hdiags.
  unfold answers, urlsParse in *.
  unfold FhirResource_Read, ReadFhirResource_with_override. rewrite Hdiags.
  erewrite ReadFhirResource_returns by eauto.
  simpl. rewrite Hbody. simpl. rewrite Hid, Htype. done.
Qed.

Lemma FhirResource_Update_saves (rt : Runtime) (r : FhirResource) (prior plan : Got)
    (fileContent : string) (kv : gmap string JValue) (type : JValue)
    (response : Response) (rest : string) (responseJson : gmap string JValue)
    (id : string) :
  answers (providerSettings r) response →
  urlsParse rt →
  Status response = String "2" rest →
  json_Unmarshal rt (resp_Body response) = inr (Some responseJson) →
  responseJson !! "id" = Some (JString id) →
  HasError (Append (Append [] (got_diags prior)) (got_diags plan)) = false →
  documentReady rt (ValueString (FilePath (got plan))) fileContent kv type →
  completion (FhirResource_Update rt r prior plan)
  = Returns (Some (mkFhirResourceModel (FilePath (got plan)) (FileSha256 (got plan))
                     (model_FhirBaseUrl (got prior))
                     (StringValue (Sprintf_s_slash_s (Sprintf_s rt (Some type)) id))
                     (StringValue
                        (hex_EncodeToString (sha256.Sum256 (resp_Body response)))))).
Proof.
  intros Hanswers Hurl Hstatus Hbody Hid Hdiags (Hfile & Hjson & Htype).
  unfold answers, urlsParse in *.
  unfold FhirResource_Update. rewrite Hdiags.
  erewrite persistFhirResource_returns by eauto.
  simpl. rewrite Hid. done.
Qed.

(** * The claims *)

(** C2, at the inputs where the code departs from it. A response with a
    status that starts with 2 and a body that decodes, but without a string
    under [id] (for [Read], also without one under [resourceType]), makes the
    unchecked type assertion panic: [Create], [Update] and [Read] end in a
    panic after the request went out, and the collector holds exactly the
    error-free diagnostics it started with, so no structured diagnostic
    reports the missing field. *)
Theorem C2_missing_field_panics (rt : Runtime) (r : FhirResource) (response : Response)
    (rest : string) (responseJson : JMap) :
  (∀ request, Client (providerSettings r) request = inr response) →
  (∀ url, url_Parse_error rt url = None) →
  Status response = String "2" rest →
  json_Unmarshal rt (resp_Body response) = inr responseJson →
  (∀ plan fileContent kv type,
     HasError (Append [] (got_diags plan)) = false →
     os_file rt (ValueString (FilePath (got plan))) = Content fileContent →
     json_Unmarshal rt fileContent = inr (Some kv) →
     kv !! "resourceType" = Some type →
     responseJson ≠ None →
     assert_string (index responseJson "id") = None →
     ∃ request,
       FhirResource_Create rt r plan
       = mkRun (Append [] (got_diags plan)) [request]
               (Panics "interface conversion: interface {} is not string")) ∧
  (∀ prior plan fileContent kv type,
     HasError (Append (Append [] (got_diags prior)) (got_diags plan)) = false →
     os_file rt (ValueString (FilePath (got plan))) = Content fileContent →
     json_Unmarshal rt fileContent = inr (Some kv) →
     kv !! "resourceType" = Some type →
     responseJson ≠ None →
     assert_string (index responseJson "id") = None →
     ∃ request,
       FhirResource_Update rt r prior plan
       = mkRun (Append (Append [] (got_diags prior)) (got_diags plan)) [request]
               (Panics "interface conversion: interface {} is not string")) ∧
  (∀ state,
     HasError (Append [] (got_diags state)) = false →
     assert_string (index responseJson "id") = None ∨
     assert_string (index responseJson "resourceType") = None →
     ∃ request,
       FhirResource_Read rt r state
       = mkRun (Append [] (got_diags state)) [request]
               (Panics "interface conversion: interface {} is not string")).
Proof.
  intros Hclient Hurl Hstatus Hbody. split_and!.
  - intros plan fileContent kv type Hdiags Hfile Hjson Htype Hmap Hid.
    destruct responseJson as [responseMap |]; [clear Hmap | done].
    eexists. unfold FhirResource_Create. rewrite Hdiags.
    erewrite persistFhirResource_returns by eauto.
    simpl in *. by rewrite Hid.
  - intros prior plan fileContent kv type Hdiags Hfile Hjson Htype Hmap Hid.
    destruct responseJson as [responseMap |]; [clear Hmap | done].
    eexists. unfold FhirResource_Update. rewrite Hdiags.
    erewrite persistFhirResource_returns by eauto.
    simpl in *. by rewrite Hid.
  - intros state Hdiags Hfield.
    eexists. unfold FhirResource_Read, ReadFhirResource_with_override. rewrite Hdiags.
    erewrite ReadFhirResource_returns by eauto.
    simpl. rewrite Hbody.
    destruct Hfield as [-> | ->]; [done |].
    by destruct (assert_string (index responseJson "id")).
Qed.

Lemma C2_missing_field_panics_witness :
  ∃ request,
    FhirResource_Create Sample.rt (Sample.resource "201 Created" Sample.body_noId)
      (Sample.planned "patient.json" StringNull)
    = mkRun [] [request] (Panics "interface conversion: interface {} is not string").
Proof.
  refine (proj1 (C2_missing_field_panics Sample.rt
                   (Sample.resource "201 Created" Sample.body_noId)
                   (mkResponse "201 Created" Sample.body_noId) "01 Created" (Some ∅)
                   _ _ _ _)
            (Sample.planned "patient.json" StringNull) Sample.doc_Patient
            {["resourceType" := JString "Patient"]} (JString "Patient")
            _ _ _ _ _ _);
    try reflexivity; try done.
Defined.

(** C3, as amended. An identifier without a slash is not rejected: its split
    is the one-element slice of itself, so the bare id is the whole
    identifier, and [Update] goes on to hand the client a PUT to
    [baseUrl/identifier] whose body is the document with [id] set to the
    identifier (given a readable document with a resource type and a URL that
    parses). *)
Theorem C3_update_without_slash (rt : Runtime) (r : FhirResource) (prior plan : Got)
    (id fileContent : string) (kv : gmap string JValue) (type : JValue) :
  ResourceId (got prior) = StringValue id →
  hasByte id "/" = false →
  HasError (Append (Append [] (got_diags prior)) (got_diags plan)) = false →
  os_file rt (ValueString (FilePath (got plan))) = Content fileContent →
  json_Unmarshal rt fileContent = inr (Some kv) →
  kv !! "resourceType" = Some type →
  url_Parse_error rt
    (Sprintf_s_slash_s
       (resolveBaseUrl_code (ValueStringPointer (model_FhirBaseUrl (got plan)))
                            (FhirBaseUrl (providerSettings r))) id) = None →
  Split id "/" = [id] ∧
  bareId id = Some id ∧
  ∃ request,
    issued (FhirResource_Update rt r prior plan) = [request] ∧
    Method request = "PUT" ∧
    URL request
    = Sprintf_s_slash_s
        (resolveBaseUrl_code (ValueStringPointer (model_FhirBaseUrl (got plan)))
                             (FhirBaseUrl (providerSettings r))) id ∧
    req_Body request = Some (json_Marshal rt (<["id" := JString id]> kv)).
Proof.
  intros Hid Hslash Hdiags Hfile Hjson Htype Hurl.
  split; [by apply Split_no_sep |].
  split; [by apply bareId_no_slash |].
  pose proof (FhirResource_Update_run rt r prior plan) as Hrun.
  simpl in Hrun. rewrite Hdiags in Hrun. destruct Hrun as [-> _].
  rewrite Hid. simpl.
  erewrite persistFhirResource_issues; eauto.
  - eexists. split; [done |]. unfold persistRequest.
    destruct (withHeaders_frame rt
                (DefaultHeaders (providerSettings (withSettings r (got plan))))
                (mkRequest "PUT"
                   (Sprintf_s_slash_s
                      (resolveBaseUrl_code
                         (ValueStringPointer (model_FhirBaseUrl (got plan)))
                         (FhirBaseUrl (providerSettings r))) id) ∅
                   (Some (json_Marshal rt
                            (<["id" := JString (default id (bareId id))]> kv)))))
      as (HM & HU & HB).
    simpl in *. rewrite HM, HU, HB. by rewrite bareId_no_slash.
  - unfold persistRequest.
    rewrite (proj1 (proj2 (withHeaders_frame rt _ _))). done.
Qed.

Lemma C3_update_without_slash_witness :
  bareId "abc" = Some "abc" ∧
  ∃ request,
    issued (FhirResource_Update Sample.rt (Sample.resource "200 OK" Sample.body_id1)
              (Sample.stored "patient.json" "abc" StringNull)
              (Sample.planned "patient.json" StringNull)) = [request] ∧
    Method request = "PUT" ∧
    URL request = "http://fhir.example/abc" ∧
    req_Body request
    = Some (Sample.Marshal (<["id" := JString "abc"]>
                              {["resourceType" := JString "Patient"]})).
Proof.
  refine (proj2 (C3_update_without_slash Sample.rt
                   (Sample.resource "200 OK" Sample.body_id1)
                   (Sample.stored "patient.json" "abc" StringNull)
                   (Sample.planned "patient.json" StringNull)
                   "abc" Sample.doc_Patient {["resourceType" := JString "Patient"]}
                   (JString "Patient") _ _ _ _ _ _ _));
    reflexivity.
Defined.

(** C3 as stated fails: with the identifier [abc], which has no slash,
    [Update] reports no error and issues the PUT. *)
Lemma C3_no_slash_still_issues_request :
  let run :=
    FhirResource_Update Sample.rt (Sample.resource "200 OK" Sample.body_id1)
      (Sample.stored "patient.json" "abc" StringNull)
      (Sample.planned "patient.json" StringNull) in
  hasByte "abc" "/" = false ∧
  diagnostics run = [] ∧
  (Method <$> issued run) = ["PUT"] ∧
  (URL <$> issued run) = ["http://fhir.example/abc"] ∧
  ∃ saved, completion run = Returns (Some saved).
Proof. vm_compute. split_and!; try reflexivity. eexists. reflexivity. Qed.

(** C4, as amended. Whenever [Update] saves a state, its identifier is
    [type/id] where the type is the local document's [resourceType] printed
    with [%s] and the id is the string under [id] of the decoded response;
    the response's [resourceType] is not consulted. *)
Theorem C4_update_identifier (rt : Runtime) (r : FhirResource) (prior plan : Got)
    (saved : FhirResourceModel) :
  completion (FhirResource_Update rt r prior plan) = Returns (Some saved) →
  ∃ fileContent kv type request response responseJson id,
    os_file rt (ValueString (FilePath (got plan))) = Content fileContent ∧
    json_Unmarshal rt fileContent = inr (Some kv) ∧
    kv !! "resourceType" = Some type ∧
    issued (FhirResource_Update rt r prior plan) = [request] ∧
    Client (providerSettings r) request = inr response ∧
    json_Unmarshal rt (resp_Body response) = inr (Some responseJson) ∧
    responseJson !! "id" = Some (JString id) ∧
    ResourceId saved = StringValue (Sprintf_s_slash_s (Sprintf_s rt (Some type)) id).
Proof.
  intros Hsaved.
  destruct (FhirResource_Update_saved rt r prior plan saved Hsaved)
    as (body & responseJson & resourceType & id & Hpersist & Hissued & Hid & ->).
  destruct (persistFhirResource_success rt _ _ _ _ _ _ Hpersist)
    as (fileContent & kv & type & response & rest &
        Hfile & Hjson & Htype & Hrun & Hclient & Hstatus & -> & Hbody & [= ->]).
  exists fileContent, kv, type. eexists _, response, responseJson, id.
  split_and!; try done.
  by rewrite Hissued, Hrun.
Qed.

Lemma C4_update_identifier_witness :
  ∃ type id,
    StringValue "Patient/1"
    = StringValue (Sprintf_s_slash_s (Sprintf_s Sample.rt (Some type)) id).
Proof.
  destruct (C4_update_identifier Sample.rt
              (Sample.resource "200 OK" Sample.body_Person1)
              (Sample.stored "patient.json" "Patient/1" StringNull)
              (Sample.planned "patient.json" StringNull)
              (mkFhirResourceModel (StringValue "patient.json") StringNull StringNull
                 (StringValue "Patient/1")
                 (StringValue
                    "3fe5174a25b2f8636ff02031278707cc2d2b922669559065c949669ff92743b9")))
    as (_ & _ & type & _ & _ & _ & id & _ & _ & _ & _ & _ & _ & _ & Hid).
  - vm_compute. reflexivity.
  - exists type, id. exact Hid.
Defined.

(** C4 as stated fails: the local document says [Patient], the response says
    [Person] with id [1], and the identifier saved by [Update] is [Patient/1],
    not [Person/1]. *)
Lemma C4_identifier_uses_local_type :
  let run :=
    FhirResource_Update Sample.rt (Sample.resource "200 OK" Sample.body_Person1)
      (Sample.stored "patient.json" "Patient/1" StringNull)
      (Sample.planned "patient.json" StringNull) in
  Sample.Unmarshal Sample.body_Person1
  = inr (Some (<["resourceType" := JString "Person"]> {["id" := JString "1"]})) ∧
  ∃ saved,
    completion run = Returns (Some saved) ∧
    ResourceId saved = StringValue "Patient/1" ∧
    ResourceId saved ≠ StringValue (Sprintf_s_slash_s "Person" "1").
Proof.
  split; [reflexivity |]. eexists. split; [vm_compute; reflexivity |].
  split; [reflexivity | discriminate].
Qed.

(** C5, as amended. In [Create], [Update] and [Delete] the request goes to
    the per-call override whenever it is present (not null), also when it is
    the empty string, and to the configured default only when the override is
    absent: the same rule in the three handlers. In [Read], whose
    four-parameter [ReadFhirResource] is modelled from the specification, the
    request goes to the override when it is present and not empty, and to the
    default otherwise. The four handlers resolve alike whenever the override
    is not the empty string. Each handler does send that request when the
    model was read without error, the URL parses and, for [Create] and
    [Update], the document is usable. *)
Theorem C5_base_url_resolution (rt : Runtime) (r : FhirResource) :
  (urlsParse rt →
   (∀ plan fileContent kv type,
      HasError (Append [] (got_diags plan)) = false →
      documentReady rt (ValueString (FilePath (got plan))) fileContent kv type →
      ∃ request,
        issued (FhirResource_Create rt r plan) = [request] ∧
        URL request
        = Sprintf_s_slash_s
            (resolveBaseUrl_code (ValueStringPointer (model_FhirBaseUrl (got plan)))
                                 (FhirBaseUrl (providerSettings r)))
            (Sprintf_s rt (Some type))) ∧
   (∀ prior plan id fileContent kv type,
      ResourceId (got prior) = StringValue id →
      HasError (Append (Append [] (got_diags prior)) (got_diags plan)) = false →
      documentReady rt (ValueString (FilePath (got plan))) fileContent kv type →
      ∃ request,
        issued (FhirResource_Update rt r prior plan) = [request] ∧
        URL request
        = Sprintf_s_slash_s
            (resolveBaseUrl_code (ValueStringPointer (model_FhirBaseUrl (got plan)))
                                 (FhirBaseUrl (providerSettings r))) id) ∧
   (∀ state,
      HasError (Append [] (got_diags state)) = false →
      ∃ request,
        issued (FhirResource_Delete rt r state) = [request] ∧
        URL request
        = Sprintf_s_slash_s
            (resolveBaseUrl_code (ValueStringPointer (model_FhirBaseUrl (got state)))
                                 (FhirBaseUrl (providerSettings r)))
            (ValueString (ResourceId (got state)))) ∧
   (∀ state,
      HasError (Append [] (got_diags state)) = false →
      ∃ request,
        issued (FhirResource_Read rt r state) = [request] ∧
        URL request
        = Sprintf_s_slash_s
            (resolveBaseUrl_spec (ValueStringPointer (model_FhirBaseUrl (got state)))
                                 (FhirBaseUrl (providerSettings r)))
            (ValueString (ResourceId (got state))))) ∧
  (∀ plan request,
     request ∈ issued (FhirResource_Create rt r plan) →
     ∃ fileContent kv type,
       os_file rt (ValueString (FilePath (got plan))) = Content fileContent ∧
       json_Unmarshal rt fileContent = inr (Some kv) ∧
       kv !! "resourceType" = Some type ∧
       URL request
       = Sprintf_s_slash_s
           (resolveBaseUrl_code (ValueStringPointer (model_FhirBaseUrl (got plan)))
                                (FhirBaseUrl (providerSettings r)))
           (Sprintf_s rt (Some type))) ∧
  (∀ prior plan id request,
     ResourceId (got prior) = StringValue id →
     request ∈ issued (FhirResource_Update rt r prior plan) →
     URL request
     = Sprintf_s_slash_s
         (resolveBaseUrl_code (ValueStringPointer (model_FhirBaseUrl (got plan)))
                              (FhirBaseUrl (providerSettings r))) id) ∧
  (∀ state request,
     request ∈ issued (FhirResource_Delete rt r state) →
     URL request
     = Sprintf_s_slash_s
         (resolveBaseUrl_code (ValueStringPointer (model_FhirBaseUrl (got state)))
                              (FhirBaseUrl (providerSettings r)))
         (ValueString (ResourceId (got state)))) ∧
  (∀ state request,
     request ∈ issued (FhirResource_Read rt r state) →
     URL request
     = Sprintf_s_slash_s
         (resolveBaseUrl_spec (ValueStringPointer (model_FhirBaseUrl (got state)))
                              (FhirBaseUrl (providerSettings r)))
         (ValueString (ResourceId (got state)))) ∧
  (∀ override default,
     override ≠ Some "" →
     resolveBaseUrl_code override default = resolveBaseUrl_spec override default).
Proof.
  split; [| split_and!].
  - intros Hurl. split_and!.
    + intros plan fileContent kv type Hdiags Hready.
      eexists. split; [by eapply FhirResource_Create_issues |].
      unfold persistRequest. by rewrite (proj1 (proj2 (withHeaders_frame rt _ _))).
    + intros prior plan id fileContent kv type Hid Hdiags Hready.
      eexists. split; [by eapply FhirResource_Update_issues |].
      rewrite Hid. unfold persistRequest.
      by rewrite (proj1 (proj2 (withHeaders_frame rt _ _))).
    + intros state Hdiags.
      eexists. split; [by apply FhirResource_Delete_issues |].
      unfold plainRequest. by rewrite (proj1 (proj2 (withHeaders_frame rt _ _))).
    + intros state Hdiags.
      eexists. split; [by apply FhirResource_Read_issues |].
      unfold plainRequest. by rewrite (proj1 (proj2 (withHeaders_frame rt _ _))).
  - intros plan request Hin.
    pose proof (FhirResource_Create_run rt r plan) as Hrun. simpl in Hrun.
    destruct (HasError _).
    + rewrite Hrun in Hin. by apply elem_of_nil in Hin.
    + destruct Hrun as [Hrun _]. rewrite Hrun in Hin.
      destruct (persistFhirResource_issued rt _ _ _ _ Hin)
        as (fileContent & kv & type & Hfile & Hjson & Htype & -> & _).
      exists fileContent, kv, type. split_and!; try done.
      unfold persistRequest. by rewrite (proj1 (proj2 (withHeaders_frame rt _ _))).
  - intros prior plan id request Hid Hin.
    pose proof (FhirResource_Update_run rt r prior plan) as Hrun. simpl in Hrun.
    destruct (HasError _).
    + rewrite Hrun in Hin. by apply elem_of_nil in Hin.
    + destruct Hrun as [Hrun _]. rewrite Hrun, Hid in Hin.
      destruct (persistFhirResource_issued rt _ _ _ _ Hin)
        as (fileContent & kv & type & Hfile & Hjson & Htype & -> & _).
      unfold persistRequest. by rewrite (proj1 (proj2 (withHeaders_frame rt _ _))).
  - intros state request Hin.
    destruct (FhirResource_Delete_issued rt _ _ _ Hin) as [-> _].
    unfold plainRequest. by rewrite (proj1 (proj2 (withHeaders_frame rt _ _))).
  - intros state request Hin.
    pose proof (FhirResource_Read_run rt r state) as Hrun. simpl in Hrun.
    destruct (HasError _).
    + rewrite Hrun in Hin. by apply elem_of_nil in Hin.
    + rewrite Hrun in Hin.
      destruct (ReadFhirResource_issued rt _ _ _ _ Hin) as [-> _].
      unfold plainRequest. by rewrite (proj1 (proj2 (withHeaders_frame rt _ _))).
  - intros [[| c url] |] default Hne; done.
Qed.

Lemma C5_base_url_resolution_witness :
  (∃ request,
     issued (FhirResource_Delete Sample.rt (Sample.resource "204 No Content" "")
               (Sample.stored "patient.json" "Patient/1" (StringValue "http://other")))
     = [request] ∧
     URL request = "http://other/Patient/1") ∧
  (∃ request,
     issued (FhirResource_Read Sample.rt (Sample.resource "200 OK" Sample.body_Person1)
               (Sample.stored "patient.json" "Patient/1" (StringValue "")))
     = [request] ∧
     URL request = "http://fhir.example/Patient/1").
Proof.
  split.
  - refine (proj1 (proj2 (proj2 (proj1 (C5_base_url_resolution Sample.rt
              (Sample.resource "204 No Content" "")) _)))
              (Sample.stored "patient.json" "Patient/1" (StringValue "http://other"))
              eq_refl).
    intros url. reflexivity.
  - refine (proj2 (proj2 (proj2 (proj1 (C5_base_url_resolution Sample.rt
              (Sample.resource "200 OK" Sample.body_Person1)) _)))
              (Sample.stored "patient.json" "Patient/1" (StringValue ""))
              eq_refl).
    intros url. reflexivity.
Defined.

(** C5 as stated fails: with the override set to the empty string, [Delete]
    sends its request to [/Patient/1], not to the configured default
    [http://fhir.example]. *)
Lemma C5_empty_override_is_used :
  let run :=
    FhirResource_Delete Sample.rt (Sample.resource "204 No Content" "")
      (Sample.stored "patient.json" "Patient/1" (StringValue "")) in
  (URL <$> issued run) = ["/Patient/1"] ∧
  (URL <$> issued run)
  ≠ [Sprintf_s_slash_s
       (resolveBaseUrl_spec (Some "")
          (FhirBaseUrl (Sample.settings "204 No Content" ""))) "Patient/1"].
Proof. split; [reflexivity | discriminate]. Qed.

(** C6, as amended. For every document that decodes without the key
    [resourceType] at its top level (the nil map of the document [null]
    included), [Create] and [Update] stop with the error diagnostic "property
    resourceType not found in json file", hand nothing to the client and save
    no state. A [resourceType] that is present is accepted whatever its
    value. *)
Theorem C6_missing_resourceType (rt : Runtime) (r : FhirResource)
    (fileContent : string) (fileContentJson : JMap) :
  json_Unmarshal rt fileContent = inr fileContentJson →
  index fileContentJson "resourceType" = None →
  (∀ plan,
     HasError (Append [] (got_diags plan)) = false →
     os_file rt (ValueString (FilePath (got plan))) = Content fileContent →
     FhirResource_Create rt r plan
     = mkRun (AddError (Append [] (got_diags plan))
                ("property resourceType not found in json file " +:+
                 ValueString (FilePath (got plan))) "")
             [] (Returns None) ∧
     HasError (diagnostics (FhirResource_Create rt r plan)) = true) ∧
  (∀ prior plan,
     HasError (Append (Append [] (got_diags prior)) (got_diags plan)) = false →
     os_file rt (ValueString (FilePath (got plan))) = Content fileContent →
     FhirResource_Update rt r prior plan
     = mkRun (AddError (Append (Append [] (got_diags prior)) (got_diags plan))
                ("property resourceType not found in json file " +:+
                 ValueString (FilePath (got plan))) "")
             [] (Returns None) ∧
     HasError (diagnostics (FhirResource_Update rt r prior plan)) = true).
Proof.
  intros Hjson Htype. split.
  - intros plan Hdiags Hfile.
    assert (FhirResource_Create rt r plan
            = mkRun (AddError (Append [] (got_diags plan))
                       ("property resourceType not found in json file " +:+
                        ValueString (FilePath (got plan))) "")
                    [] (Returns None)) as ->.
    { unfold FhirResource_Create. rewrite Hdiags.
      by erewrite persistFhirResource_no_resourceType by eauto. }
    split; [done | apply HasError_AddError].
  - intros prior plan Hdiags Hfile.
    assert (FhirResource_Update rt r prior plan
            = mkRun (AddError (Append (Append [] (got_diags prior)) (got_diags plan))
                       ("property resourceType not found in json file " +:+
                        ValueString (FilePath (got plan))) "")
                    [] (Returns None)) as ->.
    { unfold FhirResource_Update. rewrite Hdiags.
      by erewrite persistFhirResource_no_resourceType by eauto. }
    split; [done | apply HasError_AddError].
Qed.

(** A run-time whose file system holds one more document, the empty object. *)
Lemma C6_missing_resourceType_witness :
  let rt' :=
    mkRuntime Sample.Unmarshal Sample.Marshal (fun _ => None)
      Sample.CanonicalMIMEHeaderKey (fun _ => "%!s(?)")
      (fun _ => Content Sample.body_noId) in
  issued (FhirResource_Create rt' (Sample.resource "201 Created" Sample.body_id1)
            (Sample.planned "empty.json" StringNull)) = [] ∧
  HasError (diagnostics
              (FhirResource_Create rt' (Sample.resource "201 Created" Sample.body_id1)
                 (Sample.planned "empty.json" StringNull))) = true.
Proof.
  intros rt'.
  destruct (proj1 (C6_missing_resourceType rt'
                     (Sample.resource "201 Created" Sample.body_id1)
                     Sample.body_noId (Some ∅) eq_refl eq_refl)
              (Sample.planned "empty.json" StringNull) eq_refl eq_refl)
    as [Hrun Herr].
  split; [by rewrite Hrun | exact Herr].
Defined.

(** C6 as stated fails: a document whose [resourceType] is the empty string
    is not rejected; [Create] posts it to [baseUrl/] and reports no error. *)
Lemma C6_empty_resourceType_is_posted :
  let run :=
    FhirResource_Create Sample.rt (Sample.resource "201 Created" Sample.body_id1)
      (Sample.planned "untyped.json" StringNull) in
  Sample.files "untyped.json" = Content Sample.doc_emptyType ∧
  Sample.Unmarshal Sample.doc_emptyType
  = inr (Some {["resourceType" := JString ""]}) ∧
  diagnostics run = [] ∧
  (Method <$> issued run) = ["POST"] ∧
  (URL <$> issued run) = ["http://fhir.example/"].
Proof. by split_and!. Qed.

(** C7. [Create], [Read] and [Update] fingerprint the raw response. Against a
    server whose answer has a status that starts with 2 and a body that
    decodes to an object with a string [id] (for [Read], also a string
    [resourceType]), each of them saves a state whose fingerprint is the
    lower-case hexadecimal SHA-256 digest of the very bytes of the response
    body. Conversely, whenever one of them saves a state, the fingerprint in
    it is that digest of the body the client returned for the one request of
    the run. The digest is a function of the bytes alone, so equal bodies
    give equal fingerprints. *)
Theorem C7_fingerprint_of_raw_body (rt : Runtime) (r : FhirResource) :
  (∀ response rest responseJson id,
     answers (providerSettings r) response →
     urlsParse rt →
     Status response = String "2" rest →
     json_Unmarshal rt (resp_Body response) = inr (Some responseJson) →
     responseJson !! "id" = Some (JString id) →
     (∀ plan fileContent kv type,
        HasError (Append [] (got_diags plan)) = false →
        documentReady rt (ValueString (FilePath (got plan))) fileContent kv type →
        ∃ saved,
          completion (FhirResource_Create rt r plan) = Returns (Some saved) ∧
          ResponseSha256 saved
          = StringValue (hex_EncodeToString (sha256.Sum256 (resp_Body response)))) ∧
     (∀ state type,
        responseJson !! "resourceType" = Some (JString type) →
        HasError (Append [] (got_diags state)) = false →
        ∃ saved,
          completion (FhirResource_Read rt r state) = Returns (Some saved) ∧
          ResponseSha256 saved
          = StringValue (hex_EncodeToString (sha256.Sum256 (resp_Body response)))) ∧
     (∀ prior plan fileContent kv type,
        HasError (Append (Append [] (got_diags prior)) (got_diags plan)) = false →
        documentReady rt (ValueString (FilePath (got plan))) fileContent kv type →
        ∃ saved,
          completion (FhirResource_Update rt r prior plan) = Returns (Some saved) ∧
          ResponseSha256 saved
          = StringValue (hex_EncodeToString (sha256.Sum256 (resp_Body response))))) ∧
  (∀ saved plan,
     completion (FhirResource_Create rt r plan) = Returns (Some saved) →
     ∃ request response,
       issued (FhirResource_Create rt r plan) = [request] ∧
       Client (providerSettings r) request = inr response ∧
       ResponseSha256 saved
       = StringValue (hex_EncodeToString (sha256.Sum256 (resp_Body response)))) ∧
  (∀ saved state,
     completion (FhirResource_Read rt r state) = Returns (Some saved) →
     ∃ request response,
       issued (FhirResource_Read rt r state) = [request] ∧
       Client (providerSettings r) request = inr response ∧
       ResponseSha256 saved
       = StringValue (hex_EncodeToString (sha256.Sum256 (resp_Body response)))) ∧
  (∀ saved prior plan,
     completion (FhirResource_Update rt r prior plan) = Returns (Some saved) →
     ∃ request response,
       issued (FhirResource_Update rt r prior plan) = [request] ∧
       Client (providerSettings r) request = inr response ∧
       ResponseSha256 saved
       = StringValue (hex_EncodeToString (sha256.Sum256 (resp_Body response)))).
Proof.
  split_and!.
  - intros response rest responseJson id Hanswers Hurl Hstatus Hbody Hid.
    unfold answers, urlsParse in *. split_and!.
    + intros plan fileContent kv type Hdiags (Hfile & Hjson & Htype).
      eexists. unfold FhirResource_Create. rewrite Hdiags.
      erewrite persistFhirResource_returns by eauto.
      simpl. rewrite Hid. simpl. by split.
    + intros state type Htype Hdiags.
      eexists. unfold FhirResource_Read, ReadFhirResource_with_override.
      rewrite Hdiags.
      erewrite ReadFhirResource_returns by eauto.
      simpl. rewrite Hbody. simpl. rewrite Hid, Htype. simpl. by split.
    + intros prior plan fileContent kv type Hdiags (Hfile & Hjson & Htype).
      eexists. unfold FhirResource_Update. rewrite Hdiags.
      erewrite persistFhirResource_returns by eauto.
      simpl. rewrite Hid. simpl. by split.
  - intros saved plan Hsaved.
    destruct (FhirResource_Create_saved rt r plan saved Hsaved)
      as (body & responseJson & resourceType & id & Hpersist & Hissued & Hid & ->).
    destruct (persistFhirResource_success rt _ _ _ _ _ _ Hpersist)
      as (fileContent & kv & type & response & rest &
          _ & _ & _ & Hrun & Hclient & _ & -> & _ & _).
    eexists _, response. rewrite Hissued, Hrun. by split_and!.
  - intros saved state Hsaved.
    destruct (FhirResource_Read_saved rt r state saved Hsaved)
      as (body & responseJson & resourceType & id & Hread & Hissued & _ & _ & _ & ->).
    destruct (ReadFhirResource_success rt _ _ _ _ Hread)
      as (response & rest & Hrun & Hclient & _ & [= ->]).
    eexists _, response. rewrite Hissued, Hrun. by split_and!.
  - intros saved prior plan Hsaved.
    destruct (FhirResource_Update_saved rt r prior plan saved Hsaved)
      as (body & responseJson & resourceType & id & Hpersist & Hissued & Hid & ->).
    destruct (persistFhirResource_success rt _ _ _ _ _ _ Hpersist)
      as (fileContent & kv & type & response & rest &
          _ & _ & _ & Hrun & Hclient & _ & -> & _ & _).
    eexists _, response. rewrite Hissued, Hrun. by split_and!.
Qed.

Lemma C7_fingerprint_of_raw_body_witness :
  (∃ saved,
     completion (FhirResource_Create Sample.rt
                   (Sample.resource "201 Created" Sample.body_id1)
                   (Sample.planned "patient.json" StringNull))
     = Returns (Some saved) ∧
     ResponseSha256 saved
     = StringValue "5811967f540d300d249ab30ae681359a7815fdb5d3dc71a94be1d491006a6b27") ∧
  (∃ saved,
     completion (FhirResource_Read Sample.rt
                   (Sample.resource "200 OK" Sample.body_Person1)
                   (Sample.stored "patient.json" "Patient/1" StringNull))
     = Returns (Some saved) ∧
     ResponseSha256 saved
     = StringValue "3fe5174a25b2f8636ff02031278707cc2d2b922669559065c949669ff92743b9") ∧
  (∃ saved,
     completion (FhirResource_Update Sample.rt
                   (Sample.resource "200 OK" Sample.body_id1)
                   (Sample.stored "patient.json" "Patient/1" StringNull)
                   (Sample.planned "patient.json" StringNull))
     = Returns (Some saved) ∧
     ResponseSha256 saved
     = StringValue "5811967f540d300d249ab30ae681359a7815fdb5d3dc71a94be1d491006a6b27").
Proof.
  split_and!.
  - refine (proj1 (proj1 (C7_fingerprint_of_raw_body Sample.rt
              (Sample.resource "201 Created" Sample.body_id1))
              (mkResponse "201 Created" Sample.body_id1) "01 Created"
              {["id" := JString "1"]} "1" _ _ eq_refl eq_refl eq_refl)
              (Sample.planned "patient.json" StringNull) Sample.doc_Patient
              {["resourceType" := JString "Patient"]} (JString "Patient") eq_refl _).
    + intros request. reflexivity.
    + intros url. reflexivity.
    + split; [reflexivity | split; reflexivity].
  - refine (proj1 (proj2 (proj1 (C7_fingerprint_of_raw_body Sample.rt
              (Sample.resource "200 OK" Sample.body_Person1))
              (mkResponse "200 OK" Sample.body_Person1) "00 OK"
              (<["resourceType" := JString "Person"]> {["id" := JString "1"]}) "1"
              _ _ eq_refl eq_refl eq_refl))
              (Sample.stored "patient.json" "Patient/1" StringNull) "Person"
              eq_refl eq_refl).
    + intros request. reflexivity.
    + intros url. reflexivity.
  - refine (proj2 (proj2 (proj1 (C7_fingerprint_of_raw_body Sample.rt
              (Sample.resource "200 OK" Sample.body_id1))
              (mkResponse "200 OK" Sample.body_id1) "00 OK"
              {["id" := JString "1"]} "1" _ _ eq_refl eq_refl eq_refl))
              (Sample.stored "patient.json" "Patient/1" StringNull)
              (Sample.planned "patient.json" StringNull) Sample.doc_Patient
              {["resourceType" := JString "Patient"]} (JString "Patient") eq_refl _).
    + intros request. reflexivity.
    + intros url. reflexivity.
    + split; [reflexivity | split; reflexivity].
Defined.

(** Every request a handler hands to the client carries the headers of
    [withHeaders] over the provider's defaults. *)
Lemma issued_withHeaders (rt : Runtime) (r : FhirResource) (request : Request) :
  (∃ plan, request ∈ issued (FhirResource_Create rt r plan)) ∨
  (∃ state, request ∈ issued (FhirResource_Read rt r state)) ∨
  (∃ prior plan, request ∈ issued (FhirResource_Update rt r prior plan)) ∨
  (∃ state, request ∈ issued (FhirResource_Delete rt r state)) →
  ∃ bare, request = withHeaders rt bare (DefaultHeaders (providerSettings r)).
Proof.
  intros [[plan Hin] | [[state Hin] | [(prior & plan & Hin) | [state Hin]]]].
  - pose proof (FhirResource_Create_run rt r plan) as Hrun. simpl in Hrun.
    destruct (HasError _).
    + rewrite Hrun in Hin. by apply elem_of_nil in Hin.
    + destruct Hrun as [Hrun _]. rewrite Hrun in Hin.
      destruct (persistFhirResource_issued rt _ _ _ _ Hin)
        as (fileContent & kv & type & _ & _ & _ & -> & _).
      unfold persistRequest. by eexists.
  - pose proof (FhirResource_Read_run rt r state) as Hrun. simpl in Hrun.
    destruct (HasError _).
    + rewrite Hrun in Hin. by apply elem_of_nil in Hin.
    + rewrite Hrun in Hin.
      destruct (ReadFhirResource_issued rt _ _ _ _ Hin) as [-> _].
      unfold plainRequest. by eexists.
  - pose proof (FhirResource_Update_run rt r prior plan) as Hrun. simpl in Hrun.
    destruct (HasError _).
    + rewrite Hrun in Hin. by apply elem_of_nil in Hin.
    + destruct Hrun as [Hrun _]. rewrite Hrun in Hin.
      destruct (persistFhirResource_issued rt _ _ _ _ Hin)
        as (fileContent & kv & type & _ & _ & _ & -> & _).
      unfold persistRequest. by eexists.
  - destruct (FhirResource_Delete_issued rt _ _ _ Hin) as [-> _].
    unfold plainRequest. by eexists.
Qed.

(** C8. Every handler sends its request with the configured headers. When
    the model was read without error and the URL parses (and, for [Create]
    and [Update], the document is usable), [Create], [Read], [Update] and
    [Delete] each hand exactly one request to the client, and on it the
    header [Content-Type] is exactly [application/json], whatever the
    defaults say for that key, and every configured default header is set:
    its canonical key is present, and it holds the configured value unless
    the key is the content type's or another default with a different value
    is filed under the same canonical key. The same holds of any request any
    of the four hands to the client. *)
Theorem C8_request_headers (rt : Runtime) (r : FhirResource) :
  (urlsParse rt →
   (∀ plan fileContent kv type,
      HasError (Append [] (got_diags plan)) = false →
      documentReady rt (ValueString (FilePath (got plan))) fileContent kv type →
      ∃ request,
        issued (FhirResource_Create rt r plan) = [request] ∧
        carriesConfiguredHeaders rt (providerSettings r) request) ∧
   (∀ state,
      HasError (Append [] (got_diags state)) = false →
      ∃ request,
        issued (FhirResource_Read rt r state) = [request] ∧
        carriesConfiguredHeaders rt (providerSettings r) request) ∧
   (∀ prior plan fileContent kv type,
      HasError (Append (Append [] (got_diags prior)) (got_diags plan)) = false →
      documentReady rt (ValueString (FilePath (got plan))) fileContent kv type →
      ∃ request,
        issued (FhirResource_Update rt r prior plan) = [request] ∧
        carriesConfiguredHeaders rt (providerSettings r) request) ∧
   (∀ state,
      HasError (Append [] (got_diags state)) = false →
      ∃ request,
        issued (FhirResource_Delete rt r state) = [request] ∧
        carriesConfiguredHeaders rt (providerSettings r) request)) ∧
  (∀ request,
     (∃ plan, request ∈ issued (FhirResource_Create rt r plan)) ∨
     (∃ state, request ∈ issued (FhirResource_Read rt r state)) ∨
     (∃ prior plan, request ∈ issued (FhirResource_Update rt r prior plan)) ∨
     (∃ state, request ∈ issued (FhirResource_Delete rt r state)) →
     req_Header request !! CanonicalMIMEHeaderKey rt "Content-Type"
     = Some ["application/json"] ∧
     ∀ k v, (k, v) ∈ DefaultHeaders (providerSettings r) →
       is_Some (req_Header request !! CanonicalMIMEHeaderKey rt k) ∧
       (CanonicalMIMEHeaderKey rt k ≠ CanonicalMIMEHeaderKey rt "Content-Type" →
        (∀ k' v', (k', v') ∈ DefaultHeaders (providerSettings r) →
           CanonicalMIMEHeaderKey rt k' = CanonicalMIMEHeaderKey rt k → v' = v) →
        req_Header request !! CanonicalMIMEHeaderKey rt k = Some [v])).
Proof.
  assert (∀ request,
            (∃ plan, request ∈ issued (FhirResource_Create rt r plan)) ∨
            (∃ state, request ∈ issued (FhirResource_Read rt r state)) ∨
            (∃ prior plan, request ∈ issued (FhirResource_Update rt r prior plan)) ∨
            (∃ state, request ∈ issued (FhirResource_Delete rt r state)) →
            carriesConfiguredHeaders rt (providerSettings r) request) as Hany.
  { intros request Hin. destruct (issued_withHeaders rt r request Hin) as [bare ->].
    apply withHeaders_spec. }
  split; [| exact Hany].
  intros Hurl. split_and!.
  - intros plan fileContent kv type Hdiags Hready.
    pose proof (FhirResource_Create_issues rt r plan _ _ _ Hdiags Hready Hurl) as Hissued.
    eexists. split; [exact Hissued |].
    apply Hany. left. exists plan. rewrite Hissued. left.
  - intros state Hdiags.
    pose proof (FhirResource_Read_issues rt r state Hdiags Hurl) as Hissued.
    eexists. split; [exact Hissued |].
    apply Hany. right. left. exists state. rewrite Hissued. left.
  - intros prior plan fileContent kv type Hdiags Hready.
    pose proof (FhirResource_Update_issues rt r prior plan _ _ _ Hdiags Hready Hurl)
      as Hissued.
    eexists. split; [exact Hissued |].
    apply Hany. right. right. left. exists prior, plan. rewrite Hissued. left.
  - intros state Hdiags.
    pose proof (FhirResource_Delete_issues rt r state Hdiags Hurl) as Hissued.
    eexists. split; [exact Hissued |].
    apply Hany. right. right. right. exists state. rewrite Hissued. left.
Qed.

Lemma C8_request_headers_witness :
  ∃ request,
    issued (FhirResource_Create Sample.rt
              (Sample.resource "201 Created" Sample.body_id1)
              (Sample.planned "patient.json" StringNull)) = [request] ∧
    req_Header request !! "Content-Type" = Some ["application/json"] ∧
    req_Header request !! "Accept" = Some ["application/fhir+json"].
Proof.
  destruct (proj1 (proj1 (C8_request_headers Sample.rt
                            (Sample.resource "201 Created" Sample.body_id1))
                     (fun url => eq_refl))
              (Sample.planned "patient.json" StringNull) Sample.doc_Patient
              {["resourceType" := JString "Patient"]} (JString "Patient")
              eq_refl (conj eq_refl (conj eq_refl eq_refl)))
    as (request & Hissued & Hct & Hdefaults).
  exists request. split; [exact Hissued |]. split; [exact Hct |].
  apply (Hdefaults "Accept" "application/fhir+json").
  - left.
  - vm_compute. discriminate.
  - intros k' v' Hin Hkey.
    apply elem_of_cons in Hin as [[= -> ->] | Hin]; [reflexivity |].
    apply list_elem_of_singleton in Hin as [= -> ->].
    vm_compute in Hkey. discriminate.
Defined.




(** C10, as amended. After an [Update] that saves a state, the saved
    [file_path] and [file_sha256] are the plan's, the saved [fhir_base_url] is
    the prior state's (the planned one is not written), [response_sha256] is
    the digest of the response body, and [resource_id] joins the local
    document's [resourceType] with the [id] of the response. *)
Theorem C10_update_frame (rt : Runtime) (r : FhirResource) (prior plan : Got)
    (saved : FhirResourceModel) :
  completion (FhirResource_Update rt r prior plan) = Returns (Some saved) →
  FilePath saved = FilePath (got plan) ∧
  FileSha256 saved = FileSha256 (got plan) ∧
  model_FhirBaseUrl saved = model_FhirBaseUrl (got prior) ∧
  ∃ fileContent kv type request response responseJson id,
    os_file rt (ValueString (FilePath (got plan))) = Content fileContent ∧
    json_Unmarshal rt fileContent = inr (Some kv) ∧
    kv !! "resourceType" = Some type ∧
    issued (FhirResource_Update rt r prior plan) = [request] ∧
    Client (providerSettings r) request = inr response ∧
    json_Unmarshal rt (resp_Body response) = inr (Some responseJson) ∧
    responseJson !! "id" = Some (JString id) ∧
    ResourceId saved = StringValue (Sprintf_s_slash_s (Sprintf_s rt (Some type)) id) ∧
    ResponseSha256 saved
    = StringValue (hex_EncodeToString (sha256.Sum256 (resp_Body response))).
Proof.
  intros Hsaved.
  destruct (FhirResource_Update_saved rt r prior plan saved Hsaved)
    as (body & responseJson & resourceType & id & Hpersist & Hissued & Hid & ->).
  destruct (persistFhirResource_success rt _ _ _ _ _ _ Hpersist)
    as (fileContent & kv & type & response & rest &
        Hfile & Hjson & Htype & Hrun & Hclient & Hstatus & -> & Hbody & [= ->]).
  split_and!; try done.
  exists fileContent, kv, type. eexists _, response, responseJson, id.
  split_and!; try done.
  by rewrite Hissued, Hrun.
Qed.

Lemma C10_update_frame_witness :
  let saved :=
    mkFhirResourceModel (StringValue "observation.json") StringNull
      (StringValue "http://old") (StringValue "Observation/1")
      (StringValue "5811967f540d300d249ab30ae681359a7815fdb5d3dc71a94be1d491006a6b27") in
  FilePath saved = StringValue "observation.json" ∧
  FileSha256 saved = StringNull ∧
  model_FhirBaseUrl saved = StringValue "http://old".
Proof.
  intros saved.
  destruct (C10_update_frame Sample.rt (Sample.resource "200 OK" Sample.body_id1)
              (Sample.stored "patient.json" "Observation/1" (StringValue "http://old"))
              (Sample.planned "observation.json" (StringValue "http://new"))
              saved) as (Hpath & Hsha & Hbase & _).
  - vm_compute. reflexivity.
  - split; [exact Hpath | split; [exact Hsha | exact Hbase]].
Defined.

(** C10 as stated fails in its last clause: two updates that receive the same
    response bytes save different identifiers, because the type in the
    identifier is read from the local document. *)
Lemma C10_resource_id_not_from_response_alone :
  let server := Sample.resource "200 OK" Sample.body_Person1 in
  let prior := Sample.stored "patient.json" "Patient/1" StringNull in
  let run1 :=
    FhirResource_Update Sample.rt server prior
      (Sample.planned "patient.json" StringNull) in
  let run2 :=
    FhirResource_Update Sample.rt server prior
      (Sample.planned "observation.json" StringNull) in
  ∃ saved1 saved2,
    completion run1 = Returns (Some saved1) ∧
    completion run2 = Returns (Some saved2) ∧
    ResponseSha256 saved1 = ResponseSha256 saved2 ∧
    ResourceId saved1 = StringValue "Patient/1" ∧
    ResourceId saved2 = StringValue "Observation/1" ∧
    ResourceId saved1 ≠ ResourceId saved2.
Proof.
  eexists _, _.
  split; [vm_compute; reflexivity |].
  split; [vm_compute; reflexivity |].
  split; [reflexivity |].
  split; [reflexivity |].
  split; [reflexivity | discriminate].
Qed.

(** * Further properties of the code *)

(** ** The bare id *)

Lemma Split_segments_clean (s : string) (sep : ascii) :
  Forall (fun segment => hasByte segment sep = false) (Split s sep).
Proof.
  induction s as [| c rest IH]; simpl.
  - by repeat constructor.
  - destruct (Ascii.eqb c sep) eqn:Hc; [by constructor |].
    destruct (Split rest sep) as [| head tail]; simpl.
    + repeat constructor. simpl. by rewrite Hc.
    + inversion IH as [| ? ? Hhead Htail]; subst.
      constructor; [| done]. simpl. by rewrite Hc, Hhead.
Qed.

Lemma append_associative (a b c : string) : (a +:+ b) +:+ c = a +:+ (b +:+ c).
Proof.
  induction a as [| x a IH]; [done |].
  change (String x ((a +:+ b) +:+ c) = String x (a +:+ (b +:+ c))).
  by rewrite IH.
Qed.

Lemma Join_snoc (front : list string) (x : string) (sep : ascii) :
  front ≠ [] → Join (front ++ [x]) sep = Join front sep +:+ String sep x.
Proof.
  induction front as [| a front IH]; [done |]. intros _.
  destruct front as [| b front]; [done |].
  assert (Join ((a :: b :: front) ++ [x]) sep
          = a +:+ String sep (Join ((b :: front) ++ [x]) sep)) as -> by done.
  rewrite IH by done.
  assert (Join (a :: b :: front) sep = a +:+ String sep (Join (b :: front) sep))
    as -> by done.
  by rewrite append_associative.
Qed.

(** X1. The id that [Update] writes into the document is always defined, is
    free of slashes, and is the end of the identifier: the identifier is
    either that id itself (when it has no slash) or some prefix, a slash, and
    the id. *)
Theorem X1_bare_id_is_last_segment (resourceId : string) :
  ∃ last,
    bareId resourceId = Some last ∧
    hasByte last "/" = false ∧
    ((hasByte resourceId "/" = false ∧ resourceId = last) ∨
     ∃ prefix, resourceId = Sprintf_s_slash_s prefix last).
Proof.
  rewrite bareId_last.
  pose proof (Split_segments_clean resourceId "/") as Hclean.
  pose proof (Join_Split resourceId "/") as Hjoin.
  pose proof (Split_nonempty resourceId "/") as Hne.
  destruct (exists_last Hne) as (front & x & Hparts). rewrite Hparts in *.
  exists x. rewrite last_snoc. split; [done |].
  apply Forall_app in Hclean as [_ Hx]. rewrite Forall_singleton in Hx.
  split; [done |].
  destruct front as [| a front].
  - left. simpl in Hjoin. by rewrite <- Hjoin.
  - right. exists (Join (a :: front) "/").
    rewrite Join_snoc in Hjoin by done. by rewrite Sprintf_s_slash_s_eq.
Qed.

(** ** The fingerprint's format *)

Lemma hexdigit_nibbles (c : ascii) :
  isHexDigit (hexdigit (N.shiftr (N_of_ascii c) 4)) = true ∧
  isHexDigit (hexdigit (N.land (N_of_ascii c) 15)) = true.
Proof. destruct c as [[] [] [] [] [] [] [] []]; by vm_compute. Qed.

Lemma hex_EncodeToString_format (src : string) :
  String.length (hex_EncodeToString src) = 2 * String.length src ∧
  Forall (fun c => isHexDigit c = true) (list_ascii_of_string (hex_EncodeToString src)).
Proof.
  induction src as [| c rest [IHlen IHall]]; [by split |]. split.
  - simpl. rewrite IHlen. lia.
  - destruct (hexdigit_nibbles c). simpl. by repeat constructor.
Qed.

Lemma sha256_round_length (v : list N) (kw : N * N) :
  length v = 8 → length (sha256.round v kw) = 8.
Proof.
  intros Hlen. do 9 (destruct v as [| ? v]; try done).
Qed.

Lemma sha256_block_length (h w16 : list N) :
  length h = 8 → length (sha256.block h w16) = 8.
Proof.
  intros Hlen. unfold sha256.block.
  rewrite length_map, length_combine, Hlen.
  assert (∀ kws v, length v = 8 → length (fold_left sha256.round kws v) = 8) as Hfold.
  { induction kws as [| kw kws IH]; intros v Hv; [done |].
    simpl. apply IH. by apply sha256_round_length. }
  rewrite Hfold; done.
Qed.

Lemma sha256_blocks_length (fuel : nat) (h ws : list N) :
  length h = 8 → length (sha256.blocks fuel h ws) = 8.
Proof.
  revert h ws. induction fuel as [| fuel IH]; intros h ws Hlen; [done |].
  destruct ws as [| w ws]; [done |].
  simpl. apply IH. by apply sha256_block_length.
Qed.

Lemma sha256_string_of_length (l : list N) :
  String.length (sha256.string_of l) = length l.
Proof. induction l as [| b l IH]; simpl; [done | by rewrite IH]. Qed.

Lemma Sum256_length (data : string) : String.length (sha256.Sum256 data) = 32.
Proof.
  unfold sha256.Sum256.
  rewrite sha256_string_of_length.
  assert (length sha256.init = 8) as Hinit by (by vm_compute).
  generalize (sha256_blocks_length
                (length (sha256.words (length (sha256.pad (sha256.bytes_of data)))
                           (sha256.pad (sha256.bytes_of data))))
                sha256.init
                (sha256.words (length (sha256.pad (sha256.bytes_of data)))
                   (sha256.pad (sha256.bytes_of data))) Hinit).
  generalize (sha256.blocks
                (length (sha256.words (length (sha256.pad (sha256.bytes_of data)))
                           (sha256.pad (sha256.bytes_of data))))
                sha256.init
                (sha256.words (length (sha256.pad (sha256.bytes_of data)))
                   (sha256.pad (sha256.bytes_of data)))).
  intros h Hlen. do 9 (destruct h as [| ? h]; try done).
Qed.

(** X2. Whenever [Create], [Read] or [Update] saves a state, the fingerprint
    in it is a string of exactly 64 lower-case hexadecimal digits; and each
    of the three does save such a state against a server whose answer has a
    status that starts with 2 and a body that decodes to an object with a
    string [id] (for [Read], also a string [resourceType]). *)
Theorem X2_fingerprint_format (rt : Runtime) (r : FhirResource) :
  (∀ response rest responseJson id,
     answers (providerSettings r) response →
     urlsParse rt →
     Status response = String "2" rest →
     json_Unmarshal rt (resp_Body response) = inr (Some responseJson) →
     responseJson !! "id" = Some (JString id) →
     (∀ plan fileContent kv type,
        HasError (Append [] (got_diags plan)) = false →
        documentReady rt (ValueString (FilePath (got plan))) fileContent kv type →
        ∃ saved digest,
          completion (FhirResource_Create rt r plan) = Returns (Some saved) ∧
          ResponseSha256 saved = StringValue digest ∧
          String.length digest = 64 ∧
          Forall (fun c => isHexDigit c = true) (list_ascii_of_string digest)) ∧
     (∀ state type,
        responseJson !! "resourceType" = Some (JString type) →
        HasError (Append [] (got_diags state)) = false →
        ∃ saved digest,
          completion (FhirResource_Read rt r state) = Returns (Some saved) ∧
          ResponseSha256 saved = StringValue digest ∧
          String.length digest = 64 ∧
          Forall (fun c => isHexDigit c = true) (list_ascii_of_string digest)) ∧
     (∀ prior plan fileContent kv type,
        HasError (Append (Append [] (got_diags prior)) (got_diags plan)) = false →
        documentReady rt (ValueString (FilePath (got plan))) fileContent kv type →
        ∃ saved digest,
          completion (FhirResource_Update rt r prior plan) = Returns (Some saved) ∧
          ResponseSha256 saved = StringValue digest ∧
          String.length digest = 64 ∧
          Forall (fun c => isHexDigit c = true) (list_ascii_of_string digest))) ∧
  (∀ saved,
     (∃ plan, completion (FhirResource_Create rt r plan) = Returns (Some saved)) ∨
     (∃ state, completion (FhirResource_Read rt r state) = Returns (Some saved)) ∨
     (∃ prior plan,
        completion (FhirResource_Update rt r prior plan) = Returns (Some saved)) →
     ∃ digest,
       ResponseSha256 saved = StringValue digest ∧
       String.length digest = 64 ∧
       Forall (fun c => isHexDigit c = true) (list_ascii_of_string digest)).
Proof.
  assert (∀ body, ∃ digest,
            StringValue (hex_EncodeToString (sha256.Sum256 body)) = StringValue digest ∧
            String.length digest = 64 ∧
            Forall (fun c => isHexDigit c = true) (list_ascii_of_string digest))
    as Hformat.
  { intros body. eexists. split; [done |].
    destruct (hex_EncodeToString_format (sha256.Sum256 body)) as [Hlen Hall].
    split; [| done]. by rewrite Hlen, Sum256_length. }
  split.
  - intros response rest responseJson id Hanswers Hurl Hstatus Hbody Hid.
    destruct (Hformat (resp_Body response)) as (digest & Hdigest & Hlen & Hall).
    split_and!.
    + intros plan fileContent kv type Hdiags Hready.
      eexists _, digest. split; [by eapply FhirResource_Create_saves |].
      simpl. by split_and!.
    + intros state type Htype Hdiags.
      eexists _, digest. split; [by eapply FhirResource_Read_saves |].
      simpl. by split_and!.
    + intros prior plan fileContent kv type Hdiags Hready.
      eexists _, digest. split; [by eapply FhirResource_Update_saves |].
      simpl. by split_and!.
  - intros saved [[plan Hsaved] | [[state Hsaved] | (prior & plan & Hsaved)]].
    + destruct (FhirResource_Create_saved rt r plan saved Hsaved)
        as (body & ? & ? & ? & _ & _ & _ & ->). apply Hformat.
    + destruct (FhirResource_Read_saved rt r state saved Hsaved)
        as (body & ? & ? & ? & _ & _ & _ & _ & _ & ->). apply Hformat.
    + destruct (FhirResource_Update_saved rt r prior plan saved Hsaved)
        as (body & ? & ? & ? & _ & _ & _ & ->). apply Hformat.
Qed.

Lemma X2_fingerprint_format_witness :
  ∃ saved digest,
    completion (FhirResource_Create Sample.rt
                  (Sample.resource "201 Created" Sample.body_id1)
                  (Sample.planned "patient.json" StringNull))
    = Returns (Some saved) ∧
    ResponseSha256 saved = StringValue digest ∧
    String.length digest = 64 ∧
    Forall (fun c => isHexDigit c = true) (list_ascii_of_string digest).
Proof.
  refine (proj1 (proj1 (X2_fingerprint_format Sample.rt
            (Sample.resource "201 Created" Sample.body_id1))
            (mkResponse "201 Created" Sample.body_id1) "01 Created"
            {["id" := JString "1"]} "1" _ _ eq_refl eq_refl eq_refl)
            (Sample.planned "patient.json" StringNull) Sample.doc_Patient
            {["resourceType" := JString "Patient"]} (JString "Patient") eq_refl _).
  - intros request. reflexivity.
  - intros url. reflexivity.
  - split; [reflexivity | split; reflexivity].
Defined.

(** ** Every way [persistFhirResource] ends *)

Section Outcomes.

Variable rt : Runtime.

Lemma persistRequest_URL (r : FhirResource) (resourceId : option string)
    (fileContent : string) (kv : gmap string JValue) (type : JValue) :
  URL (persistRequest rt r resourceId fileContent kv type)
  = Sprintf_s_slash_s
      (resolveBaseUrl_code (settings_FhirBaseUrl (fhirResourceSettings r))
                           (FhirBaseUrl (providerSettings r)))
      (match resourceId with
       | Some id => id
       | None => Sprintf_s rt (Some type)
       end).
Proof.
  unfold persistRequest. rewrite (proj1 (proj2 (withHeaders_frame rt _ _))).
  by destruct resourceId.
Qed.

(** Runs [persistFhirResource] up to the call of the client, given a readable
    document with a resource type and a URL that parses. *)
Ltac to_client Hfile Hjson Htype Hurl :=
  rewrite ?persistRequest_URL in *;
  unfold persistFhirResource, readFileContent, http_NewRequest, persistRequest,
    withHeaders, resolveBaseUrl_code, index in *;
  rewrite Hfile, Hjson, Htype;
  match goal with
  | |- context [match ?resourceId with Some _ => _ | None => _ end] =>
      is_var resourceId;
      destruct resourceId as [id |]; simpl in *;
      [destruct (bareId_is_Some id) as [last ->]; simpl |];
      rewrite Hurl
  end.

Lemma persistFhirResource_unreadable (r : FhirResource) (resourceId : option string)
    (diag : Diagnostics) :
  (∀ err,
     os_file rt (FhirResourceFilePath (fhirResourceSettings r)) = OpenError err →
     persistFhirResource rt r resourceId diag
     = mkRun (AddError diag
                ("failed to read file " +:+ FhirResourceFilePath (fhirResourceSettings r))
                err) [] (Returns (None, None, None))) ∧
  (∀ err,
     os_file rt (FhirResourceFilePath (fhirResourceSettings r)) = ReadError err →
     persistFhirResource rt r resourceId diag
     = mkRun (AddError diag
                ("failed to open file " +:+ FhirResourceFilePath (fhirResourceSettings r))
                err) [] (Returns (None, None, None))) ∧
  (∀ fileContent err,
     os_file rt (FhirResourceFilePath (fhirResourceSettings r)) = Content fileContent →
     json_Unmarshal rt fileContent = inl err →
     persistFhirResource rt r resourceId diag
     = mkRun (AddError diag
                ("failed to unmarshal JSON file " +:+
                 FhirResourceFilePath (fhirResourceSettings r)) err)
             [] (Returns (None, None, None))).
Proof.
  unfold persistFhirResource, readFileContent. split_and!.
  - by intros err ->.
  - by intros err ->.
  - by intros fileContent err -> ->.
Qed.

Lemma persistFhirResource_client_error (r : FhirResource) (resourceId : option string)
    (diag : Diagnostics) (fileContent : string) (kv : gmap string JValue)
    (type : JValue) (err : string) :
  os_file rt (FhirResourceFilePath (fhirResourceSettings r)) = Content fileContent →
  json_Unmarshal rt fileContent = inr (Some kv) →
  kv !! "resourceType" = Some type →
  url_Parse_error rt (URL (persistRequest rt r resourceId fileContent kv type)) = None →
  Client (providerSettings r) (persistRequest rt r resourceId fileContent kv type)
  = inl err →
  persistFhirResource rt r resourceId diag
  = mkRun (AddError diag
             ("could not post the " +:+ Sprintf_s rt (Some type) +:+ " on the url " +:+
              URL (persistRequest rt r resourceId fileContent kv type)) err)
          [persistRequest rt r resourceId fileContent kv type]
          (Returns (None, None, None)).
Proof.
  intros Hfile Hjson Htype Hurl.
  to_client Hfile Hjson Htype Hurl; by intros ->.
Qed.

Lemma persistFhirResource_bad_status (r : FhirResource) (resourceId : option string)
    (diag : Diagnostics) (fileContent : string) (kv : gmap string JValue)
    (type : JValue) (response : Response) (status0 : ascii) (rest : string) :
  os_file rt (FhirResourceFilePath (fhirResourceSettings r)) = Content fileContent →
  json_Unmarshal rt fileContent = inr (Some kv) →
  kv !! "resourceType" = Some type →
  url_Parse_error rt (URL (persistRequest rt r resourceId fileContent kv type)) = None →
  Client (providerSettings r) (persistRequest rt r resourceId fileContent kv type)
  = inr response →
  Status response = String status0 rest →
  status0 ≠ "2"%char →
  persistFhirResource rt r resourceId diag
  = mkRun (AddError diag
             ("the server returned an invalid status for the " +:+
              Sprintf_s rt (Some type) +:+ " on the url " +:+
              URL (persistRequest rt r resourceId fileContent kv type) +:+ ": " +:+
              Status response) (resp_Body response))
          [persistRequest rt r resourceId fileContent kv type]
          (Returns (None, None, None)).
Proof.
  intros Hfile Hjson Htype Hurl.
  to_client Hfile Hjson Htype Hurl; intros -> Hstatus Hne; rewrite Hstatus;
    apply Ascii.eqb_neq in Hne; by rewrite Hne.
Qed.

Lemma persistFhirResource_bad_body (r : FhirResource) (resourceId : option string)
    (diag : Diagnostics) (fileContent : string) (kv : gmap string JValue)
    (type : JValue) (response : Response) (rest err : string) :
  os_file rt (FhirResourceFilePath (fhirResourceSettings r)) = Content fileContent →
  json_Unmarshal rt fileContent = inr (Some kv) →
  kv !! "resourceType" = Some type →
  url_Parse_error rt (URL (persistRequest rt r resourceId fileContent kv type)) = None →
  Client (providerSettings r) (persistRequest rt r resourceId fileContent kv type)
  = inr response →
  Status response = String "2" rest →
  json_Unmarshal rt (resp_Body response) = inl err →
  persistFhirResource rt r resourceId diag
  = mkRun (AddError diag
             ("failed to unmarshal response JSON of the resource " +:+
              Sprintf_s rt (Some type)) err)
          [persistRequest rt r resourceId fileContent kv type]
          (Returns (None, None, None)).
Proof.
  intros Hfile Hjson Htype Hurl.
  to_client Hfile Hjson Htype Hurl; by intros -> -> ->.
Qed.

End Outcomes.

(** ** The requests of [Create] and [Update] *)

(** X3. Whatever [Create] sends is a POST whose body is the document file
    byte for byte, not a re-encoding of the decoded document; and [Create]
    does send exactly one such request when the plan is read without error,
    the document is usable and the URL parses. *)
Theorem X3_create_posts_file_verbatim (rt : Runtime) (r : FhirResource) (plan : Got) :
  (∀ fileContent kv type,
     HasError (Append [] (got_diags plan)) = false →
     documentReady rt (ValueString (FilePath (got plan))) fileContent kv type →
     urlsParse rt →
     ∃ request,
       issued (FhirResource_Create rt r plan) = [request] ∧
       Method request = "POST" ∧
       req_Body request = Some fileContent) ∧
  (∀ request,
     request ∈ issued (FhirResource_Create rt r plan) →
     ∃ fileContent,
       os_file rt (ValueString (FilePath (got plan))) = Content fileContent ∧
       Method request = "POST" ∧
       req_Body request = Some fileContent).
Proof.
  assert (∀ fileContent kv type,
            Method (persistRequest rt (withSettings r (got plan)) None
                      fileContent kv type) = "POST" ∧
            req_Body (persistRequest rt (withSettings r (got plan)) None
                        fileContent kv type) = Some fileContent) as Hframe.
  { intros fileContent kv type. unfold persistRequest.
    destruct (withHeaders_frame rt
                (DefaultHeaders (providerSettings (withSettings r (got plan))))
                (mkRequest "POST"
                   (Sprintf_s_slash_s
                      (resolveBaseUrl_code
                         (settings_FhirBaseUrl
                            (fhirResourceSettings (withSettings r (got plan))))
                         (FhirBaseUrl (providerSettings (withSettings r (got plan)))))
                      (Sprintf_s rt (Some type))) ∅ (Some fileContent)))
      as (-> & _ & ->).
    done. }
  split.
  - intros fileContent kv type Hdiags Hready Hurl.
    eexists. split; [by eapply FhirResource_Create_issues |]. apply Hframe.
  - intros request Hin.
    pose proof (FhirResource_Create_run rt r plan) as Hrun. simpl in Hrun.
    destruct (HasError _).
    + rewrite Hrun in Hin. by apply elem_of_nil in Hin.
    + destruct Hrun as [Hrun _]. rewrite Hrun in Hin.
      destruct (persistFhirResource_issued rt _ _ _ _ Hin)
        as (fileContent & kv & type & Hfile & _ & _ & -> & _).
      exists fileContent. split; [done |]. apply Hframe.
Qed.

Lemma X3_create_posts_file_verbatim_witness :
  ∃ request,
    issued (FhirResource_Create Sample.rt
              (Sample.resource "201 Created" Sample.body_id1)
              (Sample.planned "patient.json" StringNull)) = [request] ∧
    Method request = "POST" ∧
    req_Body request = Some Sample.doc_Patient.
Proof.
  refine (proj1 (X3_create_posts_file_verbatim Sample.rt
            (Sample.resource "201 Created" Sample.body_id1)
            (Sample.planned "patient.json" StringNull))
            Sample.doc_Patient {["resourceType" := JString "Patient"]}
            (JString "Patient") eq_refl _ _).
  - split; [reflexivity | split; reflexivity].
  - intros url. reflexivity.
Defined.

(** X4. Whatever [Update] sends for a stored identifier is a PUT whose body
    is the encoding of the decoded document with [id] set to the last segment
    of the identifier: a previous [id] of the document is overwritten and
    every other key keeps its value. And [Update] does send exactly one such
    request when both models are read without error, the document is usable
    and the URL parses. *)
Theorem X4_update_puts_document_with_id (rt : Runtime) (r : FhirResource)
    (prior plan : Got) (id : string) :
  ResourceId (got prior) = StringValue id →
  (∀ fileContent kv type,
     HasError (Append (Append [] (got_diags prior)) (got_diags plan)) = false →
     documentReady rt (ValueString (FilePath (got plan))) fileContent kv type →
     urlsParse rt →
     ∃ request last document,
       issued (FhirResource_Update rt r prior plan) = [request] ∧
       bareId id = Some last ∧
       Method request = "PUT" ∧
       req_Body request = Some (json_Marshal rt document) ∧
       document !! "id" = Some (JString last) ∧
       ∀ key, key ≠ "id" → document !! key = kv !! key) ∧
  (∀ request,
     request ∈ issued (FhirResource_Update rt r prior plan) →
     ∃ fileContent kv last document,
       os_file rt (ValueString (FilePath (got plan))) = Content fileContent ∧
       json_Unmarshal rt fileContent = inr (Some kv) ∧
       bareId id = Some last ∧
       Method request = "PUT" ∧
       req_Body request = Some (json_Marshal rt document) ∧
       document !! "id" = Some (JString last) ∧
       ∀ key, key ≠ "id" → document !! key = kv !! key).
Proof.
  intros Hid.
  destruct (bareId_is_Some id) as [last Hlast].
  assert (∀ fileContent kv type,
            Method (persistRequest rt (withSettings r (got plan)) (Some id)
                      fileContent kv type) = "PUT" ∧
            req_Body (persistRequest rt (withSettings r (got plan)) (Some id)
                        fileContent kv type)
            = Some (json_Marshal rt (<["id" := JString last]> kv))) as Hframe.
  { intros fileContent kv type. unfold persistRequest.
    destruct (withHeaders_frame rt
                (DefaultHeaders (providerSettings (withSettings r (got plan))))
                (mkRequest "PUT"
                   (Sprintf_s_slash_s
                      (resolveBaseUrl_code
                         (settings_FhirBaseUrl
                            (fhirResourceSettings (withSettings r (got plan))))
                         (FhirBaseUrl (providerSettings (withSettings r (got plan)))))
                      id) ∅
                   (Some (json_Marshal rt
                            (<["id" := JString (default id (bareId id))]> kv)))))
      as (-> & _ & ->).
    by rewrite Hlast. }
  split.
  - intros fileContent kv type Hdiags Hready Hurl.
    exists (persistRequest rt (withSettings r (got plan)) (Some id) fileContent kv type),
      last, (<["id" := JString last]> kv).
    split.
    { erewrite FhirResource_Update_issues by done. by rewrite Hid. }
    destruct (Hframe fileContent kv type) as [-> ->].
    split_and!; try done.
    + apply lookup_insert_eq.
    + intros key Hkey. by apply lookup_insert_ne.
  - intros request Hin.
    pose proof (FhirResource_Update_run rt r prior plan) as Hrun. simpl in Hrun.
    destruct (HasError _).
    + rewrite Hrun in Hin. by apply elem_of_nil in Hin.
    + destruct Hrun as [Hrun _]. rewrite Hrun, Hid in Hin. simpl in Hin.
      destruct (persistFhirResource_issued rt _ _ _ _ Hin)
        as (fileContent & kv & type & Hfile & Hjson & _ & -> & _).
      exists fileContent, kv, last, (<["id" := JString last]> kv).
      destruct (Hframe fileContent kv type) as [-> ->].
      split_and!; try done.
      * apply lookup_insert_eq.
      * intros key Hkey. by apply lookup_insert_ne.
Qed.

Lemma X4_update_puts_document_with_id_witness :
  ∃ request last document,
    issued (FhirResource_Update Sample.rt
              (Sample.resource "200 OK" Sample.body_id1)
              (Sample.stored "patient.json" "Patient/7" StringNull)
              (Sample.planned "patient.json" StringNull)) = [request] ∧
    bareId "Patient/7" = Some last ∧
    Method request = "PUT" ∧
    req_Body request = Some (Sample.Marshal document) ∧
    document !! "id" = Some (JString last) ∧
    ∀ key, key ≠ "id" →
      document !! key
      = ({["resourceType" := JString "Patient"]} : gmap string JValue) !! key.
Proof.
  refine (proj1 (X4_update_puts_document_with_id Sample.rt
            (Sample.resource "200 OK" Sample.body_id1)
            (Sample.stored "patient.json" "Patient/7" StringNull)
            (Sample.planned "patient.json" StringNull) "Patient/7" eq_refl)
            Sample.doc_Patient {["resourceType" := JString "Patient"]}
            (JString "Patient") eq_refl _ _).
  - split; [reflexivity | split; reflexivity].
  - intros url. reflexivity.
Defined.

(** X5. When the prior state holds no identifier (a null [resource_id]),
    [Update] does what [Create] does: it sends a POST of the file as it is to
    the URL of the document's resource type, and sets no [id]. It does send
    exactly one such request when both models are read without error, the
    document is usable and the URL parses. *)
Theorem X5_update_without_identifier_posts (rt : Runtime) (r : FhirResource)
    (prior plan : Got) :
  ResourceId (got prior) = StringNull →
  (∀ fileContent kv type,
     HasError (Append (Append [] (got_diags prior)) (got_diags plan)) = false →
     documentReady rt (ValueString (FilePath (got plan))) fileContent kv type →
     urlsParse rt →
     ∃ request,
       issued (FhirResource_Update rt r prior plan) = [request] ∧
       Method request = "POST" ∧
       URL request
       = Sprintf_s_slash_s
           (resolveBaseUrl_code (ValueStringPointer (model_FhirBaseUrl (got plan)))
                                (FhirBaseUrl (providerSettings r)))
           (Sprintf_s rt (Some type)) ∧
       req_Body request = Some fileContent) ∧
  (∀ request,
     request ∈ issued (FhirResource_Update rt r prior plan) →
     ∃ fileContent kv type,
       os_file rt (ValueString (FilePath (got plan))) = Content fileContent ∧
       json_Unmarshal rt fileContent = inr (Some kv) ∧
       kv !! "resourceType" = Some type ∧
       Method request = "POST" ∧
       URL request
       = Sprintf_s_slash_s
           (resolveBaseUrl_code (ValueStringPointer (model_FhirBaseUrl (got plan)))
                                (FhirBaseUrl (providerSettings r)))
           (Sprintf_s rt (Some type)) ∧
       req_Body request = Some fileContent).
Proof.
  intros Hid.
  assert (∀ fileContent kv type,
            Method (persistRequest rt (withSettings r (got plan)) None
                      fileContent kv type) = "POST" ∧
            URL (persistRequest rt (withSettings r (got plan)) None
                   fileContent kv type)
            = Sprintf_s_slash_s
                (resolveBaseUrl_code
                   (ValueStringPointer (model_FhirBaseUrl (got plan)))
                   (FhirBaseUrl (providerSettings r)))
                (Sprintf_s rt (Some type)) ∧
            req_Body (persistRequest rt (withSettings r (got plan)) None
                        fileContent kv type) = Some fileContent) as Hframe.
  { intros fileContent kv type. unfold persistRequest.
    destruct (withHeaders_frame rt
                (DefaultHeaders (providerSettings (withSettings r (got plan))))
                (mkRequest "POST"
                   (Sprintf_s_slash_s
                      (resolveBaseUrl_code
                         (settings_FhirBaseUrl
                            (fhirResourceSettings (withSettings r (got plan))))
                         (FhirBaseUrl (providerSettings (withSettings r (got plan)))))
                      (Sprintf_s rt (Some type))) ∅ (Some fileContent)))
      as (-> & -> & ->).
    by split_and!. }
  split.
  - intros fileContent kv type Hdiags Hready Hurl.
    exists (persistRequest rt (withSettings r (got plan)) None fileContent kv type).
    split.
    { erewrite FhirResource_Update_issues by done. by rewrite Hid. }
    apply Hframe.
  - intros request Hin.
    pose proof (FhirResource_Update_run rt r prior plan) as Hrun. simpl in Hrun.
    destruct (HasError _).
    + rewrite Hrun in Hin. by apply elem_of_nil in Hin.
    + destruct Hrun as [Hrun _]. rewrite Hrun, Hid in Hin. simpl in Hin.
      destruct (persistFhirResource_issued rt _ _ _ _ Hin)
        as (fileContent & kv & type & Hfile & Hjson & Htype & -> & _).
      exists fileContent, kv, type.
      destruct (Hframe fileContent kv type) as (-> & -> & ->).
      by split_and!.
Qed.

Lemma X5_update_without_identifier_posts_witness :
  ∃ request,
    issued (FhirResource_Update Sample.rt
              (Sample.resource "201 Created" Sample.body_id1)
              (mkGot (mkFhirResourceModel (StringValue "patient.json") StringNull
                        StringNull StringNull StringNull) [])
              (Sample.planned "patient.json" StringNull)) = [request] ∧
    Method request = "POST" ∧
    URL request = "http://fhir.example/Patient" ∧
    req_Body request = Some Sample.doc_Patient.
Proof.
  refine (proj1 (X5_update_without_identifier_posts Sample.rt
            (Sample.resource "201 Created" Sample.body_id1)
            (mkGot (mkFhirResourceModel (StringValue "patient.json") StringNull
                      StringNull StringNull StringNull) [])
            (Sample.planned "patient.json" StringNull) eq_refl)
            Sample.doc_Patient {["resourceType" := JString "Patient"]}
            (JString "Patient") eq_refl _ _).
  - split; [reflexivity | split; reflexivity].
  - intros url. reflexivity.
Defined.

(** ** What every handler keeps to *)

Lemma Append_cons (ds new : Diagnostics) (e : Diagnostic) :
  Append ds (e :: new) = Append (if decide (e ∈ ds) then ds else ds ++ [e]) new.
Proof. reflexivity. Qed.

Lemma Append_keeps (ds new : Diagnostics) (d : Diagnostic) :
  d ∈ ds → d ∈ Append ds new.
Proof.
  revert ds. induction new as [| e new IH]; intros ds Hin; [done |].
  rewrite Append_cons. apply IH. case_decide; [done |].
  apply elem_of_app. by left.
Qed.

Lemma HasError_Append (ds new : Diagnostics) :
  HasError (Append ds new) = HasError ds || HasError new.
Proof.
  revert ds. induction new as [| e new IH]; intros ds.
  - simpl. by rewrite orb_false_r.
  - rewrite Append_cons, IH. simpl. case_decide as Hin.
    + destruct (isError e) eqn:He; [| done].
      by rewrite (HasError_elem e ds Hin He).
    + rewrite HasError_app. simpl. rewrite orb_false_r. by rewrite orb_assoc.
Qed.

Lemma FhirResourceDataSource_Read_run (rt : Runtime) (ps : ProviderSettings)
    (config : GotDataSource) :
  let diags := Append [] (got_ds_diags config) in
  let p := ReadFhirResource rt ps (ValueString (ds_ResourceId (got_ds config))) diags in
  if HasError diags then
    FhirResourceDataSource_Read rt ps config = mkRun diags [] (Returns None)
  else issued (FhirResourceDataSource_Read rt ps config) = issued p ∧
       diagnostics (FhirResourceDataSource_Read rt ps config) = diagnostics p.
Proof.
  intros diags p. unfold FhirResourceDataSource_Read. fold diags. fold p.
  destruct (HasError diags); [done |].
  by destruct (completion p) as [[body []] | why].
Qed.

(** X6. No handler contacts the server more than once in a call: [Create],
    [Read], [Update], [Delete] and the data source's [Read] each hand at most
    one request to the client, whatever the outcome. *)
Theorem X6_at_most_one_request (rt : Runtime) (r : FhirResource) :
  (∀ plan, (length (issued (FhirResource_Create rt r plan)) ≤ 1)%nat) ∧
  (∀ state, (length (issued (FhirResource_Read rt r state)) ≤ 1)%nat) ∧
  (∀ prior plan, (length (issued (FhirResource_Update rt r prior plan)) ≤ 1)%nat) ∧
  (∀ state, (length (issued (FhirResource_Delete rt r state)) ≤ 1)%nat) ∧
  (∀ config,
     (length (issued (FhirResourceDataSource_Read rt (providerSettings r) config))
      ≤ 1)%nat).
Proof.
  assert (∀ requests : list Request,
            (∀ request, request ∈ requests → requests = [request]) →
            (length requests ≤ 1)%nat) as Hone.
  { intros [| request requests] Hall; [simpl; lia |].
    assert (request :: requests = [request]) as [= ->] by (apply Hall; left).
    simpl. lia. }
  split_and!.
  - intros plan. apply Hone. intros request Hin.
    pose proof (FhirResource_Create_run rt r plan) as Hrun. simpl in Hrun.
    destruct (HasError _).
    + rewrite Hrun in Hin. by apply elem_of_nil in Hin.
    + destruct Hrun as [Hrun _]. rewrite Hrun in *.
      by destruct (persistFhirResource_issued rt _ _ _ _ Hin)
        as (_ & _ & _ & _ & _ & _ & _ & ->).
  - intros state. apply Hone. intros request Hin.
    pose proof (FhirResource_Read_run rt r state) as Hrun. simpl in Hrun.
    destruct (HasError _).
    + rewrite Hrun in Hin. by apply elem_of_nil in Hin.
    + rewrite Hrun in *. by destruct (ReadFhirResource_issued rt _ _ _ _ Hin).
  - intros prior plan. apply Hone. intros request Hin.
    pose proof (FhirResource_Update_run rt r prior plan) as Hrun. simpl in Hrun.
    destruct (HasError _).
    + rewrite Hrun in Hin. by apply elem_of_nil in Hin.
    + destruct Hrun as [Hrun _]. rewrite Hrun in *.
      by destruct (persistFhirResource_issued rt _ _ _ _ Hin)
        as (_ & _ & _ & _ & _ & _ & _ & ->).
  - intros state. apply Hone. intros request Hin.
    by destruct (FhirResource_Delete_issued rt _ _ _ Hin).
  - intros config. apply Hone. intros request Hin.
    pose proof (FhirResourceDataSource_Read_run rt (providerSettings r) config) as Hrun.
    simpl in Hrun. destruct (HasError _).
    + rewrite Hrun in Hin. by apply elem_of_nil in Hin.
    + destruct Hrun as [Hrun _]. rewrite Hrun in *.
      by destruct (ReadFhirResource_issued rt _ _ _ _ Hin).
Qed.

(** X7. An error among the diagnostics of reading the model stops every
    handler before anything else happens: no request goes out, no state is
    saved, and the collector holds just the diagnostics of the read. For
    [Update] an error in either of its two reads, of the prior state or of
    the plan, is enough. *)
Theorem X7_failed_model_read_stops (rt : Runtime) (r : FhirResource) :
  (∀ plan,
     HasError (got_diags plan) = true →
     FhirResource_Create rt r plan
     = mkRun (Append [] (got_diags plan)) [] (Returns None)) ∧
  (∀ state,
     HasError (got_diags state) = true →
     FhirResource_Read rt r state
     = mkRun (Append [] (got_diags state)) [] (Returns None)) ∧
  (∀ prior plan,
     HasError (got_diags prior) = true ∨ HasError (got_diags plan) = true →
     FhirResource_Update rt r prior plan
     = mkRun (Append (Append [] (got_diags prior)) (got_diags plan)) []
             (Returns None)) ∧
  (∀ state,
     HasError (got_diags state) = true →
     FhirResource_Delete rt r state
     = mkRun (Append [] (got_diags state)) [] (Returns tt)) ∧
  (∀ config,
     HasError (got_ds_diags config) = true →
     FhirResourceDataSource_Read rt (providerSettings r) config
     = mkRun (Append [] (got_ds_diags config)) [] (Returns None)).
Proof.
  split_and!.
  - intros plan Herr.
    pose proof (FhirResource_Create_run rt r plan) as Hrun. simpl in Hrun.
    by rewrite HasError_Append, Herr in Hrun.
  - intros state Herr.
    pose proof (FhirResource_Read_run rt r state) as Hrun. simpl in Hrun.
    by rewrite HasError_Append, Herr in Hrun.
  - intros prior plan Herr.
    pose proof (FhirResource_Update_run rt r prior plan) as Hrun. simpl in Hrun.
    rewrite !HasError_Append in Hrun.
    destruct Herr as [Herr | Herr]; rewrite Herr in Hrun;
      rewrite ?orb_true_r in Hrun; exact Hrun.
  - intros state Herr. unfold FhirResource_Delete.
    by rewrite HasError_Append, Herr.
  - intros config Herr.
    pose proof (FhirResourceDataSource_Read_run rt (providerSettings r) config) as Hrun.
    simpl in Hrun. by rewrite HasError_Append, Herr in Hrun.
Qed.

Lemma X7_failed_model_read_stops_witness :
  FhirResource_Update Sample.rt (Sample.resource "200 OK" Sample.body_id1)
    (Sample.stored "patient.json" "Patient/1" StringNull)
    (mkGot (got (Sample.planned "patient.json" StringNull)) Fixtures.failedGet)
  = mkRun Fixtures.failedGet [] (Returns None).
Proof.
  apply (X7_failed_model_read_stops Sample.rt
           (Sample.resource "200 OK" Sample.body_id1)).
  right. reflexivity.
Defined.

Lemma persistFhirResource_keeps (rt : Runtime) (r : FhirResource)
    (resourceId : option string) (diag : Diagnostics) (d : Diagnostic) :
  d ∈ diag → d ∈ diagnostics (persistFhirResource rt r resourceId diag).
Proof.
  intros Hin.
  unfold persistFhirResource, readFileContent, http_NewRequest.
  repeat (case_match; simplify_eq/=); auto using AddError_keeps.
Qed.

Lemma ReadFhirResource_keeps (rt : Runtime) (ps : ProviderSettings)
    (resourceId : string) (diag : Diagnostics) (d : Diagnostic) :
  d ∈ diag → d ∈ diagnostics (ReadFhirResource rt ps resourceId diag).
Proof.
  intros Hin. unfold ReadFhirResource, http_NewRequest.
  repeat (case_match; simplify_eq/=); auto using AddError_keeps.
Qed.

(** X8. A handler never drops a diagnostic: every diagnostic of the model
    read, a warning for instance, is still in the collector when [Create],
    [Read], [Update], [Delete] or the data source's [Read] ends, however it
    ends. *)
Theorem X8_diagnostics_are_kept (rt : Runtime) (r : FhirResource) (d : Diagnostic) :
  (∀ plan, d ∈ got_diags plan → d ∈ diagnostics (FhirResource_Create rt r plan)) ∧
  (∀ state, d ∈ got_diags state → d ∈ diagnostics (FhirResource_Read rt r state)) ∧
  (∀ prior plan,
     d ∈ got_diags prior ∨ d ∈ got_diags plan →
     d ∈ diagnostics (FhirResource_Update rt r prior plan)) ∧
  (∀ state, d ∈ got_diags state → d ∈ diagnostics (FhirResource_Delete rt r state)) ∧
  (∀ config,
     d ∈ got_ds_diags config →
     d ∈ diagnostics (FhirResourceDataSource_Read rt (providerSettings r) config)).
Proof.
  assert (∀ new, d ∈ new → d ∈ Append [] new) as Hfirst.
  { intros new Hin. induction new as [| e new IH] using rev_ind.
    - by apply elem_of_nil in Hin.
    - unfold Append in *. rewrite fold_left_app. simpl.
      apply elem_of_app in Hin as [Hin | Hin%list_elem_of_singleton].
      + case_decide; [by apply IH |]. apply elem_of_app. left. by apply IH.
      + subst. case_decide; [done |]. apply elem_of_app. right. by left. }
  assert (∀ ds new, d ∈ new → d ∈ Append ds new) as Hsecond.
  { intros ds new Hin. induction new as [| e new IH] using rev_ind.
    - by apply elem_of_nil in Hin.
    - unfold Append in *. rewrite fold_left_app. simpl.
      apply elem_of_app in Hin as [Hin | Hin%list_elem_of_singleton].
      + case_decide; [by apply IH |]. apply elem_of_app. left. by apply IH.
      + subst. case_decide; [done |]. apply elem_of_app. right. by left. }
  split_and!.
  - intros plan Hin. apply Hfirst in Hin.
    pose proof (FhirResource_Create_run rt r plan) as Hrun. simpl in Hrun.
    destruct (HasError _); [by rewrite Hrun |].
    destruct Hrun as [_ ->]. by apply persistFhirResource_keeps.
  - intros state Hin. apply Hfirst in Hin.
    unfold FhirResource_Read, ReadFhirResource_with_override.
    destruct (HasError _); [done |]. simpl.
    fold (readSettings r (got state)).
    pose proof (ReadFhirResource_keeps rt (readSettings r (got state))
                  (ValueString (ResourceId (got state))) _ d Hin) as Hkept.
    destruct (completion _) as [[body []] | why]; try done.
    destruct (json_Unmarshal rt _) as [err | responseJson]; simpl.
    + by apply AddError_keeps.
    + by destruct (assert_string (index responseJson "id")),
           (assert_string (index responseJson "resourceType")).
  - intros prior plan Hin.
    assert (d ∈ Append (Append [] (got_diags prior)) (got_diags plan)) as Hboth.
    { destruct Hin as [Hin | Hin]; [| by apply Hsecond].
      apply Append_keeps. by apply Hfirst. }
    pose proof (FhirResource_Update_run rt r prior plan) as Hrun. simpl in Hrun.
    destruct (HasError _); [by rewrite Hrun |].
    destruct Hrun as [_ ->]. by apply persistFhirResource_keeps.
  - intros state Hin. apply Hfirst in Hin.
    unfold FhirResource_Delete, http_NewRequest.
    repeat (case_match; simplify_eq/=); auto using AddError_keeps.
  - intros config Hin. apply Hfirst in Hin.
    pose proof (FhirResourceDataSource_Read_run rt (providerSettings r) config) as Hrun.
    simpl in Hrun. destruct (HasError _); [by rewrite Hrun |].
    destruct Hrun as [_ ->]. by apply ReadFhirResource_keeps.
Qed.

Lemma X8_diagnostics_are_kept_witness :
  mkDiagnostic SeverityWarning "Deprecated" "the attribute is deprecated"
  ∈ diagnostics
      (FhirResource_Delete Sample.rt (Sample.resource "404 Not Found" "gone")
         (mkGot (got (Sample.stored "patient.json" "Patient/1" StringNull))
                Fixtures.warnedGet)).
Proof.
  apply (X8_diagnostics_are_kept Sample.rt (Sample.resource "404 Not Found" "gone")).
  left.
Defined.

(** X9. Success and failure exclude each other: when [Create], [Read],
    [Update] or the data source's [Read] saves a state, the collector holds
    exactly the diagnostics of the model read, none of them an error, so the
    handler itself reported nothing. *)
Theorem X9_saved_state_without_error (rt : Runtime) (r : FhirResource) :
  (∀ plan saved,
     completion (FhirResource_Create rt r plan) = Returns (Some saved) →
     diagnostics (FhirResource_Create rt r plan) = Append [] (got_diags plan) ∧
     HasError (diagnostics (FhirResource_Create rt r plan)) = false) ∧
  (∀ state saved,
     completion (FhirResource_Read rt r state) = Returns (Some saved) →
     diagnostics (FhirResource_Read rt r state) = Append [] (got_diags state) ∧
     HasError (diagnostics (FhirResource_Read rt r state)) = false) ∧
  (∀ prior plan saved,
     completion (FhirResource_Update rt r prior plan) = Returns (Some saved) →
     diagnostics (FhirResource_Update rt r prior plan)
     = Append (Append [] (got_diags prior)) (got_diags plan) ∧
     HasError (diagnostics (FhirResource_Update rt r prior plan)) = false) ∧
  (∀ config saved,
     completion (FhirResourceDataSource_Read rt (providerSettings r) config)
     = Returns (Some saved) →
     diagnostics (FhirResourceDataSource_Read rt (providerSettings r) config)
     = Append [] (got_ds_diags config) ∧
     HasError (diagnostics (FhirResourceDataSource_Read rt (providerSettings r) config))
     = false).
Proof.
  split_and!.
  - intros plan saved Hsaved.
    destruct (FhirResource_Create_saved rt r plan saved Hsaved)
      as (body & responseJson & resourceType & id & Hpersist & _).
    destruct (persistFhirResource_success rt _ _ _ _ _ _ Hpersist)
      as (? & ? & ? & ? & ? & _ & _ & _ & Hrun & _).
    pose proof (FhirResource_Create_run rt r plan) as Hguard. simpl in Hguard.
    destruct (HasError (Append [] (got_diags plan))) eqn:Herr.
    + by rewrite Hguard in Hsaved.
    + destruct Hguard as [_ ->]. by rewrite Hrun.
  - intros state saved Hsaved.
    destruct (FhirResource_Read_saved rt r state saved Hsaved)
      as (body & responseJson & resourceType & id & Hread & _ & Hjson & Hid & Htype & _).
    destruct (ReadFhirResource_success rt _ _ _ _ Hread) as (? & ? & Hrun & _).
    unfold FhirResource_Read, ReadFhirResource_with_override in *.
    destruct (HasError (Append [] (got_diags state))) eqn:Herr; [done |].
    simpl in *. fold (readSettings r (got state)) in *.
    rewrite Hrun in *. simpl in *. rewrite Hjson, Hid, Htype in *.
    by simpl.
  - intros prior plan saved Hsaved.
    destruct (FhirResource_Update_saved rt r prior plan saved Hsaved)
      as (body & responseJson & resourceType & id & Hpersist & _).
    destruct (persistFhirResource_success rt _ _ _ _ _ _ Hpersist)
      as (? & ? & ? & ? & ? & _ & _ & _ & Hrun & _).
    pose proof (FhirResource_Update_run rt r prior plan) as Hguard. simpl in Hguard.
    destruct (HasError (Append (Append [] (got_diags prior)) (got_diags plan)))
      eqn:Herr.
    + by rewrite Hguard in Hsaved.
    + destruct Hguard as [_ ->]. by rewrite Hrun.
  - intros config saved Hsaved.
    pose proof (FhirResourceDataSource_Read_run rt (providerSettings r) config)
      as Hguard. simpl in Hguard.
    destruct (HasError (Append [] (got_ds_diags config))) eqn:Herr.
    + by rewrite Hguard in Hsaved.
    + destruct Hguard as [_ Hdiag]. rewrite Hdiag.
      unfold FhirResourceDataSource_Read in Hsaved. rewrite Herr in Hsaved.
      destruct (completion (ReadFhirResource _ _ _ _))
        as [[body []] | why] eqn:Hread; try done.
      destruct (ReadFhirResource_success rt _ _ _ _ Hread) as (? & ? & -> & _).
      done.
Qed.

Lemma X9_saved_state_without_error_witness :
  diagnostics (FhirResource_Create Sample.rt
                 (Sample.resource "201 Created" Sample.body_id1)
                 (mkGot (got (Sample.planned "patient.json" StringNull))
                        Fixtures.warnedGet))
  = Append [] Fixtures.warnedGet.
Proof.
  refine (proj1 (proj1 (X9_saved_state_without_error Sample.rt
                          (Sample.resource "201 Created" Sample.body_id1))
                   (mkGot (got (Sample.planned "patient.json" StringNull))
                          Fixtures.warnedGet)
                   (mkFhirResourceModel (StringValue "patient.json") StringNull
                      StringNull (StringValue "Patient/1")
                      (StringValue
                         "5811967f540d300d249ab30ae681359a7815fdb5d3dc71a94be1d491006a6b27"))
                   _)).
  vm_compute. reflexivity.
Defined.

(** ** How the handlers fail *)

(** X10. A document that cannot be used never reaches the network. When the
    file cannot be opened, cannot be read, or is not a JSON object, [Create]
    and [Update] send nothing, save nothing, and add one error diagnostic
    whose detail is the text of the underlying error. (The summary says
    "failed to read file" when opening failed and "failed to open file" when
    reading failed.) *)
Theorem X10_unusable_document_stops (rt : Runtime) (r : FhirResource)
    (prior plan : Got) (summary err : string) :
  let path := ValueString (FilePath (got plan)) in
  let created := Append [] (got_diags plan) in
  let updated := Append (Append [] (got_diags prior)) (got_diags plan) in
  (os_file rt path = OpenError err ∧ summary = "failed to read file " +:+ path) ∨
  (os_file rt path = ReadError err ∧ summary = "failed to open file " +:+ path) ∨
  (∃ fileContent,
     os_file rt path = Content fileContent ∧
     json_Unmarshal rt fileContent = inl err ∧
     summary = "failed to unmarshal JSON file " +:+ path) →
  (HasError created = false →
   FhirResource_Create rt r plan
   = mkRun (AddError created summary err) [] (Returns None)) ∧
  (HasError updated = false →
   FhirResource_Update rt r prior plan
   = mkRun (AddError updated summary err) [] (Returns None)).
Proof.
  intros path created updated Hcase.
  assert (∀ resourceId diag,
            persistFhirResource rt (withSettings r (got plan)) resourceId diag
            = mkRun (AddError diag summary err) [] (Returns (None, None, None)))
    as Hpersist.
  { intros resourceId diag.
    destruct (persistFhirResource_unreadable rt (withSettings r (got plan))
                resourceId diag) as (Hopen & Hread & Hjson).
    destruct Hcase as [[Hfile ->] | [[Hfile ->] | (fileContent & Hfile & Herr & ->)]].
    - by apply Hopen.
    - by apply Hread.
    - by apply (Hjson fileContent). }
  split; intros Hdiags.
  - unfold FhirResource_Create. fold created. by rewrite Hdiags, Hpersist.
  - unfold FhirResource_Update. fold updated. by rewrite Hdiags, Hpersist.
Qed.

Lemma X10_unusable_document_stops_witness :
  FhirResource_Create Fixtures.rt (Sample.resource "201 Created" Sample.body_id1)
    (Sample.planned "broken.json" StringNull)
  = mkRun (AddError [] "failed to unmarshal JSON file broken.json" "invalid character")
          [] (Returns None).
Proof.
  refine (proj1 (X10_unusable_document_stops Fixtures.rt
                   (Sample.resource "201 Created" Sample.body_id1)
                   (Sample.stored "broken.json" "Patient/1" StringNull)
                   (Sample.planned "broken.json" StringNull)
                   "failed to unmarshal JSON file broken.json" "invalid character" _)
            eq_refl).
  right. right. exists "{". by split_and!.
Defined.

(** X11. When the call of the client fails before a response arrives, every
    handler has sent its one request, saves nothing, and adds one error
    diagnostic whose detail is the text of the client's error. *)
Theorem X11_transport_error_is_reported (rt : Runtime) (r : FhirResource) (err : string) :
  fails (providerSettings r) err →
  urlsParse rt →
  (∀ plan fileContent kv type,
     HasError (Append [] (got_diags plan)) = false →
     documentReady rt (ValueString (FilePath (got plan))) fileContent kv type →
     let request := persistRequest rt (withSettings r (got plan)) None fileContent kv type in
     FhirResource_Create rt r plan
     = mkRun (AddError (Append [] (got_diags plan))
                ("could not post the " +:+ Sprintf_s rt (Some type) +:+
                 " on the url " +:+ URL request) err)
             [request] (Returns None)) ∧
  (∀ prior plan fileContent kv type,
     HasError (Append (Append [] (got_diags prior)) (got_diags plan)) = false →
     documentReady rt (ValueString (FilePath (got plan))) fileContent kv type →
     let request :=
       persistRequest rt (withSettings r (got plan))
         (ValueStringPointer (ResourceId (got prior))) fileContent kv type in
     FhirResource_Update rt r prior plan
     = mkRun (AddError (Append (Append [] (got_diags prior)) (got_diags plan))
                ("could not post the " +:+ Sprintf_s rt (Some type) +:+
                 " on the url " +:+ URL request) err)
             [request] (Returns None)) ∧
  (∀ state,
     HasError (Append [] (got_diags state)) = false →
     ∃ url request,
       FhirResource_Read rt r state
       = mkRun (AddError (Append [] (got_diags state))
                  ("could not delete the resource using the URL " +:+ url) err)
               [request] (Returns None)) ∧
  (∀ state,
     HasError (Append [] (got_diags state)) = false →
     let url :=
       Sprintf_s_slash_s
         (resolveBaseUrl_code (ValueStringPointer (model_FhirBaseUrl (got state)))
                              (FhirBaseUrl (providerSettings r)))
         (ValueString (ResourceId (got state))) in
     FhirResource_Delete rt r state
     = mkRun (AddError (Append [] (got_diags state))
                ("could not delete the resource using the URL " +:+ url) err)
             [plainRequest rt "DELETE" url (providerSettings r)] (Returns tt)).
Proof.
  intros Hfails Hurl. unfold fails, urlsParse in *. split_and!.
  - intros plan fileContent kv type Hdiags (Hfile & Hjson & Htype). cbv zeta.
    unfold FhirResource_Create. rewrite Hdiags.
    by erewrite persistFhirResource_client_error by eauto.
  - intros prior plan fileContent kv type Hdiags (Hfile & Hjson & Htype). cbv zeta.
    unfold FhirResource_Update. rewrite Hdiags.
    by erewrite persistFhirResource_client_error by eauto.
  - intros state Hdiags. eexists _, _.
    unfold FhirResource_Read, ReadFhirResource_with_override, ReadFhirResource, http_NewRequest. rewrite Hdiags.
    simpl. by rewrite Hurl, Hfails.
  - intros state Hdiags. cbv zeta.
    unfold FhirResource_Delete, http_NewRequest. rewrite Hdiags.
    simpl. by rewrite Hurl, Hfails.
Qed.

Lemma X11_transport_error_is_reported_witness :
  FhirResource_Delete Sample.rt (Fixtures.offline "dial tcp: connection refused")
    (Sample.stored "patient.json" "Patient/1" StringNull)
  = mkRun (AddError [] "could not delete the resource using the URL http://fhir.example/Patient/1"
             "dial tcp: connection refused")
          [plainRequest Sample.rt "DELETE" "http://fhir.example/Patient/1"
             (providerSettings (Fixtures.offline "dial tcp: connection refused"))]
          (Returns tt).
Proof.
  refine (proj2 (proj2 (proj2 (X11_transport_error_is_reported Sample.rt
            (Fixtures.offline "dial tcp: connection refused")
            "dial tcp: connection refused" _ _)))
            (Sample.stored "patient.json" "Patient/1" StringNull) eq_refl).
  - intros request. reflexivity.
  - intros url. reflexivity.
Defined.

(** X12. A response whose status does not start with 2 is reported with the
    server's own words and nothing is saved. [Create] and [Update] put the
    status line in the summary and the raw body, unchanged, in the detail;
    [Read], [Delete] and the data source's [Read] put "Error code", the
    status line and the raw body in the detail. *)
Theorem X12_remote_error_is_reported (rt : Runtime) (r : FhirResource)
    (response : Response) (status0 : ascii) (rest : string) :
  answers (providerSettings r) response →
  urlsParse rt →
  Status response = String status0 rest →
  status0 ≠ "2"%char →
  (∀ plan fileContent kv type,
     HasError (Append [] (got_diags plan)) = false →
     documentReady rt (ValueString (FilePath (got plan))) fileContent kv type →
     let request := persistRequest rt (withSettings r (got plan)) None fileContent kv type in
     FhirResource_Create rt r plan
     = mkRun (AddError (Append [] (got_diags plan))
                ("the server returned an invalid status for the " +:+
                 Sprintf_s rt (Some type) +:+ " on the url " +:+ URL request +:+
                 ": " +:+ Status response) (resp_Body response))
             [request] (Returns None)) ∧
  (∀ prior plan fileContent kv type,
     HasError (Append (Append [] (got_diags prior)) (got_diags plan)) = false →
     documentReady rt (ValueString (FilePath (got plan))) fileContent kv type →
     let request :=
       persistRequest rt (withSettings r (got plan))
         (ValueStringPointer (ResourceId (got prior))) fileContent kv type in
     FhirResource_Update rt r prior plan
     = mkRun (AddError (Append (Append [] (got_diags prior)) (got_diags plan))
                ("the server returned an invalid status for the " +:+
                 Sprintf_s rt (Some type) +:+ " on the url " +:+ URL request +:+
                 ": " +:+ Status response) (resp_Body response))
             [request] (Returns None)) ∧
  (∀ state,
     HasError (Append [] (got_diags state)) = false →
     ∃ url request,
       FhirResource_Read rt r state
       = mkRun (AddError (Append [] (got_diags state))
                  ("could not get the resource using the URL " +:+ url +:+ ".")
                  ("Error code " +:+ Status response +:+ ". Response: " +:+
                   resp_Body response))
               [request] (Returns None)) ∧
  (∀ state,
     HasError (Append [] (got_diags state)) = false →
     let url :=
       Sprintf_s_slash_s
         (resolveBaseUrl_code (ValueStringPointer (model_FhirBaseUrl (got state)))
                              (FhirBaseUrl (providerSettings r)))
         (ValueString (ResourceId (got state))) in
     FhirResource_Delete rt r state
     = mkRun (AddError (Append [] (got_diags state))
                ("could not delete the resource using the URL " +:+ url +:+ ".")
                ("Error code " +:+ Status response +:+ ". Response: " +:+
                 resp_Body response))
             [plainRequest rt "DELETE" url (providerSettings r)] (Returns tt)) ∧
  (∀ config,
     HasError (Append [] (got_ds_diags config)) = false →
     let url :=
       Sprintf_s_slash_s (FhirBaseUrl (providerSettings r))
                         (ValueString (ds_ResourceId (got_ds config))) in
     FhirResourceDataSource_Read rt (providerSettings r) config
     = mkRun (AddError (Append [] (got_ds_diags config))
                ("could not get the resource using the URL " +:+ url +:+ ".")
                ("Error code " +:+ Status response +:+ ". Response: " +:+
                 resp_Body response))
             [plainRequest rt "GET" url (providerSettings r)] (Returns None)).
Proof.
  intros Hanswers Hurl Hstatus Hne. unfold answers, urlsParse in *.
  pose proof Hne as Hneb. apply Ascii.eqb_neq in Hneb.
  split_and!.
  - intros plan fileContent kv type Hdiags (Hfile & Hjson & Htype). cbv zeta.
    unfold FhirResource_Create. rewrite Hdiags.
    by erewrite persistFhirResource_bad_status by eauto.
  - intros prior plan fileContent kv type Hdiags (Hfile & Hjson & Htype). cbv zeta.
    unfold FhirResource_Update. rewrite Hdiags.
    by erewrite persistFhirResource_bad_status by eauto.
  - intros state Hdiags. eexists _, _.
    unfold FhirResource_Read, ReadFhirResource_with_override, ReadFhirResource, http_NewRequest. rewrite Hdiags.
    simpl. by rewrite Hurl, Hanswers, Hstatus, Hneb.
  - intros state Hdiags. cbv zeta.
    unfold FhirResource_Delete, http_NewRequest. rewrite Hdiags.
    simpl. by rewrite Hurl, Hanswers, Hstatus, Hneb.
  - intros config Hdiags. cbv zeta.
    unfold FhirResourceDataSource_Read, ReadFhirResource, http_NewRequest.
    rewrite Hdiags. simpl. by rewrite Hurl, Hanswers, Hstatus, Hneb.
Qed.

Lemma X12_remote_error_is_reported_witness :
  ∃ url request,
    FhirResource_Read Sample.rt (Sample.resource "404 Not Found" "no such record")
      (Sample.stored "patient.json" "Patient/1" StringNull)
    = mkRun (AddError [] ("could not get the resource using the URL " +:+ url +:+ ".")
               "Error code 404 Not Found. Response: no such record")
            [request] (Returns None).
Proof.
  refine (proj1 (proj2 (proj2 (X12_remote_error_is_reported Sample.rt
            (Sample.resource "404 Not Found" "no such record")
            (mkResponse "404 Not Found" "no such record") "4" "04 Not Found"
            _ _ eq_refl _)))
            (Sample.stored "patient.json" "Patient/1" StringNull) eq_refl).
  - intros request. reflexivity.
  - intros url. reflexivity.
  - discriminate.
Defined.

(** X13. A response with a status that starts with 2 whose body is not JSON
    is an error for [Create], [Update] and [Read]: one error diagnostic with
    the decoder's message as detail, and no state saved. *)
Theorem X13_undecodable_response_is_reported (rt : Runtime) (r : FhirResource)
    (response : Response) (rest err : string) :
  answers (providerSettings r) response →
  urlsParse rt →
  Status response = String "2" rest →
  json_Unmarshal rt (resp_Body response) = inl err →
  (∀ plan fileContent kv type,
     HasError (Append [] (got_diags plan)) = false →
     documentReady rt (ValueString (FilePath (got plan))) fileContent kv type →
     FhirResource_Create rt r plan
     = mkRun (AddError (Append [] (got_diags plan))
                ("failed to unmarshal response JSON of the resource " +:+
                 Sprintf_s rt (Some type)) err)
             [persistRequest rt (withSettings r (got plan)) None fileContent kv type]
             (Returns None)) ∧
  (∀ prior plan fileContent kv type,
     HasError (Append (Append [] (got_diags prior)) (got_diags plan)) = false →
     documentReady rt (ValueString (FilePath (got plan))) fileContent kv type →
     FhirResource_Update rt r prior plan
     = mkRun (AddError (Append (Append [] (got_diags prior)) (got_diags plan))
                ("failed to unmarshal response JSON of the resource " +:+
                 Sprintf_s rt (Some type)) err)
             [persistRequest rt (withSettings r (got plan))
                (ValueStringPointer (ResourceId (got prior))) fileContent kv type]
             (Returns None)) ∧
  (∀ state,
     HasError (Append [] (got_diags state)) = false →
     ∃ request,
       FhirResource_Read rt r state
       = mkRun (AddError (Append [] (got_diags state))
                  ("failed to unmarshal response JSON of the resource " +:+
                   ValueString (ResourceId (got state))) err)
               [request] (Returns None)).
Proof.
  intros Hanswers Hurl Hstatus Hbody. unfold answers, urlsParse in *.
  split_and!.
  - intros plan fileContent kv type Hdiags (Hfile & Hjson & Htype).
    unfold FhirResource_Create. rewrite Hdiags.
    by erewrite persistFhirResource_bad_body by eauto.
  - intros prior plan fileContent kv type Hdiags (Hfile & Hjson & Htype).
    unfold FhirResource_Update. rewrite Hdiags.
    by erewrite persistFhirResource_bad_body by eauto.
  - intros state Hdiags. eexists.
    unfold FhirResource_Read, ReadFhirResource_with_override. rewrite Hdiags.
    erewrite ReadFhirResource_returns by eauto.
    simpl. by rewrite Hbody.
Qed.

Lemma X13_undecodable_response_is_reported_witness :
  FhirResource_Create Sample.rt (Sample.resource "200 OK" "<html>")
    (Sample.planned "patient.json" StringNull)
  = mkRun (AddError [] "failed to unmarshal response JSON of the resource Patient"
             "invalid character")
          [persistRequest Sample.rt
             (withSettings (Sample.resource "200 OK" "<html>")
                (got (Sample.planned "patient.json" StringNull)))
             None Sample.doc_Patient {["resourceType" := JString "Patient"]}
             (JString "Patient")]
          (Returns None).
Proof.
  refine (proj1 (X13_undecodable_response_is_reported Sample.rt
                   (Sample.resource "200 OK" "<html>")
                   (mkResponse "200 OK" "<html>") "00 OK" "invalid character"
                   _ _ eq_refl eq_refl)
            (Sample.planned "patient.json" StringNull) Sample.doc_Patient
            {["resourceType" := JString "Patient"]} (JString "Patient") eq_refl _).
  - intros request. reflexivity.
  - intros url. reflexivity.
  - by split_and!.
Defined.

(** X14. A successful response whose body is the JSON document [null]
    decodes to the nil map, which [Create] and [Update] take for the sign of
    a failed call: they return without saving a state and without any
    diagnostic, although the request went out and the server accepted it. *)
Theorem X14_null_response_is_silent (rt : Runtime) (r : FhirResource)
    (response : Response) (rest : string) :
  answers (providerSettings r) response →
  urlsParse rt →
  Status response = String "2" rest →
  json_Unmarshal rt (resp_Body response) = inr None →
  (∀ plan fileContent kv type,
     HasError (Append [] (got_diags plan)) = false →
     documentReady rt (ValueString (FilePath (got plan))) fileContent kv type →
     FhirResource_Create rt r plan
     = mkRun (Append [] (got_diags plan))
             [persistRequest rt (withSettings r (got plan)) None fileContent kv type]
             (Returns None)) ∧
  (∀ prior plan fileContent kv type,
     HasError (Append (Append [] (got_diags prior)) (got_diags plan)) = false →
     documentReady rt (ValueString (FilePath (got plan))) fileContent kv type →
     FhirResource_Update rt r prior plan
     = mkRun (Append (Append [] (got_diags prior)) (got_diags plan))
             [persistRequest rt (withSettings r (got plan))
                (ValueStringPointer (ResourceId (got prior))) fileContent kv type]
             (Returns None)).
Proof.
  intros Hanswers Hurl Hstatus Hbody. unfold answers, urlsParse in *.
  split.
  - intros plan fileContent kv type Hdiags (Hfile & Hjson & Htype).
    unfold FhirResource_Create. rewrite Hdiags.
    by erewrite persistFhirResource_returns by eauto.
  - intros prior plan fileContent kv type Hdiags (Hfile & Hjson & Htype).
    unfold FhirResource_Update. rewrite Hdiags.
    by erewrite persistFhirResource_returns by eauto.
Qed.

Lemma X14_null_response_is_silent_witness :
  FhirResource_Create Fixtures.rt (Sample.resource "200 OK" "null")
    (Sample.planned "patient.json" StringNull)
  = mkRun []
          [persistRequest Fixtures.rt
             (withSettings (Sample.resource "200 OK" "null")
                (got (Sample.planned "patient.json" StringNull)))
             None Sample.doc_Patient {["resourceType" := JString "Patient"]}
             (JString "Patient")]
          (Returns None).
Proof.
  refine (proj1 (X14_null_response_is_silent Fixtures.rt
                   (Sample.resource "200 OK" "null")
                   (mkResponse "200 OK" "null") "00 OK" _ _ eq_refl eq_refl)
            (Sample.planned "patient.json" StringNull) Sample.doc_Patient
            {["resourceType" := JString "Patient"]} (JString "Patient") eq_refl _).
  - intros request. reflexivity.
  - intros url. reflexivity.
  - by split_and!.
Defined.

(** ** Handlers that do not look into the body *)

(** X15. [Delete] sends a DELETE without a body to [baseUrl/resource_id] and
    never decodes the response: on a status that starts with 2 it returns
    with the collector untouched whatever the body holds, an empty body or
    one that is not JSON included. *)
Theorem X15_delete_ignores_body (rt : Runtime) (r : FhirResource) (state : Got)
    (response : Response) (rest : string) :
  answers (providerSettings r) response →
  urlsParse rt →
  HasError (Append [] (got_diags state)) = false →
  Status response = String "2" rest →
  ∃ request,
    FhirResource_Delete rt r state
    = mkRun (Append [] (got_diags state)) [request] (Returns tt) ∧
    Method request = "DELETE" ∧
    URL request
    = Sprintf_s_slash_s
        (resolveBaseUrl_code (ValueStringPointer (model_FhirBaseUrl (got state)))
                             (FhirBaseUrl (providerSettings r)))
        (ValueString (ResourceId (got state))) ∧
    req_Body request = None.
Proof.
  intros Hanswers Hurl Hdiags Hstatus. unfold answers, urlsParse in *.
  eexists. split.
  - unfold FhirResource_Delete, http_NewRequest. rewrite Hdiags.
    simpl. rewrite Hurl, Hanswers, Hstatus. reflexivity.
  - simpl. split_and!.
    + by rewrite (proj1 (setDefaultHeaders_frame rt _ _)).
    + by rewrite (proj1 (proj2 (setDefaultHeaders_frame rt _ _))).
    + by rewrite (proj2 (proj2 (setDefaultHeaders_frame rt _ _))).
Qed.

Lemma X15_delete_ignores_body_witness :
  ∃ request,
    FhirResource_Delete Sample.rt (Sample.resource "204 No Content" "")
      (Sample.stored "patient.json" "Patient/1" StringNull)
    = mkRun [] [request] (Returns tt) ∧
    Method request = "DELETE" ∧
    URL request = "http://fhir.example/Patient/1" ∧
    req_Body request = None.
Proof.
  refine (X15_delete_ignores_body Sample.rt (Sample.resource "204 No Content" "")
            (Sample.stored "patient.json" "Patient/1" StringNull)
            (mkResponse "204 No Content" "") "04 No Content" _ _ eq_refl eq_refl).
  - intros request. reflexivity.
  - intros url. reflexivity.
Defined.

(** X16. The data source's [Read] asks for [resource_id] under the provider's
    base URL with a GET without a body and, on a status that starts with 2,
    stores the response body as it came, byte for byte and without decoding
    it, next to the unchanged [resource_id]. *)
Theorem X16_data_source_returns_raw_body (rt : Runtime) (ps : ProviderSettings)
    (config : GotDataSource) (response : Response) (rest : string) :
  answers ps response →
  urlsParse rt →
  HasError (Append [] (got_ds_diags config)) = false →
  Status response = String "2" rest →
  ∃ request,
    FhirResourceDataSource_Read rt ps config
    = mkRun (Append [] (got_ds_diags config)) [request]
            (Returns (Some (mkFhirResourceDataSourceModel
                              (ds_ResourceId (got_ds config))
                              (StringValue (resp_Body response))))) ∧
    Method request = "GET" ∧
    URL request
    = Sprintf_s_slash_s (FhirBaseUrl ps) (ValueString (ds_ResourceId (got_ds config))) ∧
    req_Body request = None.
Proof.
  intros Hanswers Hurl Hdiags Hstatus. unfold answers, urlsParse in *.
  eexists. split.
  - unfold FhirResourceDataSource_Read. rewrite Hdiags.
    erewrite ReadFhirResource_returns by eauto. reflexivity.
  - unfold plainRequest.
    by split_and!;
      [rewrite (proj1 (withHeaders_frame rt _ _))
      | rewrite (proj1 (proj2 (withHeaders_frame rt _ _)))
      | rewrite (proj2 (proj2 (withHeaders_frame rt _ _)))].
Qed.

Lemma X16_data_source_returns_raw_body_witness :
  ∃ request,
    FhirResourceDataSource_Read Sample.rt (Sample.settings "200 OK" "not json at all")
      (Fixtures.lookedUp "Medication/08146022")
    = mkRun [] [request]
            (Returns (Some (mkFhirResourceDataSourceModel
                              (StringValue "Medication/08146022")
                              (StringValue "not json at all")))) ∧
    Method request = "GET" ∧
    URL request = "http://fhir.example/Medication/08146022" ∧
    req_Body request = None.
Proof.
  refine (X16_data_source_returns_raw_body Sample.rt
            (Sample.settings "200 OK" "not json at all")
            (Fixtures.lookedUp "Medication/08146022")
            (mkResponse "200 OK" "not json at all") "00 OK" _ _ eq_refl eq_refl).
  - intros request. reflexivity.
  - intros url. reflexivity.
Defined.

(** ** Nothing but the configured headers *)

Lemma setDefaultHeaders_only (rt : Runtime) (headers : list (string * string))
    (request : Request) (key : string) (values : list string) :
  req_Header (setDefaultHeaders rt request headers) !! key = Some values →
  req_Header request !! key = Some values ∨
  ∃ k v, (k, v) ∈ headers ∧ CanonicalMIMEHeaderKey rt k = key ∧ values = [v].
Proof.
  revert request.
  induction headers as [| [k0 v0] tail IH]; intros request Hlookup; [by left |].
  rewrite setDefaultHeaders_cons in Hlookup.
  destruct (IH _ Hlookup) as [Hset | (k & v & Hin & Hkey & Hvalues)].
  - destruct (decide (CanonicalMIMEHeaderKey rt k0 = key)) as [<- | Hne].
    + rewrite Header_Set_lookup in Hset. injection Hset as <-.
      right. exists k0, v0. split; [by left | done].
    + rewrite Header_Set_lookup_ne in Hset by done. by left.
  - right. exists k, v. split; [by right | done].
Qed.

Lemma issued_from_empty_header (rt : Runtime) (r : FhirResource) (request : Request) :
  (∃ plan, request ∈ issued (FhirResource_Create rt r plan)) ∨
  (∃ state, request ∈ issued (FhirResource_Read rt r state)) ∨
  (∃ prior plan, request ∈ issued (FhirResource_Update rt r prior plan)) ∨
  (∃ state, request ∈ issued (FhirResource_Delete rt r state)) ∨
  (∃ config,
     request ∈ issued (FhirResourceDataSource_Read rt (providerSettings r) config)) →
  ∃ bare,
    req_Header bare = ∅ ∧
    request = withHeaders rt bare (DefaultHeaders (providerSettings r)).
Proof.
  intros [[plan Hin] | [[state Hin] | [(prior & plan & Hin) | [[state Hin] | [config Hin]]]]].
  - pose proof (FhirResource_Create_run rt r plan) as Hrun. simpl in Hrun.
    destruct (HasError _).
    + rewrite Hrun in Hin. by apply elem_of_nil in Hin.
    + destruct Hrun as [Hrun _]. rewrite Hrun in Hin.
      destruct (persistFhirResource_issued rt _ _ _ _ Hin)
        as (fileContent & kv & type & _ & _ & _ & -> & _).
      unfold persistRequest. eexists; (split; [| reflexivity]); reflexivity.
  - pose proof (FhirResource_Read_run rt r state) as Hrun. simpl in Hrun.
    destruct (HasError _).
    + rewrite Hrun in Hin. by apply elem_of_nil in Hin.
    + rewrite Hrun in Hin.
      destruct (ReadFhirResource_issued rt _ _ _ _ Hin) as [-> _].
      unfold plainRequest. eexists; (split; [| reflexivity]); reflexivity.
  - pose proof (FhirResource_Update_run rt r prior plan) as Hrun. simpl in Hrun.
    destruct (HasError _).
    + rewrite Hrun in Hin. by apply elem_of_nil in Hin.
    + destruct Hrun as [Hrun _]. rewrite Hrun in Hin.
      destruct (persistFhirResource_issued rt _ _ _ _ Hin)
        as (fileContent & kv & type & _ & _ & _ & -> & _).
      unfold persistRequest.
      destruct (ValueStringPointer (ResourceId (got prior)));
        eexists; (split; [| reflexivity]); reflexivity.
  - destruct (FhirResource_Delete_issued rt _ _ _ Hin) as [-> _].
    unfold plainRequest. eexists; (split; [| reflexivity]); reflexivity.
  - pose proof (FhirResourceDataSource_Read_run rt (providerSettings r) config) as Hrun.
    simpl in Hrun. destruct (HasError _).
    + rewrite Hrun in Hin. by apply elem_of_nil in Hin.
    + destruct Hrun as [Hrun _]. rewrite Hrun in Hin.
      destruct (ReadFhirResource_issued rt _ _ _ _ Hin) as [-> _].
      unfold plainRequest. eexists; (split; [| reflexivity]); reflexivity.
Qed.

(** X17. A request never carries a header the configuration did not ask for:
    on every request of [Create], [Read], [Update], [Delete] and the data
    source's [Read], each header that is present is either the content type
    with the single value [application/json] or a configured default under
    its canonical key with its single configured value. *)
Theorem X17_only_configured_headers (rt : Runtime) (r : FhirResource)
    (request : Request) (key : string) (values : list string) :
  (∃ plan, request ∈ issued (FhirResource_Create rt r plan)) ∨
  (∃ state, request ∈ issued (FhirResource_Read rt r state)) ∨
  (∃ prior plan, request ∈ issued (FhirResource_Update rt r prior plan)) ∨
  (∃ state, request ∈ issued (FhirResource_Delete rt r state)) ∨
  (∃ config,
     request ∈ issued (FhirResourceDataSource_Read rt (providerSettings r) config)) →
  req_Header request !! key = Some values →
  (key = CanonicalMIMEHeaderKey rt "Content-Type" ∧ values = ["application/json"]) ∨
  ∃ k v,
    (k, v) ∈ DefaultHeaders (providerSettings r) ∧
    CanonicalMIMEHeaderKey rt k = key ∧
    values = [v].
Proof.
  intros Hin Hlookup.
  destruct (issued_from_empty_header rt r request Hin) as (bare & Hempty & ->).
  unfold withHeaders in Hlookup.
  destruct (decide (CanonicalMIMEHeaderKey rt "Content-Type" = key)) as [<- | Hne].
  - rewrite Header_Set_lookup in Hlookup. injection Hlookup as <-. by left.
  - rewrite Header_Set_lookup_ne in Hlookup by done.
    destruct (setDefaultHeaders_only rt _ _ _ _ Hlookup) as [Hbare | Hdefault].
    + rewrite Hempty in Hbare. unfold Header in Hbare.
      by rewrite lookup_empty in Hbare.
    + by right.
Qed.

Lemma X17_only_configured_headers_witness :
  ("Accept" = "Content-Type" ∧ ["application/fhir+json"] = ["application/json"]) ∨
  ∃ k v,
    (k, v) ∈ DefaultHeaders (Sample.settings "204 No Content" "") ∧
    Sample.CanonicalMIMEHeaderKey k = "Accept" ∧
    ["application/fhir+json"] = [v].
Proof.
  apply (X17_only_configured_headers Sample.rt (Sample.resource "204 No Content" "")
           (plainRequest Sample.rt "DELETE" "http://fhir.example/Patient/1"
              (Sample.settings "204 No Content" ""))
           "Accept" ["application/fhir+json"]).
  - right. right. right. left.
    exists (Sample.stored "patient.json" "Patient/1" StringNull).
    vm_compute. left.
  - vm_compute. reflexivity.
Defined.

(** ** What [Create] and [Read] save *)

(** X18. A state saved by [Create] is the plan with two fields filled in:
    [file_path], [file_sha256] and [fhir_base_url] are the plan's, the
    identifier is the local document's resource type (printed with [%s]), a
    slash, and the [id] of the decoded response, and the fingerprint is the
    digest of the response body. And [Create] does save that state against a
    server whose answer has a status that starts with 2 and a body that
    decodes to an object with a string [id], when the plan is read without
    error, the document is usable and the URL parses. *)
Theorem X18_create_saved_state (rt : Runtime) (r : FhirResource) (plan : Got) :
  (∀ fileContent kv type response rest responseJson id,
     answers (providerSettings r) response →
     urlsParse rt →
     Status response = String "2" rest →
     json_Unmarshal rt (resp_Body response) = inr (Some responseJson) →
     responseJson !! "id" = Some (JString id) →
     HasError (Append [] (got_diags plan)) = false →
     documentReady rt (ValueString (FilePath (got plan))) fileContent kv type →
     completion (FhirResource_Create rt r plan)
     = Returns
         (Some (mkFhirResourceModel (FilePath (got plan)) (FileSha256 (got plan))
                  (model_FhirBaseUrl (got plan))
                  (StringValue (Sprintf_s_slash_s (Sprintf_s rt (Some type)) id))
                  (StringValue
                     (hex_EncodeToString (sha256.Sum256 (resp_Body response))))))) ∧
  (∀ saved,
     completion (FhirResource_Create rt r plan) = Returns (Some saved) →
     ∃ fileContent kv type response responseJson id,
       documentReady rt (ValueString (FilePath (got plan))) fileContent kv type ∧
       Client (providerSettings r)
         (persistRequest rt (withSettings r (got plan)) None fileContent kv type)
       = inr response ∧
       json_Unmarshal rt (resp_Body response) = inr (Some responseJson) ∧
       responseJson !! "id" = Some (JString id) ∧
       saved
       = mkFhirResourceModel (FilePath (got plan)) (FileSha256 (got plan))
           (model_FhirBaseUrl (got plan))
           (StringValue (Sprintf_s_slash_s (Sprintf_s rt (Some type)) id))
           (StringValue (hex_EncodeToString (sha256.Sum256 (resp_Body response))))).
Proof.
  split.
  - intros fileContent kv type response rest responseJson id.
    apply FhirResource_Create_saves.
  - intros saved Hsaved.
    destruct (FhirResource_Create_saved rt r plan saved Hsaved)
      as (body & responseJson & resourceType & id & Hpersist & _ & Hid & ->).
    destruct (persistFhirResource_success rt _ _ _ _ _ _ Hpersist)
      as (fileContent & kv & type & response & rest &
          Hfile & Hjson & Htype & _ & Hclient & _ & -> & Hbody & [= ->]).
    exists fileContent, kv, type, response, responseJson, id.
    by split_and!.
Qed.

Lemma X18_create_saved_state_witness :
  completion (FhirResource_Create Sample.rt
                (Sample.resource "201 Created" Sample.body_id1)
                (Sample.planned "patient.json" StringNull))
  = Returns
      (Some (mkFhirResourceModel (StringValue "patient.json") StringNull StringNull
               (StringValue "Patient/1")
               (StringValue
                  "5811967f540d300d249ab30ae681359a7815fdb5d3dc71a94be1d491006a6b27"))).
Proof.
  refine (proj1 (X18_create_saved_state Sample.rt
            (Sample.resource "201 Created" Sample.body_id1)
            (Sample.planned "patient.json" StringNull))
            Sample.doc_Patient {["resourceType" := JString "Patient"]}
            (JString "Patient") (mkResponse "201 Created" Sample.body_id1)
            "01 Created" {["id" := JString "1"]} "1" _ _ eq_refl eq_refl eq_refl
            eq_refl _).
  - intros request. reflexivity.
  - intros url. reflexivity.
  - split; [reflexivity | split; reflexivity].
Defined.

(** X19. A state saved by [Read] is the prior state with the identifier and
    the fingerprint replaced: [file_path], [file_sha256] and [fhir_base_url]
    stay as they were, the identifier is rebuilt from the response's own
    [resourceType] and [id], and the fingerprint is the digest of the
    response body. And [Read] does save that state against a server whose
    answer has a status that starts with 2 and a body that decodes to an
    object with a string [resourceType] and a string [id], when the state is
    read without error and the URL parses. *)
Theorem X19_read_saved_state (rt : Runtime) (r : FhirResource) (state : Got) :
  (∀ response rest responseJson type id,
     answers (providerSettings r) response →
     urlsParse rt →
     Status response = String "2" rest →
     json_Unmarshal rt (resp_Body response) = inr (Some responseJson) →
     responseJson !! "id" = Some (JString id) →
     responseJson !! "resourceType" = Some (JString type) →
     HasError (Append [] (got_diags state)) = false →
     completion (FhirResource_Read rt r state)
     = Returns
         (Some (mkFhirResourceModel (FilePath (got state)) (FileSha256 (got state))
                  (model_FhirBaseUrl (got state))
                  (StringValue (Sprintf_s_slash_s type id))
                  (StringValue
                     (hex_EncodeToString (sha256.Sum256 (resp_Body response))))))) ∧
  (∀ saved,
     completion (FhirResource_Read rt r state) = Returns (Some saved) →
     ∃ request response responseJson type id,
       issued (FhirResource_Read rt r state) = [request] ∧
       Client (providerSettings r) request = inr response ∧
       json_Unmarshal rt (resp_Body response) = inr responseJson ∧
       index responseJson "resourceType" = Some (JString type) ∧
       index responseJson "id" = Some (JString id) ∧
       saved
       = mkFhirResourceModel (FilePath (got state)) (FileSha256 (got state))
           (model_FhirBaseUrl (got state))
           (StringValue (Sprintf_s_slash_s type id))
           (StringValue (hex_EncodeToString (sha256.Sum256 (resp_Body response))))).
Proof.
  split.
  - intros response rest responseJson type id.
    apply FhirResource_Read_saves.
  - intros saved Hsaved.
    destruct (FhirResource_Read_saved rt r state saved Hsaved)
      as (body & responseJson & type & id & Hread & Hissued & Hjson & Hid & Htype & ->).
    destruct (ReadFhirResource_success rt _ _ _ _ Hread)
      as (response & rest & Hrun & Hclient & _ & [= ->]).
    eexists _, response, responseJson, type, id.
    split_and!; try done. by rewrite Hissued, Hrun.
Qed.

Lemma X19_read_saved_state_witness :
  completion (FhirResource_Read Sample.rt
                (Sample.resource "200 OK" Sample.body_Person1)
                (Sample.stored "patient.json" "Patient/1" StringNull))
  = Returns
      (Some (mkFhirResourceModel (StringValue "patient.json") (StringValue "0f0f")
               StringNull (StringValue "Person/1")
               (StringValue
                  "3fe5174a25b2f8636ff02031278707cc2d2b922669559065c949669ff92743b9"))).
Proof.
  refine (proj1 (X19_read_saved_state Sample.rt
            (Sample.resource "200 OK" Sample.body_Person1)
            (Sample.stored "patient.json" "Patient/1" StringNull))
            (mkResponse "200 OK" Sample.body_Person1) "00 OK"
            (<["resourceType" := JString "Person"]> {["id" := JString "1"]})
            "Person" "1" _ _ eq_refl eq_refl eq_refl eq_refl eq_refl).
  - intros request. reflexivity.
  - intros url. reflexivity.
Defined.

(** X20. Reading again changes nothing while the server answers the same:
    when [Read] saved a state against a server that gives one answer to every
    request, a second [Read] that starts from the saved state saves that very
    state again, with no diagnostic. *)
Theorem X20_read_is_idempotent (rt : Runtime) (r : FhirResource) (state : Got)
    (response : Response) (saved : FhirResourceModel) :
  answers (providerSettings r) response →
  urlsParse rt →
  completion (FhirResource_Read rt r state) = Returns (Some saved) →
  ∃ request,
    FhirResource_Read rt r (mkGot saved []) = mkRun [] [request] (Returns (Some saved)).
Proof.
  intros Hanswers Hurl Hsaved. unfold answers, urlsParse in *.
  destruct (FhirResource_Read_saved rt r state saved Hsaved)
    as (body & responseJson & type & id & Hread & _ & Hjson & Hid & Htype & ->).
  destruct (ReadFhirResource_success rt _ _ _ _ Hread)
    as (response' & rest & _ & Hclient & Hstatus & [= ->]).
  unfold readSettings in Hclient. simpl in Hclient.
  rewrite Hanswers in Hclient. injection Hclient as <-.
  eexists. unfold FhirResource_Read, ReadFhirResource_with_override. simpl.
  erewrite ReadFhirResource_returns by eauto.
  simpl. by rewrite Hjson, Hid, Htype.
Qed.

Lemma X20_read_is_idempotent_witness :
  let saved :=
    mkFhirResourceModel (StringValue "patient.json") (StringValue "0f0f") StringNull
      (StringValue "Person/1")
      (StringValue "3fe5174a25b2f8636ff02031278707cc2d2b922669559065c949669ff92743b9") in
  ∃ request,
    FhirResource_Read Sample.rt (Sample.resource "200 OK" Sample.body_Person1)
      (mkGot saved [])
    = mkRun [] [request] (Returns (Some saved)).
Proof.
  intros saved.
  refine (X20_read_is_idempotent Sample.rt
            (Sample.resource "200 OK" Sample.body_Person1)
            (Sample.stored "patient.json" "Patient/1" StringNull)
            (mkResponse "200 OK" Sample.body_Person1) saved _ _ _).
  - intros request. reflexivity.
  - intros url. reflexivity.
  - vm_compute. reflexivity.
Defined.

(** ** Configuration *)

Lemma AddError_twice (ds : Diagnostics) (summary detail : string) :
  AddError (AddError ds summary detail) summary detail = AddError ds summary detail.
Proof.
  assert (mkDiagnostic SeverityError summary detail ∈ AddError ds summary detail) as Hin.
  { unfold AddError, Append. simpl. case_decide; [done |].
    apply elem_of_app. right. by left. }
  unfold AddError at 1. unfold Append. simpl. by case_decide.
Qed.

(** X21. [Configure] of the resource and of the data source behave alike and
    are idempotent. Provider data of a foreign type is reported as an error
    and clears the stored settings, even settings stored by an earlier call;
    nil provider data changes nothing; and repeating a call with the same
    provider data leaves the settings and the collector as the first call
    left them (the error is not reported twice). *)
Theorem X21_configure (current : option ProviderSettings) (data : ProviderData)
    (diags : Diagnostics) :
  FhirResourceDataSource_Configure current data diags
  = FhirResource_Configure current data diags ∧
  (data = ProviderData_nil → FhirResource_Configure current data diags = (current, diags)) ∧
  (∀ typeName,
     data = ProviderData_other typeName →
     (FhirResource_Configure current data diags).1 = None ∧
     HasError (FhirResource_Configure current data diags).2 = true) ∧
  FhirResource_Configure (FhirResource_Configure current data diags).1 data
    (FhirResource_Configure current data diags).2
  = FhirResource_Configure current data diags.
Proof.
  split_and!.
  - done.
  - by intros ->.
  - intros typeName ->. split; [done | apply HasError_AddError].
  - destruct data as [| pointer | typeName]; simpl; try done.
    by rewrite AddError_twice.
Qed.

Lemma X21_configure_witness :
  (FhirResource_Configure (Some (Sample.settings "200 OK" "")) (ProviderData_other "string") []).1
  = None ∧
  HasError
    (FhirResource_Configure (Some (Sample.settings "200 OK" ""))
       (ProviderData_other "string") []).2 = true.
Proof.
  apply (proj1 (proj2 (proj2 (X21_configure (Some (Sample.settings "200 OK" ""))
                                 (ProviderData_other "string") []))) "string").
  reflexivity.
Defined.

(** X22. The provider's [Configure] and the handlers' [Configure] compose: a
    configuration read without error hands one and the same settings to
    resources and data sources (the base URL of the configuration, its
    headers, the default client), either [Configure] stores them without a
    diagnostic, and a [Delete] that runs with them and without an override
    sends its request under the configured base URL. A configuration read
    with an error hands on nothing, and the handlers' [Configure] then leaves
    its field as it was. *)
Theorem X22_provider_configuration_reaches_handlers (rt : Runtime) (tfMap : Type)
    (ElementsAs : tfMap → list (string * string))
    (DefaultClient : Request → string + Response)
    (data : FhirRestProviderModel tfMap) (get_diags : Diagnostics)
    (current : option ProviderSettings) (diags : Diagnostics) :
  let resp := FhirRestProvider_Configure tfMap ElementsAs DefaultClient data get_diags in
  let settings :=
    mkProviderSettings (ValueString (provider_FhirBaseUrl tfMap data))
                       (ElementsAs (provider_DefaultHeaders tfMap data)) DefaultClient in
  (HasError get_diags = false →
   FhirResource_Configure current (ResourceData resp) diags = (Some settings, diags) ∧
   FhirResourceDataSource_Configure current (DataSourceData resp) diags
   = (Some settings, diags) ∧
   ∀ resourceSettings state request,
     model_FhirBaseUrl (got state) = StringNull →
     request ∈ issued (FhirResource_Delete rt
                         (mkFhirResource settings resourceSettings) state) →
     URL request
     = Sprintf_s_slash_s (ValueString (provider_FhirBaseUrl tfMap data))
                         (ValueString (ResourceId (got state)))) ∧
  (HasError get_diags = true →
   FhirResource_Configure current (ResourceData resp) diags = (current, diags) ∧
   FhirResourceDataSource_Configure current (DataSourceData resp) diags
   = (current, diags)).
Proof.
  intros resp settings. unfold resp, FhirRestProvider_Configure.
  rewrite HasError_Append. simpl. split; intros ->; simpl; [| done].
  split_and!; try done.
  intros resourceSettings state request Hnull Hin.
  destruct (FhirResource_Delete_issued rt _ _ _ Hin) as [-> _].
  unfold plainRequest. rewrite (proj1 (proj2 (withHeaders_frame rt _ _))).
  by rewrite Hnull.
Qed.

Lemma X22_provider_configuration_reaches_handlers_witness :
  FhirResource_Configure None
    (ResourceData
       (FhirRestProvider_Configure (list (string * string)) (fun headers => headers)
          (Sample.server "204 No Content" "")
          (mkFhirRestProviderModel (list (string * string))
             (StringValue "http://fhir.example") [("Accept", "application/fhir+json")])
          []))
    []
  = (Some (mkProviderSettings "http://fhir.example" [("Accept", "application/fhir+json")]
             (Sample.server "204 No Content" "")), []).
Proof.
  refine (proj1 (proj1 (X22_provider_configuration_reaches_handlers Sample.rt
                          (list (string * string)) (fun headers => headers)
                          (Sample.server "204 No Content" "")
                          (mkFhirRestProviderModel (list (string * string))
                             (StringValue "http://fhir.example")
                             [("Accept", "application/fhir+json")])
                          [] None []) eq_refl)).
Defined.

(** ** [Create] followed by [Read] *)

(** X23. [Create] and [Read] agree when the server echoes the document's
    type: against a server that answers every request with one successful
    response carrying a string [id] and the same [resourceType] as the local
    document, [Create] saves a state, and a [Read] that starts from that
    state saves the very same state again (same identifier, same
    fingerprint, same configuration fields). *)
Theorem X23_create_then_read (rt : Runtime) (r : FhirResource) (plan : Got)
    (response : Response) (rest fileContent type id : string)
    (kv responseJson : gmap string JValue) :
  answers (providerSettings r) response →
  urlsParse rt →
  Status response = String "2" rest →
  json_Unmarshal rt (resp_Body response) = inr (Some responseJson) →
  responseJson !! "id" = Some (JString id) →
  responseJson !! "resourceType" = Some (JString type) →
  HasError (Append [] (got_diags plan)) = false →
  documentReady rt (ValueString (FilePath (got plan))) fileContent kv (JString type) →
  let saved :=
    mkFhirResourceModel (FilePath (got plan)) (FileSha256 (got plan))
      (model_FhirBaseUrl (got plan))
      (StringValue (Sprintf_s_slash_s type id))
      (StringValue (hex_EncodeToString (sha256.Sum256 (resp_Body response)))) in
  completion (FhirResource_Create rt r plan) = Returns (Some saved) ∧
  completion (FhirResource_Read rt r (mkGot saved [])) = Returns (Some saved).
Proof.
  intros Hanswers Hurl Hstatus Hbody Hid Htype Hdiags (Hfile & Hjson & Hdoc) saved.
  unfold answers, urlsParse in *. split.
  - unfold FhirResource_Create. rewrite Hdiags.
    erewrite persistFhirResource_returns by eauto.
    simpl. by rewrite Hid.
  - unfold FhirResource_Read, ReadFhirResource_with_override. simpl.
    erewrite ReadFhirResource_returns by eauto.
    simpl. by rewrite Hbody; simpl; rewrite Hid, Htype.
Qed.

Lemma X23_create_then_read_witness :
  let saved :=
    mkFhirResourceModel (StringValue "person.json") StringNull StringNull
      (StringValue "Person/1")
      (StringValue "3fe5174a25b2f8636ff02031278707cc2d2b922669559065c949669ff92743b9") in
  completion (FhirResource_Create Fixtures.rt
                (Sample.resource "201 Created" Sample.body_Person1)
                (Sample.planned "person.json" StringNull)) = Returns (Some saved) ∧
  completion (FhirResource_Read Fixtures.rt
                (Sample.resource "201 Created" Sample.body_Person1)
                (mkGot saved [])) = Returns (Some saved).
Proof.
  refine (X23_create_then_read Fixtures.rt
            (Sample.resource "201 Created" Sample.body_Person1)
            (Sample.planned "person.json" StringNull)
            (mkResponse "201 Created" Sample.body_Person1) "01 Created"
            Fixtures.doc_Person "Person" "1"
            {["resourceType" := JString "Person"]}
            (<["resourceType" := JString "Person"]> {["id" := JString "1"]})
            _ _ eq_refl eq_refl eq_refl eq_refl eq_refl _).
  - intros request. reflexivity.
  - intros url. reflexivity.
  - by split_and!.
Defined.
